(** * Selector ReACT agents: tool-invocation layer

    A shallow embedding of the NetBox and OpenCVE tool functions
    ([netbox_agent.py], [opencve_agent.py]) and the properties of their
    validation, retry, lookup-then-delete, fallback and normalisation logic,
    followed by the Selector tools ([selector_natural_language_agent.py],
    [selector_data_agent.py]) and the router's [selector_agent_func].

    Python values are modelled by [Py.value]; dictionaries are finite maps
    with string keys.  A string is a sequence of characters, each of them a
    code point below U+0100, numbered by [nat_of_ascii]: slicing and
    lengths count characters, as Python does, and the string methods treat
    every one of these code points as Python does.  Text with a code point
    from U+0100 on is outside the model.  Numbers are integers (backend
    counts, identifiers and status codes).
    Functions that talk to the network live in a monad that threads the
    trace of requests and sleeps and may raise a Python exception. *)

From Stdlib Require Import ZArith String Ascii List DecimalString Lia.
From stdpp Require Import base option list gmap strings.

#[local] Open Scope string_scope.
#[local] Open Scope list_scope.
#[local] Set Warnings "-register-all".

(* ===================================================================== *)
(** ** Python values and the string methods the agents use *)
(* ===================================================================== *)

Module Py.

Inductive value : Type :=
| VNone
| VBool (b : bool)
| VInt (z : Z)
| VStr (s : string)
| VList (l : list value)
| VDict (d : gmap string value).

Abbreviation dict := (gmap string value).

(** [bool(v)]: the truth value Python gives to [v] in [if v] / [not v]. *)
Definition truthy (v : value) : bool :=
  match v with
  | VNone => false
  | VBool b => b
  | VInt z => negb (z =? 0)%Z
  | VStr s => negb (String.eqb s "")
  | VList l => match l with [] => false | _ :: _ => true end
  | VDict d => negb (Nat.eqb (size d) 0)
  end.

(** [v == 0] for the integer zero ([False == 0] holds in Python). *)
Definition eq_zero (v : value) : bool :=
  match v with
  | VInt z => (z =? 0)%Z
  | VBool b => negb b
  | _ => false
  end.

(** [v == s] for a string literal [s]. *)
Definition eq_str (v : value) (s : string) : bool :=
  match v with
  | VStr t => String.eqb t s
  | _ => false
  end.

(** [str(n)] for an integer. *)
Definition str_of_Z (z : Z) : string := NilZero.string_of_int (Z.to_int z).

Definition str_of_nat (n : nat) : string := str_of_Z (Z.of_nat n).

(** [s.lstrip(c)] and [s.rstrip(c)] for a one-character argument. *)
Fixpoint lstrip_char (c : ascii) (s : string) : string :=
  match s with
  | EmptyString => EmptyString
  | String a s' => if Ascii.eqb a c then lstrip_char c s' else s
  end.

Fixpoint rstrip_char (c : ascii) (s : string) : string :=
  match s with
  | EmptyString => EmptyString
  | String a s' =>
      let t := rstrip_char c s' in
      if Ascii.eqb a c && String.eqb t "" then EmptyString else String a t
  end.

(** Whitespace as [str.strip()] sees it, among the code points below
    U+0100: TAB, LF, VT, FF, CR, the separators U+001C..U+001F, the space,
    NEXT LINE (U+0085) and the no-break space (U+00A0). *)
Definition is_space (a : ascii) : bool :=
  let n := nat_of_ascii a in
  (((9 <=? n) && (n <=? 13)) || ((28 <=? n) && (n <=? 32))
   || (n =? 133) || (n =? 160))%nat.

Fixpoint lstrip (s : string) : string :=
  match s with
  | EmptyString => EmptyString
  | String a s' => if is_space a then lstrip s' else s
  end.

Fixpoint rstrip (s : string) : string :=
  match s with
  | EmptyString => EmptyString
  | String a s' =>
      let t := rstrip s' in
      if is_space a && String.eqb t "" then EmptyString else String a t
  end.

Definition strip (s : string) : string := rstrip (lstrip s).

(** [s.lower()], character by character.  Below U+0100 the capital
    letters are A..Z (U+0041..U+005A) and U+00C0..U+00DE without the
    multiplication sign U+00D7; each has its small letter 32 places on.
    Every other code point below U+0100 is its own lowercase. *)
Definition lower_char (a : ascii) : ascii :=
  let n := nat_of_ascii a in
  if (((65 <=? n) && (n <=? 90))
      || ((192 <=? n) && (n <=? 222) && negb (n =? 215)))%nat
  then ascii_of_nat (n + 32) else a.

Fixpoint lower (s : string) : string :=
  match s with
  | EmptyString => EmptyString
  | String a s' => String (lower_char a) (lower s')
  end.

(** [s.replace(a, b)] for one-character [a] and [b]. *)
Fixpoint replace_char (a b : ascii) (s : string) : string :=
  match s with
  | EmptyString => EmptyString
  | String c s' => String (if Ascii.eqb c a then b else c) (replace_char a b s')
  end.

(** [s.split(sep)] for a one-character separator: never the empty list. *)
Fixpoint split (sep : ascii) (s : string) : list string :=
  match s with
  | EmptyString => [EmptyString]
  | String c s' =>
      if Ascii.eqb c sep then EmptyString :: split sep s'
      else match split sep s' with
           | w :: ws => String c w :: ws
           | [] => [String c EmptyString]
           end
  end.

(** [sep.join(parts)]. *)
Definition join (sep : string) (parts : list string) : string :=
  String.concat sep parts.

(** [s[:n]]. *)
Fixpoint slice_to (n : nat) (s : string) : string :=
  match n, s with
  | S n', String c s' => String c (slice_to n' s')
  | _, _ => EmptyString
  end.

(** The exceptions the tool functions can meet.  Every exception of the
    [requests] library derives from [RequestException] and carries the text
    that [str(e)] shows. *)
Inductive exn : Type :=
| RequestException (msg : string)
| AttributeError
| KeyError
| IndexError
| TypeError.

(** What the interpreter and its libraries supply: the JSON parser
    ([json.loads], [Response.json]) with the text of its decode error, the
    rendering of containers in an f-string, and [str(e)] for the built-in
    exceptions.  The parser either returns a value or raises its decode
    error ([inr]); a document on which it fails otherwise (an integer
    literal beyond the interpreter's digit limit, nesting beyond its
    recursion limit) is outside the model. *)
Record runtime : Type := {
  json_loads : string -> value + string;
  repr : value -> string;
  str_builtin : exn -> string
}.

(** [str(v)], as an f-string field [{v}] renders it. *)
Definition str (rt : runtime) (v : value) : string :=
  match v with
  | VStr s => s
  | VInt z => str_of_Z z
  | VNone => "None"
  | VBool true => "True"
  | VBool false => "False"
  | _ => repr rt v
  end.

(** [str(e)] for an exception. *)
Definition str_exn (rt : runtime) (e : exn) : string :=
  match e with
  | RequestException msg => msg
  | _ => str_builtin rt e
  end.

(** [{"error": v}], and the usual case of a message. *)
Definition error_dict_of (v : value) : dict := {[ "error" := v ]}.

Definition error_dict (msg : string) : dict := error_dict_of (VStr msg).

End Py.

Import Py.

(* ===================================================================== *)
(** ** Regular expressions, as far as [re.match] is used *)
(* ===================================================================== *)

Module Re.

Inductive regex : Type :=
| Empty
| Eps
| Chr (c : ascii)
| Range (lo hi : ascii)
| Cat (r1 r2 : regex)
| Alt (r1 r2 : regex)
| Star (r : regex).

(** [r+] *)
Definition plus (r : regex) : regex := Cat r (Star r).

(** A literal string. *)
Fixpoint lit (s : string) : regex :=
  match s with
  | EmptyString => Eps
  | String c s' => Cat (Chr c) (lit s')
  end.

Fixpoint nullable (r : regex) : bool :=
  match r with
  | Empty => false
  | Eps => true
  | Chr _ => false
  | Range _ _ => false
  | Cat r1 r2 => nullable r1 && nullable r2
  | Alt r1 r2 => nullable r1 || nullable r2
  | Star _ => true
  end.

Definition in_range (lo hi c : ascii) : bool :=
  ((nat_of_ascii lo <=? nat_of_ascii c) && (nat_of_ascii c <=? nat_of_ascii hi))%nat.

(** The derivative of [r] by the character [c]. *)
Fixpoint deriv (c : ascii) (r : regex) : regex :=
  match r with
  | Empty => Empty
  | Eps => Empty
  | Chr a => if Ascii.eqb a c then Eps else Empty
  | Range lo hi => if in_range lo hi c then Eps else Empty
  | Cat r1 r2 =>
      if nullable r1 then Alt (Cat (deriv c r1) r2) (deriv c r2)
      else Cat (deriv c r1) r2
  | Alt r1 r2 => Alt (deriv c r1) (deriv c r2)
  | Star r1 => Cat (deriv c r1) (Star r1)
  end.

(** [re.match(r, s)] is not [None]: some prefix of [s] is in the language
    of [r] (a leading [^] adds nothing to [re.match]). *)
Fixpoint re_match (r : regex) (s : string) : bool :=
  nullable r ||
  match s with
  | EmptyString => false
  | String c s' => re_match (deriv c r) s'
  end.

End Re.

(* ===================================================================== *)
(** ** The network, the trace of effects and the monad of the tool code *)
(* ===================================================================== *)

Module Http.

Inductive method : Type := GET | POST | DELETE.

(** One call of [requests.get], [requests.post] or [requests.delete]. *)
Record request : Type := Request {
  req_method : method;
  req_url : string;
  req_headers : gmap string string;
  req_params : option dict;
  req_json : option dict;
  req_auth : option (string * string)
}.

(** What the tool code reads of a [requests.Response]. *)
Record response : Type := Response {
  status_code : Z;
  reason : string;
  url : string;
  text : string
}.

(** A call either fails in transport (connection error, timeout, ...) with
    the text of the exception, or is answered. *)
Inductive reply : Type :=
| Failure (msg : string)
| Answer (r : response).

(** The observable effects, oldest first. *)
Inductive event : Type :=
| Sent (rq : request)
| Slept (seconds : nat).

Abbreviation trace := (list event).

(** The outside world: the reply to a request, given all that happened
    before it. *)
Definition network : Type := trace -> request -> reply.

Inductive outcome (A : Type) : Type :=
| Ret (a : A)
| Raise (e : exn).
Arguments Ret {A} a.
Arguments Raise {A} e.

(** A computation reads the trace so far and extends it. *)
Definition M (A : Type) : Type := trace -> outcome A * trace.

#[export] Instance M_ret : MRet M := fun A a tr => (Ret a, tr).

#[export] Instance M_bind : MBind M := fun A B f m tr =>
  match m tr with
  | (Ret a, tr') => f a tr'
  | (Raise e, tr') => (Raise e, tr')
  end.

Definition raise {A : Type} (e : exn) : M A := fun tr => (Raise e, tr).

(** [try: body / except requests.exceptions.RequestException as e: handler] *)
Definition try_except_request {A : Type} (body : M A) (handler : string -> M A) : M A :=
  fun tr =>
    match body tr with
    | (Raise (RequestException msg), tr') => handler msg tr'
    | other => other
    end.

(** [try: body / except Exception as e: handler] *)
Definition try_except {A : Type} (body : M A) (handler : exn -> M A) : M A :=
  fun tr =>
    match body tr with
    | (Raise e, tr') => handler e tr'
    | other => other
    end.

(** [time.sleep(seconds)] *)
Definition sleep (seconds : nat) : M unit := fun tr => (Ret tt, tr ++ [Slept seconds]).

(** The calls of the [requests] library: one exchange with the network; a
    transport failure is raised as a [RequestException]. *)
Definition send (net : network) (rq : request) : M response := fun tr =>
  match net tr rq with
  | Failure msg => (Raise (RequestException msg), tr ++ [Sent rq])
  | Answer r => (Ret r, tr ++ [Sent rq])
  end.

(** [response.raise_for_status()]: an [HTTPError] for every 4xx and 5xx
    status, with the text the library gives it. *)
Definition http_error_msg (r : response) : option string :=
  if ((400 <=? status_code r) && (status_code r <? 500))%Z then
    Some (str_of_Z (status_code r) +:+ " Client Error: " +:+ reason r
          +:+ " for url: " +:+ url r)
  else if ((500 <=? status_code r) && (status_code r <? 600))%Z then
    Some (str_of_Z (status_code r) +:+ " Server Error: " +:+ reason r
          +:+ " for url: " +:+ url r)
  else None.

Definition raise_for_status (r : response) : M unit :=
  match http_error_msg r with
  | Some msg => raise (RequestException msg)
  | None => mret tt
  end.

(** [response.json()]: the parsed body; a body that is not JSON raises the
    library's [JSONDecodeError], a [RequestException]. *)
Definition response_json (rt : runtime) (r : response) : M value :=
  match json_loads rt (text r) with
  | inl v => mret v
  | inr msg => raise (RequestException msg)
  end.

(** The text [str(e)] of the [RequestException] with which a call that
    sends one request, checks the status and parses the body fails on this
    reply; [None] when the call succeeds. *)
Definition request_error (rt : runtime) (rp : reply) : option string :=
  match rp with
  | Failure msg => Some msg
  | Answer r =>
      match http_error_msg r with
      | Some msg => Some msg
      | None =>
          match json_loads rt (text r) with
          | inl _ => None
          | inr msg => Some msg
          end
      end
  end.

(** A computation that leaves the trace as it found it. *)
Definition pure {A : Type} (m : M A) : Prop := forall tr, (m tr).2 = tr.

(** The requests and the delete calls of a trace. *)
Definition requests_of (tr : trace) : list request :=
  omap (fun ev => match ev with Sent rq => Some rq | Slept _ => None end) tr.

Definition is_delete (rq : request) : bool :=
  match req_method rq with DELETE => true | _ => false end.

Definition deletes_of (tr : trace) : list request :=
  List.filter is_delete (requests_of tr).

End Http.

Import Re Http.

(** [v.get(key, default)]: only a dictionary has the method. *)
Definition get_method (v : value) (key : string) (dflt : value) : M value :=
  match v with
  | VDict d => mret (default dflt (d !! key))
  | _ => raise AttributeError
  end.

(** [v[key]] for a string key. *)
Definition getitem_str (v : value) (key : string) : M value :=
  match v with
  | VDict d => match d !! key with Some x => mret x | None => raise KeyError end
  | _ => raise TypeError
  end.

(** [v[0]]. *)
Definition getitem_first (v : value) : M value :=
  match v with
  | VList (x :: _) => mret x
  | VList [] => raise IndexError
  | VStr (String c _) => mret (VStr (String c EmptyString))
  | VStr EmptyString => raise IndexError
  | VDict _ => raise KeyError
  | _ => raise TypeError
  end.

(** [key in d] *)
Definition has_key (d : dict) (key : string) : bool :=
  match d !! key with Some _ => true | None => false end.

(** A [for] loop whose body either returns from the function ([Some]) or
    goes on with the next element ([None]); [orelse] is the code after the
    loop. *)
Fixpoint for_each {A B : Type} (body : A -> M (option B)) (xs : list A) (orelse : M B) : M B :=
  match xs with
  | [] => orelse
  | x :: rest =>
      r ← body x;
      match r with
      | Some b => mret b
      | None => for_each body rest orelse
      end
  end.

(** A list comprehension [[f(x) for x in xs]]. *)
Fixpoint map_M {A B : Type} (f : A -> M B) (xs : list A) : M (list B) :=
  match xs with
  | [] => mret []
  | x :: rest => y ← f x; ys ← map_M f rest; mret (y :: ys)
  end.

(* ===================================================================== *)
(** ** netbox_agent.py *)
(* ===================================================================== *)

Module NetBox.

Record NetBoxController : Type := {
  netbox : string;
  api_token : string;
  headers : gmap string string
}.

(** [NetBoxController.__init__] *)
Definition NetBoxController_init (netbox_url token : string) : NetBoxController :=
  {| netbox := rstrip_char "/" netbox_url;
     api_token := token;
     headers := {[ "Accept" := "application/json";
                   "Authorization" := "Token " +:+ token ]} |}.

(** The pattern of [get_data_directly]: [^/api/[a-z]+/[a-z\-]+]. *)
Definition api_url_pattern : regex :=
  Cat (lit "/api/")
      (Cat (plus (Range "a" "z"))
           (Cat (Chr "/") (plus (Alt (Range "a" "z") (Chr "-"))))).

(** [{key: input_data[key] for key in expected_keys if key in input_data}] *)
Definition restrict_keys (expected_keys : list string) (input_data : dict) : dict :=
  foldl (fun acc key =>
           match input_data !! key with
           | Some v => <[ key := v ]> acc
           | None => acc
           end) ∅ expected_keys.

(** [expected_keys and len(input_data) > len(expected_keys)]; [None] and the
    empty list are both false. *)
Definition too_many_keys (expected_keys : option (list string)) (input_data : dict) : bool :=
  match expected_keys with
  | None => false
  | Some [] => false
  | Some ks => (length ks <? size input_data)%nat
  end.

Section Agent.

Context (rt : runtime) (net : network).
(** [os.getenv("NETBOX_URL")] and [os.getenv("NETBOX_TOKEN")]: the module
    sets both in [os.environ] when it is imported. *)
Context (NETBOX_URL NETBOX_TOKEN : string).

Definition get_api (self : NetBoxController) (api_url : value) (params : option dict) : M value :=
  match api_url with
  | VStr u =>
      let full_url := netbox self +:+ "/" +:+ lstrip_char "/" u in
      try_except_request
        (response ← send net (Request GET full_url (headers self) params None None);
         raise_for_status response;;
         response_json rt response)
        (fun e => mret (VDict (error_dict ("Request failed: " +:+ e))))
  | _ => raise AttributeError
  end.

Definition post_api (self : NetBoxController) (api_url : value) (payload : dict) : M value :=
  let full_url := netbox self +:+ str rt api_url in
  try_except_request
    (response ← send net (Request POST full_url (headers self) None (Some payload) None);
     raise_for_status response;;
     response_json rt response)
    (fun e => mret (VDict (error_dict ("Request failed: " +:+ e)))).

Definition delete_api (self : NetBoxController) (api_url : string) : M dict :=
  let full_url := netbox self +:+ api_url in
  try_except_request
    (response ← send net (Request DELETE full_url (headers self) None None None);
     if (status_code response =? 204)%Z then
       mret ({[ "status" := VStr "success";
                "message" := VStr "Deletion successful." ]} : dict)
     else
       mret (error_dict ("Failed to delete. Status code: "
                         +:+ str_of_Z (status_code response))))
    (fun e => mret (error_dict ("Request failed: " +:+ e))).

(** The [while retries < max_retries] loop of [validate_tool_input];
    [remaining] is [max_retries - retries]. *)
Fixpoint validate_loop (expected_keys : option (list string)) (remaining : nat)
    (input_data : value) : M dict :=
  match remaining with
  | O => mret (error_dict "Too many arguments provided, and retries exceeded.")
  | S remaining' =>
      match (match input_data with
             | VStr s => json_loads rt s
             | v => inl v
             end) with
      | inr _ => mret (error_dict "Invalid JSON format.")
      | inl (VDict d) =>
          if too_many_keys expected_keys d then
            sleep 1;;
            validate_loop expected_keys remaining'
              (VDict (restrict_keys (default [] expected_keys) d))
          else mret d
      | inl _ => mret (error_dict "Invalid input format. Expected JSON object.")
      end
  end.

Definition validate_tool_input (input_data : value) (expected_keys : option (list string))
    (max_retries : Z) : M dict :=
  validate_loop expected_keys (Z.to_nat max_retries) input_data.

(** One round of the [for attempt in range(1, retries + 1)] loop of
    [get_data_directly]. *)
Definition fetch_attempt (ctl : NetBoxController) (retries : nat) (api_url : value)
    (attempt : nat) : M (option dict) :=
  try_except
    (response ← get_api ctl api_url None;
     match response with
     | VDict d =>
         if truthy (default VNone (d !! "error")) then
           if (attempt =? retries)%nat then
             mret (Some (error_dict ("API request failed after " +:+ str_of_nat retries
                                     +:+ " attempts: "
                                     +:+ str rt (default VNone (d !! "error")))))
           else sleep 2;; mret None
         else
           mret (Some ({[ "status" := VStr "success";
                          "message" := VStr "Data fetched successfully.";
                          "data" := response ]} : dict))
     | _ =>
         mret (Some ({[ "status" := VStr "success";
                        "message" := VStr "Data fetched successfully.";
                        "data" := response ]} : dict))
     end)
    (fun e =>
       if (attempt =? retries)%nat then
         mret (Some (error_dict ("GET request failed after " +:+ str_of_nat retries
                                 +:+ " attempts: " +:+ str_exn rt e)))
       else sleep 2;; mret None).

(** The retry loop with its attempt budget. *)
Definition fetch_with_retries (ctl : NetBoxController) (retries : nat) (api_url : value) : M dict :=
  for_each (fetch_attempt ctl retries api_url) (seq 1 retries)
    (mret (error_dict "Unexpected failure in API request.")).

Definition get_data_directly (api_url : value) : M dict :=
  input_data ← validate_tool_input (VDict {[ "api_url" := api_url ]}) (Some ["api_url"]) 5;
  if has_key input_data "error" then mret input_data else
  api_url ← getitem_str (VDict input_data) "api_url";
  match api_url with
  | VStr u =>
      if negb (truthy api_url) then mret (error_dict "Invalid or missing `api_url`.")
      else if negb (re_match api_url_pattern u) then
        mret (error_dict ("Invalid API URL format: " +:+ u))
      else
        let netbox_controller := NetBoxController_init NETBOX_URL NETBOX_TOKEN in
        fetch_with_retries netbox_controller 5 api_url
  | _ => mret (error_dict "Invalid or missing `api_url`.")
  end.

Definition delete_data_handler (input_data : value) : M dict :=
  input_data ← validate_tool_input input_data (Some ["api_url"; "payload"]) 5;
  if has_key input_data "error" then mret input_data else
  let api_url := default VNone (input_data !! "api_url") in
  let payload := default (VDict ∅) (input_data !! "payload") in
  name ← get_method payload "name" VNone;
  if negb (truthy api_url) || negb (truthy name) then
    mret (error_dict "Both 'api_url' and 'payload' with 'name' are required.")
  else
    try_except
      (let netbox_controller := NetBoxController_init NETBOX_URL NETBOX_TOKEN in
       lookup_response ← get_api netbox_controller api_url (Some {[ "name" := name ]});
       count ← get_method lookup_response "count" (VInt 0);
       if eq_zero count then
         mret (error_dict ("No resource found at '" +:+ str rt api_url
                           +:+ "' with name '" +:+ str rt name +:+ "'."))
       else
         results ← getitem_str lookup_response "results";
         first ← getitem_first results;
         entity_id ← getitem_str first "id";
         match api_url with
         | VStr u =>
             let delete_url := rstrip_char "/" u +:+ "/" +:+ str rt entity_id +:+ "/" in
             delete_response ← delete_api netbox_controller delete_url;
             if eq_str (default VNone (delete_response !! "status")) "success" then
               mret ({[ "status" := VStr "success";
                        "message" := VStr ("Successfully deleted '" +:+ str rt name
                                           +:+ "' at " +:+ u +:+ ".") ]} : dict)
             else
               mret (error_dict_of (default (VStr "Unknown error during deletion.")
                                            (delete_response !! "error")))
         | _ => raise AttributeError
         end)
      (fun e => mret (error_dict ("Error deleting data: " +:+ str_exn rt e))).

End Agent.

(** *** Names for what the properties below talk about *)

(** The request [get_api] sends for the path [u]. *)
Definition get_request (ctl : NetBoxController) (u : string) (params : option dict) : request :=
  Request GET (netbox ctl +:+ "/" +:+ lstrip_char "/" u) (headers ctl) params None None.

(** The request [post_api] sends. *)
Definition post_request (rt : runtime) (ctl : NetBoxController) (api_url : value)
    (payload : dict) : request :=
  Request POST (netbox ctl +:+ str rt api_url) (headers ctl) None (Some payload) None.

(** The request [delete_api] sends. *)
Definition delete_request (ctl : NetBoxController) (path : string) : request :=
  Request DELETE (netbox ctl +:+ path) (headers ctl) None None None.

(** The name lookup of [delete_data_handler]. *)
Definition lookup_request (NETBOX_URL NETBOX_TOKEN u : string) (name : value) : request :=
  get_request (NetBoxController_init NETBOX_URL NETBOX_TOKEN) u (Some {[ "name" := name ]}).

(** The fetch of [get_data_directly]. *)
Definition fetch_request (NETBOX_URL NETBOX_TOKEN u : string) : request :=
  get_request (NetBoxController_init NETBOX_URL NETBOX_TOKEN) u None.

(** What the validator adds to the trace for a dictionary payload: one
    sleep when it has to strip keys, nothing otherwise. *)
Definition validation_sleeps (expected_keys : list string) (d : dict) : trace :=
  if too_many_keys (Some expected_keys) d then [Slept 1] else [].

(** The dictionary a tool input stands for: itself, or the object its text
    parses to. *)
Definition parsed_payload (rt : runtime) (input_data : value) : option dict :=
  match input_data with
  | VDict d => Some d
  | VStr s => match json_loads rt s with inl (VDict d) => Some d | _ => None end
  | _ => None
  end.

(** What the fetch loop takes for the failure of an attempt: the text under
    "error" when [get_api] returns a mapping with a true value there, be it
    the client's own "Request failed: ..." or a body of the backend. *)
Definition attempt_failure (rt : runtime) (rp : reply) : option string :=
  match request_error rt rp with
  | Some e => Some ("Request failed: " +:+ e)
  | None =>
      match rp with
      | Answer r =>
          match json_loads rt (text r) with
          | inl (VDict d) =>
              if truthy (default VNone (d !! "error"))
              then Some (str rt (default VNone (d !! "error")))
              else None
          | _ => None
          end
      | Failure _ => None
      end
  end.

(** [k] failed attempts of the fetch loop, each followed by its pause. *)
Definition retry_rounds (rq : request) (k : nat) : trace :=
  concat (replicate k [Sent rq; Slept 2]).

End NetBox.

(* ===================================================================== *)
(** ** opencve_agent.py *)
(* ===================================================================== *)

Module OpenCVE.

(** The alias table of [fetch_cves_from_opencve]. *)
Definition vendor_mapping : gmap string string :=
  {[ "juniper networks" := "juniper";
     "juniper" := "juniper";
     "cisco systems" := "cisco";
     "cisco" := "cisco";
     "arista networks" := "arista";
     "arista" := "arista" ]}.

(** [vendor_mapping.get(vendor, vendor)] after [.strip().lower()]. *)
Definition normalize_vendor (raw : string) : string :=
  let vendor := lower (strip raw) in
  default vendor (vendor_mapping !! vendor).

(** [".".join(version.split(".")[:2])] *)
Definition fallback_version_of (version : string) : string :=
  join "." (take 2 (split "." version)).

Definition query_url (vendor version : string) : string :=
  "https://app.opencve.io/api/cve?vendor=" +:+ vendor +:+ "&version=" +:+ version.

(** [cve_list[:10]], ready to be iterated. *)
Definition first_ten (cve_list : value) : M (list value) :=
  match cve_list with
  | VList l => mret (take 10 l)
  | VStr s => mret ((fun c => VStr (String c EmptyString)) <$> take 10 (list_ascii_of_string s))
  | _ => raise TypeError
  end.

(** [{"cve_id": cve["cve_id"], "description": cve["description"][:200] + "..."}] *)
Definition format_cve (cve : value) : M value :=
  cve_id ← getitem_str cve "cve_id";
  description ← getitem_str cve "description";
  match description with
  | VStr s =>
      mret (VDict {[ "cve_id" := cve_id;
                     "description" := VStr (slice_to 200 s +:+ "...") ]})
  | _ => raise TypeError
  end.

(** The block "Extract CVEs" that ends [fetch_cves_from_opencve]: at most
    ten records, each description cut and marked. *)
Definition extract_cves (vendor version : string) (json_response : value) : M dict :=
  cve_list ← get_method json_response "results" (VList []);
  if negb (truthy cve_list) then
    mret ({[ "message" := VStr ("No CVEs found for " +:+ vendor +:+ " "
                                +:+ version +:+ ".") ]} : dict)
  else
    cves ← first_ten cve_list;
    formatted_cves ← map_M format_cve cves;
    cve_count ← getitem_str json_response "count";
    mret ({[ "cve_count" := cve_count; "cves" := VList formatted_cves ]} : dict).

Section Agent.

Context (rt : runtime) (net : network).
(** [os.getenv("OPENCVE_USER")] and [os.getenv("OPENCVE_PASSWORD")] *)
Context (OPENCVE_USER OPENCVE_PASSWORD : option string).

Definition opencve_get (url : string) (user password : string) : M value :=
  response ← send net (Request GET url ∅ None None (Some (user, password)));
  raise_for_status response;;
  response_json rt response.

(** The body of the [try] block of [fetch_cves_from_opencve]: the exact
    query, the fallback when it counts no result, and the extraction. *)
Definition query_opencve (vendor version opencve_user opencve_password : string) : M dict :=
  let url := query_url vendor version in
  json_response ← opencve_get url opencve_user opencve_password;
  count ← get_method json_response "count" (VInt 0);
  json_response ←
    (if eq_zero count then
       let fallback_version := fallback_version_of version in
       if negb (String.eqb fallback_version version) then
         let fallback_url := query_url vendor fallback_version in
         opencve_get fallback_url opencve_user opencve_password
       else mret json_response
     else mret json_response);
  extract_cves vendor version json_response.

Definition fetch_cves_from_opencve (input_data : value) : M dict :=
  match (match input_data with
         | VStr s => json_loads rt (replace_char "'" (ascii_of_nat 34) s)
         | v => inl v
         end) with
  | inr _ => mret (error_dict "Invalid input format. Expected a valid JSON dictionary.")
  | inl (VDict input_data) =>
      match default (VStr "") (input_data !! "vendor"),
            default (VStr "") (input_data !! "version") with
      | VStr raw_vendor, VStr raw_version =>
          let vendor := normalize_vendor raw_vendor in
          let version := strip raw_version in
          if negb (truthy (VStr vendor)) || negb (truthy (VStr version)) then
            mret (error_dict "Missing 'vendor' or 'version' field.")
          else
            match OPENCVE_USER, OPENCVE_PASSWORD with
            | Some opencve_user, Some opencve_password =>
                if negb (truthy (VStr opencve_user)) || negb (truthy (VStr opencve_password))
                then mret (error_dict "OpenCVE API credentials not found.")
                else
                  try_except_request
                    (query_opencve vendor version opencve_user opencve_password)
                    (fun _ => mret (error_dict "Failed to fetch CVEs from OpenCVE."))
            | _, _ => mret (error_dict "OpenCVE API credentials not found.")
            end
      | _, _ => raise AttributeError
      end
  | inl _ => mret (error_dict "Invalid input format. Expected a dictionary.")
  end.

End Agent.

(** *** Names for what the properties below talk about *)

(** The dictionary a tool input stands for: itself, or the object its text
    parses to once single quotes are made double. *)
Definition parsed_input (rt : runtime) (input_data : value) : option dict :=
  match input_data with
  | VDict d => Some d
  | VStr s =>
      match json_loads rt (replace_char "'" (ascii_of_nat 34) s) with
      | inl (VDict d) => Some d
      | _ => None
      end
  | _ => None
  end.

(** A record of the vulnerability API: a mapping with a "cve_id" and a
    textual "description" (and whatever else). *)
Definition is_record (r : value) (cve_id : value) (description : string) : Prop :=
  exists d : dict,
    r = VDict d /\ d !! "cve_id" = Some cve_id /\ d !! "description" = Some (VStr description).

(** The request [fetch_cves_from_opencve] sends for a vendor and version. *)
Definition cve_request (vendor version user password : string) : request :=
  Request GET (query_url vendor version) ∅ None None (Some (user, password)).

End OpenCVE.

(* ===================================================================== *)
(** ** Sample runtimes and networks, for concrete runs *)
(* ===================================================================== *)

Module Sample.

(** The double quote character. *)
Definition dq : string := String (ascii_of_nat 34) EmptyString.

(** ["key": ] inside a JSON text. *)
Definition key (k : string) : string := dq +:+ k +:+ dq +:+ ": ".

Fixpoint repeat_char (c : ascii) (n : nat) : string :=
  match n with
  | O => EmptyString
  | S n' => String c (repeat_char c n')
  end.

(** A description of 201 characters. *)
Definition long_description : string := repeat_char "a" 201.

(** [{"count": 0, "results": []}] *)
Definition empty_page_text : string :=
  "{" +:+ key "count" +:+ "0, " +:+ key "results" +:+ "[]}".

Definition empty_page : value :=
  VDict {[ "count" := VInt 0; "results" := VList [] ]}.

(** [{"count": 1, "results": [{"cve_id": "CVE-2024-0001", "description": "aaa..."}]}] *)
Definition one_cve_text : string :=
  "{" +:+ key "count" +:+ "1, " +:+ key "results" +:+ "[{" +:+ key "cve_id"
  +:+ dq +:+ "CVE-2024-0001" +:+ dq +:+ ", " +:+ key "description"
  +:+ dq +:+ long_description +:+ dq +:+ "}]}".

Definition one_cve : value :=
  VDict {[ "count" := VInt 1;
           "results" := VList [ VDict {[ "cve_id" := VStr "CVE-2024-0001";
                                         "description" := VStr long_description ]} ] ]}.

(** [{}] *)
Definition empty_object_text : string := "{}".

(** A parser that knows the documents above and rejects any other text. *)
Definition sample_loads (s : string) : value + string :=
  if String.eqb s empty_page_text then inl empty_page
  else if String.eqb s one_cve_text then inl one_cve
  else if String.eqb s empty_object_text then inl (VDict ∅)
  else inr "Expecting value: line 1 column 1 (char 0)".

Definition sample_rt : runtime :=
  {| json_loads := sample_loads;
     repr := fun _ => "<object>";
     str_builtin := fun _ => "<exception>" |}.

(** A network that is down. *)
Definition net_down : network := fun _ _ => Failure "Connection refused".

(** A network that answers every request with the same status and body. *)
Definition net_static (status : Z) (phrase body : string) : network :=
  fun _ rq => Answer (Response status phrase (req_url rq) body).

End Sample.

(* ===================================================================== *)
(** ** netbox_agent.py: creating a resource *)
(* ===================================================================== *)

Module NetBoxCreate.

Section Agent.

Context (rt : runtime) (net : network).
Context (NETBOX_URL NETBOX_TOKEN : string).

(** Of the two [except] clauses, the first takes an [HTTPError] and the
    second every other exception; [post_api] lets no exception of the
    [requests] library out, so the first clause stands for that family. *)
Definition create_data_handler (input_data : value) : M dict :=
  input_data ← NetBox.validate_tool_input rt input_data (Some ["api_url"; "payload"]) 5;
  if has_key input_data "error" then mret input_data else
  let api_url := default VNone (input_data !! "api_url") in
  let payload := default VNone (input_data !! "payload") in
  match payload with
  | VDict payload =>
      if negb (truthy api_url) then
        mret (error_dict "Both 'api_url' and a valid 'payload' dictionary are required.")
      else
        try_except
          (let netbox_controller := NetBox.NetBoxController_init NETBOX_URL NETBOX_TOKEN in
           response ← NetBox.post_api rt net netbox_controller api_url payload;
           mret ({[ "status" := VStr "success";
                    "message" := VStr ("Successfully created resource at "
                                       +:+ str rt api_url +:+ ".");
                    "response" := response ]} : dict))
          (fun e =>
             match e with
             | RequestException msg => mret (error_dict ("HTTP error occurred: " +:+ msg))
             | _ => mret (error_dict ("POST request failed: " +:+ str_exn rt e))
             end)
  | _ => mret (error_dict "Both 'api_url' and a valid 'payload' dictionary are required.")
  end.

End Agent.

(** The request [create_data_handler] sends. *)
Definition create_request (rt : runtime) (NETBOX_URL NETBOX_TOKEN : string) (api_url : value)
    (payload : dict) : request :=
  NetBox.post_request rt (NetBox.NetBoxController_init NETBOX_URL NETBOX_TOKEN) api_url payload.

End NetBoxCreate.

(* ===================================================================== *)
(** ** opencve_agent.py: the class [OpenCVEAPI] *)
(* ===================================================================== *)

Module OpenCVEAPI.

(** ["results" in data] *)
Definition contains_results (data : value) : M bool :=
  match data with
  | VDict d => mret (has_key d "results")
  | VList l => mret (existsb (fun v => eq_str v "results") l)
  | VStr s => mret (match String.index 0 "results" s with Some _ => true | None => false end)
  | _ => raise TypeError
  end.

(** What [for cve in v] goes through: the items of a list, the keys of a
    mapping, the characters of a text. *)
Definition iterate (v : value) : M (list value) :=
  match v with
  | VList l => mret l
  | VDict d => mret ((fun kv : string * value => VStr kv.1) <$> map_to_list d)
  | VStr s => mret ((fun c => VStr (String c EmptyString)) <$> list_ascii_of_string s)
  | _ => raise TypeError
  end.

(** [{"id": cve["cve_id"], "description": cve["description"]}] *)
Definition rename_cve (cve : value) : M value :=
  cve_id ← getitem_str cve "cve_id";
  description ← getitem_str cve "description";
  mret (VDict {[ "id" := cve_id; "description" := description ]}).

Section Agent.

Context (rt : runtime) (net : network).
(** The module globals [OPENCVE_USER] and [OPENCVE_PASSWORD], read from the
    environment when the module is imported. *)
Context (OPENCVE_USER OPENCVE_PASSWORD : string).

(** [OpenCVEAPI.get_cves]; [self.base_url] is the constant of [__init__].
    The call carries [timeout=20]: a reply that takes longer is a transport
    failure of the network. *)
Definition get_cves (vendor version : value) : M value :=
  let url := "https://app.opencve.io/api" +:+ "/cve?vendor=" +:+ str rt vendor
             +:+ "&version=" +:+ str rt version in
  try_except_request
    (response ← send net (Request GET url ∅ None None (Some (OPENCVE_USER, OPENCVE_PASSWORD)));
     raise_for_status response;;
     data ← response_json rt response;
     contains_results data ≫= fun found : bool =>
     if found then
       results ← getitem_str data "results";
       cves ← iterate results;
       cve_list ← map_M rename_cve cves;
       mret (VList cve_list)
     else mret (VDict (error_dict "No CVEs found for the given vendor and version.")))
    (fun e => mret (VDict (error_dict e))).

End Agent.

End OpenCVEAPI.

(* ===================================================================== *)
(** ** selector_natural_language_agent.py and selector_data_agent.py *)
(* ===================================================================== *)

Module Selector.

(** The headers of [SelectorAPI] and [SelectorRawDataAPI]; an API key that
    is not set shows as [None] in the f-string. *)
Definition selector_headers (SELECTOR_AI_API_KEY : option string) : gmap string string :=
  {[ "Authorization" := "Bearer " +:+ default "None" SELECTOR_AI_API_KEY;
     "Content-Type" := "application/json";
     "Accept" := "application/json" ]}.

(** The request both classes post. *)
Definition ask_request (url : string) (SELECTOR_AI_API_KEY : option string) (payload : dict)
  : request :=
  Request POST url (selector_headers SELECTOR_AI_API_KEY) None (Some payload) None.

Section Agent.

Context (rt : runtime) (net : network).
(** The module constants [SELECTOR_API_URL] and [SELECTOR_AI_API_KEY].
    Both modules read the key from [os.getenv("SELECTOR_AI_API_KEY")];
    the URL is [os.getenv("SELECTOR_DATA_URL")] in
    [selector_natural_language_agent.py] (class [SelectorAPI]) and
    [os.getenv("SELECTOR_NL_URL")] in [selector_data_agent.py] (class
    [SelectorRawDataAPI]).  [SELECTOR_AI_TIMEOUT] only bounds the time the
    network may take: a reply that takes longer is a transport failure. *)
Context (SELECTOR_API_URL SELECTOR_AI_API_KEY : option string).

(** [requests.post(self.api_url, ...)]: without a URL the library raises
    before anything is sent. *)
Definition post_selector (payload : dict) : M response :=
  match SELECTOR_API_URL with
  | Some url => send net (ask_request url SELECTOR_AI_API_KEY payload)
  | None => raise (RequestException "Invalid URL 'None': No scheme supplied.")
  end.

(** One round of [for attempt in range(retries)] in either [ask]: both
    [except] clauses only log, and the pause follows every failed round. *)
Definition ask_attempt (payload : dict) (attempt : nat) : M (option value) :=
  r ← try_except_request
        (response ← post_selector payload;
         raise_for_status response;;
         json_response ← response_json rt response;
         mret (Some json_response))
        (fun _ => mret None);
  match r with
  | Some json_response => mret (Some json_response)
  | None => sleep 2;; mret None
  end.

Definition ask_loop (payload : dict) (retries : nat) : M value :=
  for_each (ask_attempt payload) (seq 0 retries)
    (mret (VDict (error_dict ("Failed to fetch response after " +:+ str_of_nat retries
                              +:+ " attempts.")))).

(** [SelectorAPI.ask] *)
Definition SelectorAPI_ask (input_data : value) : M value :=
  content ← getitem_str input_data "content";
  ask_loop {[ "content" := content ]} 3.

(** [SelectorRawDataAPI.ask] *)
Definition SelectorRawDataAPI_ask (input_data : value) : M value :=
  command ← getitem_str input_data "command";
  ask_loop {[ "command" := command ]} 3.

(** The end of both tool functions: an error mapping goes back as it is,
    otherwise one field of the answer, or the fixed sentence. *)
Definition extract_field (field : string) (response : value) : M value :=
  match response with
  | VDict d =>
      if has_key d "error" then mret response
      else mret (default (VStr "No valid response received.") (d !! field))
  | _ => get_method response field (VStr "No valid response received.")
  end.

Definition ask_selector (input_data : value) : M value :=
  let input_data : dict :=
    match input_data with
    | VDict d => d
    | v => {[ "input" := v ]}
    end in
  if negb (has_key input_data "input") then
    mret (VDict (error_dict "Missing 'input' field in JSON object."))
  else
    input ← getitem_str (VDict input_data) "input";
    response ← SelectorAPI_ask (VDict {[ "content" := input ]});
    extract_field "content" response.

Definition ask_selector_raw (input_data : value) : M value :=
  let input_data : dict :=
    match input_data with
    | VDict d => d
    | v => {[ "command" := v ]}
    end in
  if negb (has_key input_data "command") then
    mret (VDict (error_dict "Missing 'command' field in JSON object."))
  else
    command ← getitem_str (VDict input_data) "command";
    response ← SelectorRawDataAPI_ask (VDict {[ "command" := command ]});
    extract_field "data" response.

(** main_agent.py: [selector_agent_func] *)
Definition selector_agent_func (input_text : value) : M dict :=
  response ← ask_selector (VDict {[ "input" := input_text ]});
  mret ({[ "output" := response ]} : dict).

End Agent.

(** [k] failed rounds of [ask], each followed by its pause. *)
Definition failed_rounds (rq : request) (k : nat) : trace :=
  concat (replicate k [Sent rq; Slept 2]).

End Selector.

(* ===================================================================== *)
(** ** Further sample documents and networks *)
(* ===================================================================== *)

Module Sample2.

Import Sample.

(** [{"count": 1, "results": [{"id": 7, "name": "Bell Canada"}]}] *)
Definition one_provider_text : string :=
  "{" +:+ key "count" +:+ "1, " +:+ key "results" +:+ "[{" +:+ key "id" +:+ "7, "
  +:+ key "name" +:+ dq +:+ "Bell Canada" +:+ dq +:+ "}]}".

Definition one_provider : dict :=
  {[ "count" := VInt 1;
     "results" := VList [ VDict {[ "id" := VInt 7; "name" := VStr "Bell Canada" ]} ] ]}.

(** [{"count": 1, "results": []}] *)
Definition dangling_page_text : string :=
  "{" +:+ key "count" +:+ "1, " +:+ key "results" +:+ "[]}".

Definition dangling_page : dict := {[ "count" := VInt 1; "results" := VList [] ]}.

(** [{"content": "All devices are healthy."}] *)
Definition answer_text : string :=
  "{" +:+ key "content" +:+ dq +:+ "All devices are healthy." +:+ dq +:+ "}".

Definition answer : dict := {[ "content" := VStr "All devices are healthy." ]}.

(** A parser that knows these documents too. *)
Definition sample_loads (s : string) : value + string :=
  if String.eqb s one_provider_text then inl (VDict one_provider)
  else if String.eqb s dangling_page_text then inl (VDict dangling_page)
  else if String.eqb s answer_text then inl (VDict answer)
  else Sample.sample_loads s.

Definition sample_rt : runtime :=
  {| json_loads := sample_loads;
     repr := fun _ => "<object>";
     str_builtin := fun e =>
       match e with
       | IndexError => "list index out of range"
       | KeyError => "'results'"
       | _ => "<exception>"
       end |}.

(** A network that times out [k] times and then answers every request with
    status 200 and the same body. *)
Definition net_flaky (k : nat) (body : string) : network :=
  fun tr rq =>
    if (length (requests_of tr) <? k)%nat then Failure "Read timed out."
    else Answer (Response 200 "OK" (req_url rq) body).

(** A network that answers every DELETE with one status and an empty body,
    and every other request with status 200 and the same body. *)
Definition net_backend (body : string) (delete_status : Z) : network :=
  fun _ rq =>
    match req_method rq with
    | DELETE => Answer (Response delete_status "" (req_url rq) "")
    | _ => Answer (Response 200 "OK" (req_url rq) body)
    end.

End Sample2.

(* ===================================================================== *)
(** ** The string methods and the pattern on the inputs of the agents *)
(* ===================================================================== *)

Example split_junos_version : split "." "21.4R5" = ["21"; "4R5"].
Proof. reflexivity. Qed.

Example split_three_components : split "." "21.4.5" = ["21"; "4"; "5"].
Proof. reflexivity. Qed.

Example split_trailing_dot : split "." "21." = ["21"; ""].
Proof. reflexivity. Qed.

Example fallback_of_junos_version : OpenCVE.fallback_version_of "21.4R5" = "21.4R5".
Proof. reflexivity. Qed.

Example fallback_of_three_components : OpenCVE.fallback_version_of "21.4.5" = "21.4".
Proof. reflexivity. Qed.

Example strip_and_lower : lower (strip "  Juniper Networks ") = "juniper networks".
Proof. reflexivity. Qed.

(** The no-break space (U+00A0) and NEXT LINE (U+0085) are stripped, and
    the capital E with acute (U+00C9) has its small letter U+00E9; the
    multiplication sign and the sharp s are their own lowercase. *)
Example strip_no_break_space :
  strip (String (ascii_of_nat 133) ("Acme" +:+ String (ascii_of_nat 160) "")) = "Acme"
  /\ OpenCVE.normalize_vendor ("Acme" +:+ String (ascii_of_nat 160) "") = "acme".
Proof. split; reflexivity. Qed.

Example lower_beyond_ascii :
  lower_char (ascii_of_nat 201) = ascii_of_nat 233
  /\ lower_char (ascii_of_nat 215) = ascii_of_nat 215
  /\ lower_char (ascii_of_nat 223) = ascii_of_nat 223
  /\ OpenCVE.normalize_vendor (String (ascii_of_nat 201) "ricsson")
     = String (ascii_of_nat 233) "ricsson".
Proof. repeat split; reflexivity. Qed.

(** The whitespace, by number. *)
Lemma is_space_spec (a : ascii) :
  is_space a = true
  <-> (9 <= nat_of_ascii a <= 13 \/ 28 <= nat_of_ascii a <= 32
       \/ nat_of_ascii a = 133 \/ nat_of_ascii a = 160).
Proof.
  destruct a as [[] [] [] [] [] [] [] []]; vm_compute; split;
    (reflexivity || lia || discriminate).
Qed.

(** The capital letters, by number: lowering moves them 32 places on and
    leaves every other character alone. *)
Lemma lower_char_spec (a : ascii) :
  let n := nat_of_ascii a in
  (65 <= n <= 90 \/ 192 <= n <= 214 \/ 216 <= n <= 222 ->
   nat_of_ascii (lower_char a) = n + 32)
  /\ (~ (65 <= n <= 90 \/ 192 <= n <= 214 \/ 216 <= n <= 222) -> lower_char a = a).
Proof.
  destruct a as [[] [] [] [] [] [] [] []]; vm_compute; split; intros H;
    (reflexivity || lia).
Qed.

Example rstrip_base_url : rstrip_char "/" "http://netbox.local//" = "http://netbox.local".
Proof. reflexivity. Qed.

Example lstrip_path : lstrip_char "/" "//api/dcim/sites/" = "api/dcim/sites/".
Proof. reflexivity. Qed.

Example str_of_status : str_of_Z 204 = "204" /\ str_of_Z 0 = "0" /\ str_of_Z (-7) = "-7".
Proof. repeat split; reflexivity. Qed.

Example pattern_accepts_interfaces :
  re_match NetBox.api_url_pattern "/api/dcim/interfaces/?device=R1" = true.
Proof. reflexivity. Qed.

Example pattern_accepts_dashes :
  re_match NetBox.api_url_pattern "/api/ipam/ip-addresses/" = true.
Proof. reflexivity. Qed.

Example pattern_rejects_one_level : re_match NetBox.api_url_pattern "/api/circuits/" = false.
Proof. reflexivity. Qed.

Example pattern_rejects_upper_case :
  re_match NetBox.api_url_pattern "/api/DCIM/interfaces/" = false.
Proof. reflexivity. Qed.

Example pattern_rejects_full_url :
  re_match NetBox.api_url_pattern "http://netbox.local/api/dcim/sites/" = false.
Proof. reflexivity. Qed.

(* ===================================================================== *)
(** ** Running monadic code *)
(* ===================================================================== *)

Section MonadLaws.

Context {A B : Type}.

Lemma run_ret (a : A) (tr : trace) : (mret a : M A) tr = (Ret a, tr).
Proof. reflexivity. Qed.

Lemma run_bind (m : M A) (f : A -> M B) (tr tr' : trace) (a : A) :
  m tr = (Ret a, tr') -> (m ≫= f) tr = f a tr'.
Proof. intros H. unfold mbind, M_bind. rewrite H. reflexivity. Qed.

Lemma run_bind_raise (m : M A) (f : A -> M B) (tr tr' : trace) (e : exn) :
  m tr = (Raise e, tr') -> (m ≫= f) tr = (Raise e, tr').
Proof. intros H. unfold mbind, M_bind. rewrite H. reflexivity. Qed.

Lemma run_try_request_ret (m : M A) (h : string -> M A) (tr tr' : trace) (a : A) :
  m tr = (Ret a, tr') -> try_except_request m h tr = (Ret a, tr').
Proof. intros H. unfold try_except_request. rewrite H. reflexivity. Qed.

Lemma run_try_request_caught (m : M A) (h : string -> M A) (tr tr' : trace) (msg : string) :
  m tr = (Raise (RequestException msg), tr') -> try_except_request m h tr = h msg tr'.
Proof. intros H. unfold try_except_request. rewrite H. reflexivity. Qed.

Lemma run_try_ret (m : M A) (h : exn -> M A) (tr tr' : trace) (a : A) :
  m tr = (Ret a, tr') -> try_except m h tr = (Ret a, tr').
Proof. intros H. unfold try_except. rewrite H. reflexivity. Qed.

Lemma run_try_caught (m : M A) (h : exn -> M A) (tr tr' : trace) (e : exn) :
  m tr = (Raise e, tr') -> try_except m h tr = h e tr'.
Proof. intros H. unfold try_except. rewrite H. reflexivity. Qed.

End MonadLaws.

Lemma run_sleep (n : nat) (tr : trace) : sleep n tr = (Ret tt, tr ++ [Slept n]).
Proof. reflexivity. Qed.

Lemma requests_of_app (t1 t2 : trace) :
  requests_of (t1 ++ t2) = requests_of t1 ++ requests_of t2.
Proof. unfold requests_of. apply omap_app. Qed.

Lemma deletes_of_app (t1 t2 : trace) :
  deletes_of (t1 ++ t2) = deletes_of t1 ++ deletes_of t2.
Proof. unfold deletes_of. rewrite requests_of_app. apply List.filter_app. Qed.

(* ===================================================================== *)
(** ** The input validator *)
(* ===================================================================== *)

Section Validator.

Import NetBox.

Context (rt : runtime).

Lemma restrict_keys_lookup_gen (ks : list string) (d acc : dict) (k : string) :
  foldl (fun acc key =>
           match d !! key with
           | Some v => <[ key := v ]> acc
           | None => acc
           end) acc ks !! k
  = if decide (k ∈ ks) then (match d !! k with Some v => Some v | None => acc !! k end)
    else acc !! k.
Proof.
  revert acc. induction ks as [|key ks IH]; intros acc; cbn [foldl].
  - rewrite decide_False by apply not_elem_of_nil. done.
  - rewrite IH. destruct (decide (k = key)) as [->|Hne].
    + destruct (decide (key ∈ key :: ks)) as [_|Hn]; [|exfalso; apply Hn; left].
      destruct (d !! key) as [v|] eqn:Hd.
      * rewrite lookup_insert_eq. by destruct (decide (key ∈ ks)).
      * by destruct (decide (key ∈ ks)).
    + assert (Hiff : k ∈ key :: ks <-> k ∈ ks) by (rewrite elem_of_cons; tauto).
      destruct (decide (k ∈ ks)) as [Hin|Hnin].
      * rewrite decide_True by (by apply Hiff).
        destruct (d !! k); [done|].
        destruct (d !! key); [by rewrite lookup_insert_ne | done].
      * rewrite decide_False by (by rewrite Hiff).
        destruct (d !! key); [by rewrite lookup_insert_ne | done].
Qed.

(** A stripped payload holds exactly the expected keys the payload had. *)
Lemma restrict_keys_lookup (ks : list string) (d : dict) (k : string) :
  restrict_keys ks d !! k = if decide (k ∈ ks) then d !! k else None.
Proof.
  unfold restrict_keys. rewrite restrict_keys_lookup_gen, lookup_empty.
  case_decide; [by destruct (d !! k) | done].
Qed.

Lemma restrict_keys_dom (ks : list string) (d : dict) :
  dom (restrict_keys ks d) ⊆ (list_to_set ks : gset string).
Proof.
  intros k Hk. apply elem_of_dom in Hk as [v Hv].
  rewrite restrict_keys_lookup in Hv. case_decide; [|done].
  by apply elem_of_list_to_set.
Qed.

Lemma restrict_keys_size_gen (ks : list string) (d acc : dict) :
  size (foldl (fun acc key =>
                 match d !! key with
                 | Some v => <[ key := v ]> acc
                 | None => acc
                 end) acc ks) <= size acc + length ks.
Proof.
  revert acc. induction ks as [|key ks IH]; intros acc; simpl; [lia|].
  etransitivity; [apply IH|].
  destruct (d !! key); [|lia].
  rewrite map_size_insert. destruct (acc !! key); unfold id; lia.
Qed.

Lemma restrict_keys_size (ks : list string) (d : dict) :
  size (restrict_keys ks d) <= length ks.
Proof.
  unfold restrict_keys. etransitivity; [apply restrict_keys_size_gen|].
  rewrite map_size_empty. lia.
Qed.

Lemma too_many_keys_restrict (ks : list string) (d : dict) :
  too_many_keys (Some ks) (restrict_keys ks d) = false.
Proof.
  unfold too_many_keys. destruct ks; [done|].
  apply Nat.ltb_ge, restrict_keys_size.
Qed.

Lemma too_many_keys_Some (ek : option (list string)) (d : dict) :
  too_many_keys ek d = true -> exists ks, ek = Some ks /\ length ks < size d.
Proof.
  unfold too_many_keys. destruct ek as [[|k ks]|]; try done.
  intros H%Nat.ltb_lt. eauto.
Qed.

(** A dictionary with no more keys than expected passes on the first round. *)
Lemma validate_loop_fits (ek : option (list string)) (n : nat) (d : dict) (tr : trace) :
  too_many_keys ek d = false ->
  validate_loop rt ek (S n) (VDict d) tr = (Ret d, tr).
Proof. intros H. simpl. rewrite H. reflexivity. Qed.

(** A dictionary with too many keys is stripped once, at the price of one
    sleep, and passes on the second round. *)
Lemma validate_loop_strips (ks : list string) (n : nat) (d : dict) (tr : trace) :
  too_many_keys (Some ks) d = true ->
  validate_loop rt (Some ks) (S (S n)) (VDict d) tr
  = (Ret (restrict_keys ks d), tr ++ [Slept 1]).
Proof.
  intros H. cbn [validate_loop]. rewrite H.
  erewrite run_bind by apply run_sleep.
  cbn [default from_option id]. rewrite too_many_keys_restrict. reflexivity.
Qed.

(** Whenever the validator does strip, what it returns has expected keys
    only. *)
Lemma validate_loop_strips_to_expected (ks : list string) (n : nat) (d : dict) (tr : trace) :
  too_many_keys (Some ks) d = true ->
  exists d' : dict,
    validate_loop rt (Some ks) (S (S n)) (VDict d) tr = (Ret d', tr ++ [Slept 1])
    /\ dom d' ⊆ (list_to_set ks : gset string)
    /\ forall k, k ∈ ks -> d' !! k = d !! k.
Proof.
  intros H. exists (restrict_keys ks d). split; [by apply validate_loop_strips|].
  split; [apply restrict_keys_dom|].
  intros k Hk. rewrite restrict_keys_lookup. by rewrite decide_True.
Qed.

(** The validator never raises and never sleeps more than once, whatever
    the payload and the retry budget. *)
Lemma validate_loop_total (ek : option (list string)) (n : nat) (v : value) (tr : trace) :
  exists (d : dict) (k : nat),
    validate_loop rt ek n v tr = (Ret d, tr ++ replicate k (Slept 1))
    /\ k <= n /\ k <= 1.
Proof.
  destruct n as [|n].
  { exists (error_dict "Too many arguments provided, and retries exceeded."), 0.
    simpl. rewrite app_nil_r. auto. }
  assert (Hdict : forall d : dict, exists (d' : dict) (k : nat),
             validate_loop rt ek (S n) (VDict d) tr = (Ret d', tr ++ replicate k (Slept 1))
             /\ k <= S n /\ k <= 1).
  { intros d. destruct (too_many_keys ek d) eqn:Htm.
    - destruct (too_many_keys_Some _ _ Htm) as (ks & -> & _).
      destruct n as [|n].
      + eexists _, 1. split; [|lia]. cbn [validate_loop]. rewrite Htm.
        erewrite run_bind by apply run_sleep. reflexivity.
      + eexists _, 1. split; [|lia]. by apply validate_loop_strips.
    - eexists d, 0. rewrite app_nil_r. split; [by apply validate_loop_fits | lia]. }
  destruct v as [| b | z | s | l | d]; try apply Hdict;
    try (eexists _, 0; rewrite app_nil_r; split; [reflexivity | lia]).
  destruct (json_loads rt s) as [[| b | z | s' | l | d]|msg] eqn:Hs;
    try (eexists _, 0; rewrite app_nil_r; split; [simpl; rewrite Hs; reflexivity | lia]).
  destruct (Hdict d) as (d' & k & Hrun & Hk). exists d', k. split; [|done].
  rewrite <- Hrun. simpl. rewrite Hs. reflexivity.
Qed.

End Validator.

(** C1, at the input where the code departs from it: a payload with one
    key that is not expected, validated against one expected key, comes
    back unchanged on the first round; it is not an error payload and its
    key is outside the expected set. *)
Theorem validate_tool_input_keeps_unexpected_key (rt : runtime) :
  let payload : dict := {[ "extra" := VStr "x" ]} in
  NetBox.validate_tool_input rt (VDict payload) (Some ["api_url"]) 5 [] = (Ret payload, [])
  /\ has_key payload "error" = false
  /\ ~ dom payload ⊆ (list_to_set ["api_url"] : gset string).
Proof.
  intros payload. split; [|split].
  - unfold NetBox.validate_tool_input. apply validate_loop_fits. reflexivity.
  - reflexivity.
  - intros Hsub. assert (Hin : "extra" ∈ dom payload) by (apply elem_of_dom; by eexists).
    apply Hsub in Hin. vm_compute in Hin. set_solver.
Qed.

(** C10: a dictionary payload with at most as many keys as there are
    expected keys is returned as it is on the first round, with no sleep,
    whichever keys it holds. *)
Theorem validate_tool_input_identity (rt : runtime) (d : dict) (ks : list string)
    (max_retries : Z) (tr : trace) :
  (0 < max_retries)%Z ->
  size d <= length ks ->
  NetBox.validate_tool_input rt (VDict d) (Some ks) max_retries tr = (Ret d, tr).
Proof.
  intros Hpos Hsize. unfold NetBox.validate_tool_input.
  destruct (Z.to_nat max_retries) as [|n] eqn:Hn; [lia|].
  apply validate_loop_fits. unfold NetBox.too_many_keys.
  destruct ks; [done|]. by apply Nat.ltb_ge.
Qed.

Lemma validate_tool_input_identity_witness :
  (0 < 5)%Z /\ size ({[ "extra" := VStr "x" ]} : dict) <= length ["api_url"]
  /\ ~ "extra" ∈ ["api_url"]
  /\ NetBox.validate_tool_input Sample.sample_rt (VDict {[ "extra" := VStr "x" ]})
       (Some ["api_url"]) 5 [] = (Ret {[ "extra" := VStr "x" ]}, []).
Proof.
  split; [lia|]. split; [vm_compute; lia|]. split; [intros H; apply list_elem_of_singleton in H; discriminate|].
  apply (validate_tool_input_identity Sample.sample_rt {[ "extra" := VStr "x" ]}
           ["api_url"] 5 []); [lia | vm_compute; lia].
Defined.

(* ===================================================================== *)
(** ** The REST client *)
(* ===================================================================== *)

Section RestClient.

Import NetBox.

Context (rt : runtime) (net : network).

(** Sending, checking the status and parsing, as [get_api], [post_api] and
    the OpenCVE query do it: one request, and either the parsed body or the
    [RequestException] that [request_error] names. *)
Lemma exchange_ok (rq : request) (tr : trace) (r : response) (v : value) :
  net tr rq = Answer r -> http_error_msg r = None -> json_loads rt (text r) = inl v ->
  (response ← send net rq; raise_for_status response;; response_json rt response) tr
  = (Ret v, tr ++ [Sent rq]).
Proof.
  intros Hnet Hst Hjs. unfold mbind, M_bind, send, raise_for_status, response_json.
  rewrite Hnet, Hst. simpl. rewrite Hjs. reflexivity.
Qed.

Lemma exchange_error (rq : request) (tr : trace) (e : string) :
  request_error rt (net tr rq) = Some e ->
  (response ← send net rq; raise_for_status response;; response_json rt response) tr
  = (Raise (RequestException e), tr ++ [Sent rq]).
Proof.
  unfold request_error, mbind, M_bind, send, raise_for_status, response_json.
  destruct (net tr rq) as [msg|r]; [by intros [= ->]|].
  destruct (http_error_msg r) as [msg|]; [by intros [= ->]|]. simpl.
  destruct (json_loads rt (text r)) as [v|msg]; [done | by intros [= ->]].
Qed.

Lemma request_error_None (rp : reply) :
  request_error rt rp = None ->
  exists r v, rp = Answer r /\ http_error_msg r = None /\ json_loads rt (text r) = inl v.
Proof.
  unfold request_error. destruct rp as [msg|r]; [done|].
  destruct (http_error_msg r) eqn:Hst; [done|].
  destruct (json_loads rt (text r)) as [v|] eqn:Hjs; [|done].
  intros _. exists r, v. auto.
Qed.

Lemma http_error_msg_None (r : response) :
  (200 <= status_code r < 300)%Z -> http_error_msg r = None.
Proof.
  intros H. unfold http_error_msg.
  destruct (400 <=? status_code r)%Z eqn:E1; [apply Z.leb_le in E1; lia|]. simpl.
  destruct (500 <=? status_code r)%Z eqn:E2; [apply Z.leb_le in E2; lia|]. reflexivity.
Qed.

Lemma http_error_msg_Some (r : response) :
  (400 <= status_code r < 600)%Z -> is_Some (http_error_msg r).
Proof.
  intros H. unfold http_error_msg.
  destruct (400 <=? status_code r)%Z eqn:E1; [|apply Z.leb_gt in E1; lia].
  destruct (status_code r <? 500)%Z eqn:E2; [by eexists|]. simpl.
  destruct (500 <=? status_code r)%Z eqn:E3; [|apply Z.leb_gt in E3; apply Z.ltb_ge in E2; lia].
  destruct (status_code r <? 600)%Z eqn:E4; [by eexists | apply Z.ltb_ge in E4; lia].
Qed.

(** A 4xx or 5xx status makes the checked call fail, whatever the body. *)
Lemma request_error_status (r : response) :
  (400 <= status_code r < 600)%Z -> is_Some (request_error rt (Answer r)).
Proof.
  intros H. destruct (http_error_msg_Some r H) as [msg Hmsg].
  exists msg. unfold request_error. by rewrite Hmsg.
Qed.

Lemma get_api_error (ctl : NetBoxController) (u : string) (params : option dict)
    (tr : trace) (e : string) :
  request_error rt (net tr (get_request ctl u params)) = Some e ->
  get_api rt net ctl (VStr u) params tr
  = (Ret (VDict (error_dict ("Request failed: " +:+ e))), tr ++ [Sent (get_request ctl u params)]).
Proof.
  intros H. unfold get_api.
  erewrite run_try_request_caught by (apply exchange_error, H). reflexivity.
Qed.

Lemma get_api_ok (ctl : NetBoxController) (u : string) (params : option dict)
    (tr : trace) (r : response) (v : value) :
  net tr (get_request ctl u params) = Answer r ->
  http_error_msg r = None -> json_loads rt (text r) = inl v ->
  get_api rt net ctl (VStr u) params tr = (Ret v, tr ++ [Sent (get_request ctl u params)]).
Proof.
  intros Hnet Hst Hjs. unfold get_api.
  erewrite run_try_request_ret by (eapply exchange_ok; eauto). reflexivity.
Qed.

(** [get_api] on a path never raises and sends exactly one request. *)
Lemma get_api_total (ctl : NetBoxController) (u : string) (params : option dict) (tr : trace) :
  exists v, get_api rt net ctl (VStr u) params tr
            = (Ret v, tr ++ [Sent (get_request ctl u params)]).
Proof.
  destruct (request_error rt (net tr (get_request ctl u params))) as [e|] eqn:He.
  - eexists. by apply get_api_error.
  - destruct (request_error_None _ He) as (r & v & Hnet & Hst & Hjs).
    exists v. by eapply get_api_ok.
Qed.

Lemma post_api_error (ctl : NetBoxController) (api_url : value) (payload : dict)
    (tr : trace) (e : string) :
  request_error rt (net tr (post_request rt ctl api_url payload)) = Some e ->
  post_api rt net ctl api_url payload tr
  = (Ret (VDict (error_dict ("Request failed: " +:+ e))),
     tr ++ [Sent (post_request rt ctl api_url payload)]).
Proof.
  intros H. unfold post_api.
  erewrite run_try_request_caught by (apply exchange_error, H). reflexivity.
Qed.

Lemma post_api_ok (ctl : NetBoxController) (api_url : value) (payload : dict)
    (tr : trace) (r : response) (v : value) :
  net tr (post_request rt ctl api_url payload) = Answer r ->
  http_error_msg r = None -> json_loads rt (text r) = inl v ->
  post_api rt net ctl api_url payload tr
  = (Ret v, tr ++ [Sent (post_request rt ctl api_url payload)]).
Proof.
  intros Hnet Hst Hjs. unfold post_api.
  erewrite run_try_request_ret by (eapply exchange_ok; eauto). reflexivity.
Qed.

Lemma delete_api_failure (ctl : NetBoxController) (path : string) (tr : trace) (msg : string) :
  net tr (delete_request ctl path) = Failure msg ->
  delete_api net ctl path tr
  = (Ret (error_dict ("Request failed: " +:+ msg)), tr ++ [Sent (delete_request ctl path)]).
Proof.
  intros Hnet. unfold delete_api, try_except_request, mbind, M_bind, send.
  fold (delete_request ctl path). rewrite Hnet. reflexivity.
Qed.

Lemma delete_api_answer (ctl : NetBoxController) (path : string) (tr : trace) (r : response) :
  net tr (delete_request ctl path) = Answer r ->
  delete_api net ctl path tr
  = (Ret (if (status_code r =? 204)%Z
          then {[ "status" := VStr "success"; "message" := VStr "Deletion successful." ]}
          else error_dict ("Failed to delete. Status code: " +:+ str_of_Z (status_code r))),
     tr ++ [Sent (delete_request ctl path)]).
Proof.
  intros Hnet. unfold delete_api, try_except_request, mbind, M_bind, send.
  fold (delete_request ctl path). rewrite Hnet.
  destruct (status_code r =? 204)%Z; reflexivity.
Qed.

End RestClient.

(** C6 fails as stated: a DELETE answered with status 200, a 2xx status
    other than 204, does not yield a success with the parsed body but the
    error "Failed to delete. Status code: 200". *)
Lemma delete_api_200_is_error :
  let ctl := NetBox.NetBoxController_init "http://netbox.local/" "t0ken" in
  let net := Sample.net_static 200 "OK" Sample.empty_object_text in
  json_loads Sample.sample_rt Sample.empty_object_text = inl (VDict ∅)
  /\ NetBox.delete_api net ctl "/api/circuits/providers/7/" []
     = (Ret (error_dict "Failed to delete. Status code: 200"),
        [Sent (NetBox.delete_request ctl "/api/circuits/providers/7/")])
  /\ has_key (error_dict "Failed to delete. Status code: 200") "error" = true.
Proof. vm_compute. auto. Qed.

(** C6, amended.  GET and POST: a transport failure, a 4xx or 5xx status or
    a body that is not JSON yields the error mapping "Request failed:
    <detail>", and a 2xx status with a JSON body yields the parsed body
    itself.  DELETE: a transport failure yields "Request failed: <detail>",
    status 204 yields the success mapping with "Deletion successful.", and
    every other status, the other 2xx ones included, yields "Failed to
    delete. Status code: <status>".  Each call sends exactly one request. *)
Theorem rest_client_outcomes (rt : runtime) (net : network) (ctl : NetBox.NetBoxController)
    (u : string) (params : option dict) (api_url : value) (payload : dict)
    (path : string) (tr : trace) :
  let get_rq := NetBox.get_request ctl u params in
  let post_rq := NetBox.post_request rt ctl api_url payload in
  let del_rq := NetBox.delete_request ctl path in
  (forall msg, request_error rt (Failure msg) = Some msg)
  /\ (forall r, (400 <= status_code r < 600)%Z -> is_Some (request_error rt (Answer r)))
  /\ (forall e, request_error rt (net tr get_rq) = Some e ->
        NetBox.get_api rt net ctl (VStr u) params tr
        = (Ret (VDict (error_dict ("Request failed: " +:+ e))), tr ++ [Sent get_rq]))
  /\ (forall r v, net tr get_rq = Answer r -> (200 <= status_code r < 300)%Z ->
        json_loads rt (text r) = inl v ->
        NetBox.get_api rt net ctl (VStr u) params tr = (Ret v, tr ++ [Sent get_rq]))
  /\ (forall e, request_error rt (net tr post_rq) = Some e ->
        NetBox.post_api rt net ctl api_url payload tr
        = (Ret (VDict (error_dict ("Request failed: " +:+ e))), tr ++ [Sent post_rq]))
  /\ (forall r v, net tr post_rq = Answer r -> (200 <= status_code r < 300)%Z ->
        json_loads rt (text r) = inl v ->
        NetBox.post_api rt net ctl api_url payload tr = (Ret v, tr ++ [Sent post_rq]))
  /\ (forall msg, net tr del_rq = Failure msg ->
        NetBox.delete_api net ctl path tr
        = (Ret (error_dict ("Request failed: " +:+ msg)), tr ++ [Sent del_rq]))
  /\ (forall r, net tr del_rq = Answer r -> status_code r = 204%Z ->
        NetBox.delete_api net ctl path tr
        = (Ret {[ "status" := VStr "success"; "message" := VStr "Deletion successful." ]},
           tr ++ [Sent del_rq]))
  /\ (forall r, net tr del_rq = Answer r -> status_code r <> 204%Z ->
        NetBox.delete_api net ctl path tr
        = (Ret (error_dict ("Failed to delete. Status code: " +:+ str_of_Z (status_code r))),
           tr ++ [Sent del_rq])).
Proof.
  intros get_rq post_rq del_rq. repeat split.
  - intros r H. by apply request_error_status.
  - intros e H. by apply get_api_error.
  - intros r v Hnet Hst Hjs. eapply get_api_ok; eauto using http_error_msg_None.
  - intros e H. by apply post_api_error.
  - intros r v Hnet Hst Hjs. eapply post_api_ok; eauto using http_error_msg_None.
  - intros msg H. by apply delete_api_failure.
  - intros r Hnet Hst. rewrite (delete_api_answer net ctl path tr r Hnet).
    rewrite Hst. reflexivity.
  - intros r Hnet Hst. rewrite (delete_api_answer net ctl path tr r Hnet).
    destruct (status_code r =? 204)%Z eqn:E; [apply Z.eqb_eq in E; done | reflexivity].
Qed.

Lemma rest_client_outcomes_witness :
  let ctl := NetBox.NetBoxController_init "http://netbox.local/" "t0ken" in
  let path := "/api/circuits/providers/7/" in
  NetBox.get_api Sample.sample_rt Sample.net_down ctl (VStr "/api/dcim/sites/") None []
  = (Ret (VDict (error_dict "Request failed: Connection refused")),
     [Sent (NetBox.get_request ctl "/api/dcim/sites/" None)])
  /\ NetBox.delete_api (Sample.net_static 204 "No Content" "") ctl path []
     = (Ret {[ "status" := VStr "success"; "message" := VStr "Deletion successful." ]},
        [Sent (NetBox.delete_request ctl path)])
  /\ NetBox.delete_api (Sample.net_static 200 "OK" Sample.empty_object_text) ctl path []
     = (Ret (error_dict "Failed to delete. Status code: 200"),
        [Sent (NetBox.delete_request ctl path)]).
Proof.
  intros ctl path. split; [|split].
  - destruct (rest_client_outcomes Sample.sample_rt Sample.net_down ctl "/api/dcim/sites/"
                None VNone ∅ path []) as (_ & _ & Hget & _).
    apply (Hget "Connection refused"). reflexivity.
  - destruct (rest_client_outcomes Sample.sample_rt (Sample.net_static 204 "No Content" "")
                ctl "/api/dcim/sites/" None VNone ∅ path [])
      as (_ & _ & _ & _ & _ & _ & _ & Hdel & _).
    apply (Hdel (Response 204 "No Content" (req_url (NetBox.delete_request ctl path)) ""));
      reflexivity.
  - destruct (rest_client_outcomes Sample.sample_rt
                (Sample.net_static 200 "OK" Sample.empty_object_text)
                ctl "/api/dcim/sites/" None VNone ∅ path [])
      as (_ & _ & _ & _ & _ & _ & _ & _ & Hdel).
    apply (Hdel (Response 200 "OK" (req_url (NetBox.delete_request ctl path))
                   Sample.empty_object_text)); [reflexivity | discriminate].
Defined.

(* ===================================================================== *)
(** ** Lookup, then delete *)
(* ===================================================================== *)

Section DeleteHandler.

Import NetBox.

Context (rt : runtime) (net : network) (NETBOX_URL NETBOX_TOKEN : string).

Lemma validate_loop_parsed (ek : option (list string)) (n : nat) (input_data : value)
    (d : dict) (tr : trace) :
  parsed_payload rt input_data = Some d ->
  validate_loop rt ek (S n) input_data tr = validate_loop rt ek (S n) (VDict d) tr.
Proof.
  unfold parsed_payload. destruct input_data as [| | | s | |d0]; try done.
  - destruct (json_loads rt s) as [[| | | | |d0]|] eqn:Hs; try done.
    intros [= ->]. simpl. rewrite Hs. reflexivity.
  - by intros [= ->].
Qed.

(** A dictionary that holds "api_url" and "payload" and nothing else has
    no "error" key. *)
Lemma two_keys_no_error (d : dict) (a p : value) :
  d !! "api_url" = Some a -> d !! "payload" = Some p -> size d <= 2 ->
  d !! "error" = None.
Proof.
  intros Ha Hp Hsize. destruct (d !! "error") as [e|] eqn:He; [exfalso|done].
  assert (Hsub : ({[ "api_url"; "payload"; "error" ]} : gset string) ⊆ dom d).
  { intros k Hk. apply elem_of_dom.
    apply elem_of_union in Hk as [Hk|Hk]; [apply elem_of_union in Hk as [Hk|Hk]|];
      apply elem_of_singleton in Hk; subst k; by eexists. }
  apply subseteq_size in Hsub. rewrite size_dom in Hsub.
  assert (Hthree : size ({[ "api_url"; "payload"; "error" ]} : gset string) = 3)
    by (vm_compute; reflexivity).
  lia.
Qed.

(** What validation makes of a delete request that names a path and a
    payload: both survive, no "error" key appears, and at most one sleep is
    taken. *)
Lemma validate_delete_request (input_data : value) (d : dict) (a p : value) (tr : trace) :
  parsed_payload rt input_data = Some d ->
  d !! "api_url" = Some a -> d !! "payload" = Some p ->
  exists d' : dict,
    validate_tool_input rt input_data (Some ["api_url"; "payload"]) 5 tr
    = (Ret d', tr ++ validation_sleeps ["api_url"; "payload"] d)
    /\ d' !! "api_url" = Some a /\ d' !! "payload" = Some p /\ has_key d' "error" = false.
Proof.
  intros Hparsed Ha Hp. unfold validate_tool_input, validation_sleeps.
  change (Z.to_nat 5) with 5%nat. rewrite (validate_loop_parsed _ _ _ _ _ Hparsed).
  destruct (too_many_keys (Some ["api_url"; "payload"]) d) eqn:Htm.
  - exists (restrict_keys ["api_url"; "payload"] d). split; [by apply validate_loop_strips|].
    unfold has_key. rewrite !restrict_keys_lookup. auto.
  - exists d. rewrite app_nil_r. split; [by apply validate_loop_fits|].
    split; [done|]. split; [done|]. unfold has_key.
    rewrite (two_keys_no_error d a p Ha Hp); [done|].
    unfold too_many_keys in Htm. apply Nat.ltb_ge in Htm. exact Htm.
Qed.

Lemma truthy_str (u : string) : u <> "" -> truthy (VStr u) = true.
Proof. intros Hu. simpl. destruct u; [done | reflexivity]. Qed.

(** The branch of [delete_data_handler] that gives up: whenever the lookup
    returns a mapping whose count is zero or absent, the handler answers
    "No resource found" and does nothing after the lookup. *)
Lemma delete_data_handler_gives_up (input_data : value) (d p r : dict) (u : string)
    (name : value) (tr tr1 : trace) :
  parsed_payload rt input_data = Some d ->
  d !! "api_url" = Some (VStr u) -> u <> "" ->
  d !! "payload" = Some (VDict p) -> p !! "name" = Some name -> truthy name = true ->
  get_api rt net (NetBoxController_init NETBOX_URL NETBOX_TOKEN) (VStr u)
    (Some {[ "name" := name ]}) (tr ++ validation_sleeps ["api_url"; "payload"] d)
  = (Ret (VDict r), tr1) ->
  eq_zero (default (VInt 0) (r !! "count")) = true ->
  delete_data_handler rt net NETBOX_URL NETBOX_TOKEN input_data tr
  = (Ret (error_dict ("No resource found at '" +:+ u +:+ "' with name '"
                      +:+ str rt name +:+ "'.")), tr1).
Proof.
  intros Hparsed Ha Hu Hp Hname Htruthy Hget Hzero.
  destruct (validate_delete_request input_data d _ _ tr Hparsed Ha Hp)
    as (d' & Hval & Ha' & Hp' & Herr).
  unfold delete_data_handler. erewrite run_bind by exact Hval.
  rewrite Herr, Ha', Hp'. cbn [default from_option id get_method].
  erewrite run_bind by apply run_ret. rewrite Hname. cbn [default from_option id].
  rewrite (truthy_str u Hu), Htruthy. cbn [negb orb].
  erewrite run_try_ret; [reflexivity|].
  erewrite run_bind by exact Hget. cbn [get_method].
  erewrite run_bind by apply run_ret. rewrite Hzero. reflexivity.
Qed.

End DeleteHandler.

(** C3: a delete request whose name lookup is answered with a match count
    of zero ends with the error "No resource found at '<api_url>' with name
    '<name>'." for the requested name, after the lookup alone: no DELETE is
    sent. *)
Theorem delete_data_handler_no_match (rt : runtime) (net : network)
    (NETBOX_URL NETBOX_TOKEN : string) (input_data : value) (d p r : dict) (u : string)
    (name : value) (resp : response) (tr : trace) :
  NetBox.parsed_payload rt input_data = Some d ->
  d !! "api_url" = Some (VStr u) -> u <> "" ->
  d !! "payload" = Some (VDict p) -> p !! "name" = Some name -> truthy name = true ->
  let before := tr ++ NetBox.validation_sleeps ["api_url"; "payload"] d in
  let lookup := NetBox.lookup_request NETBOX_URL NETBOX_TOKEN u name in
  net before lookup = Answer resp ->
  (200 <= status_code resp < 300)%Z ->
  json_loads rt (text resp) = inl (VDict r) ->
  r !! "count" = Some (VInt 0) ->
  NetBox.delete_data_handler rt net NETBOX_URL NETBOX_TOKEN input_data tr
  = (Ret (error_dict ("No resource found at '" +:+ u +:+ "' with name '"
                      +:+ str rt name +:+ "'.")), before ++ [Sent lookup])
  /\ requests_of (before ++ [Sent lookup]) = requests_of tr ++ [lookup]
  /\ deletes_of (before ++ [Sent lookup]) = deletes_of tr.
Proof.
  intros Hparsed Ha Hu Hp Hname Htruthy before lookup Hnet Hst Hjs Hcount.
  split; [|split].
  - eapply delete_data_handler_gives_up; eauto.
    + eapply get_api_ok; eauto using http_error_msg_None.
    + by rewrite Hcount.
  - unfold before, NetBox.validation_sleeps. rewrite !requests_of_app.
    destruct (NetBox.too_many_keys _ d); simpl; by rewrite app_nil_r.
  - unfold before, NetBox.validation_sleeps. rewrite !deletes_of_app.
    destruct (NetBox.too_many_keys _ d); simpl; by rewrite !app_nil_r.
Qed.

Lemma delete_data_handler_no_match_witness :
  let input : dict :=
    {[ "api_url" := VStr "/api/circuits/providers/";
       "payload" := VDict {[ "name" := VStr "Bell Canada"; "slug" := VStr "bell" ]} ]} in
  let net := Sample.net_static 200 "OK" Sample.empty_page_text in
  let lookup := NetBox.lookup_request "http://netbox.local/" "t0ken"
                  "/api/circuits/providers/" (VStr "Bell Canada") in
  NetBox.delete_data_handler Sample.sample_rt net "http://netbox.local/" "t0ken"
    (VDict input) []
  = (Ret (error_dict
            "No resource found at '/api/circuits/providers/' with name 'Bell Canada'."),
     [Sent lookup])
  /\ requests_of [Sent lookup] = [lookup]
  /\ deletes_of [Sent lookup] = [].
Proof.
  intros input net lookup.
  apply (delete_data_handler_no_match Sample.sample_rt net "http://netbox.local/" "t0ken"
           (VDict input) input {[ "name" := VStr "Bell Canada"; "slug" := VStr "bell" ]}
           {[ "count" := VInt 0; "results" := VList [] ]}
           "/api/circuits/providers/" (VStr "Bell Canada")
           (Response 200 "OK" (req_url lookup) Sample.empty_page_text) []);
    [ reflexivity | reflexivity | discriminate | reflexivity | reflexivity | reflexivity
    | reflexivity | simpl; lia | reflexivity | reflexivity ].
Defined.

(** C9: when the name lookup itself fails (no connection, a 4xx or 5xx
    status, or a body that is not JSON), the REST client returns the
    mapping "Request failed: <detail>", which has no "count" key; the
    handler takes the count to be zero and answers "No resource found"
    rather than the failure, and no DELETE is sent. *)
Theorem delete_data_handler_lookup_fails (rt : runtime) (net : network)
    (NETBOX_URL NETBOX_TOKEN : string) (input_data : value) (d p : dict) (u : string)
    (name : value) (detail : string) (tr : trace) :
  NetBox.parsed_payload rt input_data = Some d ->
  d !! "api_url" = Some (VStr u) -> u <> "" ->
  d !! "payload" = Some (VDict p) -> p !! "name" = Some name -> truthy name = true ->
  let before := tr ++ NetBox.validation_sleeps ["api_url"; "payload"] d in
  let lookup := NetBox.lookup_request NETBOX_URL NETBOX_TOKEN u name in
  let ctl := NetBox.NetBoxController_init NETBOX_URL NETBOX_TOKEN in
  request_error rt (net before lookup) = Some detail ->
  NetBox.get_api rt net ctl (VStr u) (Some {[ "name" := name ]}) before
  = (Ret (VDict (error_dict ("Request failed: " +:+ detail))), before ++ [Sent lookup])
  /\ error_dict ("Request failed: " +:+ detail) !! "count" = None
  /\ NetBox.delete_data_handler rt net NETBOX_URL NETBOX_TOKEN input_data tr
     = (Ret (error_dict ("No resource found at '" +:+ u +:+ "' with name '"
                         +:+ str rt name +:+ "'.")), before ++ [Sent lookup])
  /\ deletes_of (before ++ [Sent lookup]) = deletes_of tr.
Proof.
  intros Hparsed Ha Hu Hp Hname Htruthy before lookup ctl Herr.
  assert (Hget := get_api_error rt net ctl u (Some {[ "name" := name ]}) before detail Herr).
  split; [exact Hget|]. split; [reflexivity|]. split.
  - eapply delete_data_handler_gives_up; eauto.
  - unfold before, NetBox.validation_sleeps. rewrite !deletes_of_app.
    destruct (NetBox.too_many_keys _ d); simpl; by rewrite !app_nil_r.
Qed.

Lemma delete_data_handler_lookup_fails_witness :
  let input : dict :=
    {[ "api_url" := VStr "/api/circuits/providers/";
       "payload" := VDict {[ "name" := VStr "Bell Canada" ]};
       "confirm" := VBool true ]} in
  let lookup := NetBox.lookup_request "http://netbox.local/" "t0ken"
                  "/api/circuits/providers/" (VStr "Bell Canada") in
  NetBox.delete_data_handler Sample.sample_rt Sample.net_down "http://netbox.local/" "t0ken"
    (VDict input) []
  = (Ret (error_dict
            "No resource found at '/api/circuits/providers/' with name 'Bell Canada'."),
     [Slept 1; Sent lookup])
  /\ deletes_of [Slept 1; Sent lookup] = [].
Proof.
  intros input lookup.
  apply (delete_data_handler_lookup_fails Sample.sample_rt Sample.net_down
           "http://netbox.local/" "t0ken" (VDict input) input
           {[ "name" := VStr "Bell Canada" ]} "/api/circuits/providers/"
           (VStr "Bell Canada") "Connection refused" []);
    [ reflexivity | reflexivity | discriminate | reflexivity | reflexivity | reflexivity
    | reflexivity ].
Defined.

(* ===================================================================== *)
(** ** Fetching with a retry budget *)
(* ===================================================================== *)

Section Fetch.

Import NetBox.

Context (rt : runtime) (net : network) (ctl : NetBoxController).

Lemma retry_rounds_S (rq : request) (k : nat) :
  retry_rounds rq (S k) = [Sent rq; Slept 2] ++ retry_rounds rq k.
Proof. reflexivity. Qed.

Lemma requests_of_retry_rounds (rq : request) (k : nat) :
  requests_of (retry_rounds rq k) = replicate k rq.
Proof.
  induction k as [|k IH]; [reflexivity|].
  rewrite retry_rounds_S, requests_of_app, IH. reflexivity.
Qed.

Lemma request_failed_not_empty (e : string) :
  String.eqb ("Request failed: " +:+ e) "" = false.
Proof. reflexivity. Qed.

(** What [get_api] hands to the loop when the attempt counts as failed: a
    mapping whose "error" is true and reads as the detail. *)
Lemma get_api_failed_attempt (u : string) (tr : trace) (detail : string) :
  attempt_failure rt (net tr (get_request ctl u None)) = Some detail ->
  exists d : dict,
    get_api rt net ctl (VStr u) None tr = (Ret (VDict d), tr ++ [Sent (get_request ctl u None)])
    /\ truthy (default VNone (d !! "error")) = true
    /\ str rt (default VNone (d !! "error")) = detail.
Proof.
  unfold attempt_failure.
  destruct (request_error rt (net tr (get_request ctl u None))) as [e|] eqn:He.
  - intros [= <-]. exists (error_dict ("Request failed: " +:+ e)).
    split; [by apply get_api_error|].
    unfold error_dict, error_dict_of. rewrite lookup_singleton_eq.
    cbn [default from_option id truthy str]. by rewrite request_failed_not_empty.
  - destruct (request_error_None rt _ He) as (r & v & Hnet & Hst & Hjs).
    rewrite Hnet, Hjs. destruct v as [| | | | |d]; try done.
    destruct (truthy (default VNone (d !! "error"))) eqn:Htruthy; [|done].
    intros [= <-]. exists d. split; [by eapply get_api_ok | done].
Qed.

(** A failed attempt that is not the last one: the request, then a pause of
    two seconds, and the loop goes on. *)
Lemma fetch_attempt_retries (retries attempt : nat) (u : string) (tr : trace)
    (detail : string) :
  attempt <> retries ->
  attempt_failure rt (net tr (get_request ctl u None)) = Some detail ->
  fetch_attempt rt net ctl retries (VStr u) attempt tr
  = (Ret None, tr ++ [Sent (get_request ctl u None); Slept 2]).
Proof.
  intros Hne Hfail. destruct (get_api_failed_attempt u tr detail Hfail) as (d & Hget & Ht & _).
  unfold fetch_attempt. erewrite run_try_ret; [reflexivity|].
  erewrite run_bind by exact Hget. cbv beta iota. rewrite Ht.
  apply Nat.eqb_neq in Hne. rewrite Hne.
  erewrite run_bind by apply run_sleep. rewrite <- app_assoc. reflexivity.
Qed.

(** A failed last attempt: the request, then the error that keeps the text
    of this failure. *)
Lemma fetch_attempt_gives_up (retries : nat) (u : string) (tr : trace) (detail : string) :
  attempt_failure rt (net tr (get_request ctl u None)) = Some detail ->
  fetch_attempt rt net ctl retries (VStr u) retries tr
  = (Ret (Some (error_dict ("API request failed after " +:+ str_of_nat retries
                            +:+ " attempts: " +:+ detail))),
     tr ++ [Sent (get_request ctl u None)]).
Proof.
  intros Hfail. destruct (get_api_failed_attempt u tr detail Hfail) as (d & Hget & Ht & Hs).
  unfold fetch_attempt. erewrite run_try_ret; [reflexivity|].
  erewrite run_bind by exact Hget. cbv beta iota. rewrite Ht, Hs, Nat.eqb_refl. reflexivity.
Qed.

(** The loop from attempt [a] on, with [m] attempts left that all fail. *)
Lemma fetch_loop_all_fail (retries : nat) (u : string) (orelse : M dict) :
  forall (m a : nat) (tr : trace),
    a + m = retries ->
    (forall k, k <= m ->
       is_Some (attempt_failure rt (net (tr ++ retry_rounds (get_request ctl u None) k)
                                      (get_request ctl u None)))) ->
    exists e,
      attempt_failure rt (net (tr ++ retry_rounds (get_request ctl u None) m)
                              (get_request ctl u None)) = Some e
      /\ for_each (fetch_attempt rt net ctl retries (VStr u)) (seq a (S m)) orelse tr
         = (Ret (error_dict ("API request failed after " +:+ str_of_nat retries
                             +:+ " attempts: " +:+ e)),
            tr ++ retry_rounds (get_request ctl u None) m ++ [Sent (get_request ctl u None)]).
Proof.
  induction m as [|m IH]; intros a tr Ha Hfail.
  - destruct (Hfail 0) as [e He]; [lia|]. exists e. split; [exact He|].
    cbn [retry_rounds replicate concat] in *. rewrite app_nil_r in He.
    cbn [seq for_each]. assert (a = retries) as -> by lia.
    erewrite run_bind by (apply fetch_attempt_gives_up, He). reflexivity.
  - destruct (Hfail 0) as [e0 He0]; [lia|].
    cbn [retry_rounds replicate concat] in He0. rewrite app_nil_r in He0.
    destruct (IH (S a) (tr ++ [Sent (get_request ctl u None); Slept 2])) as (e & He & Hrun).
    + lia.
    + intros k Hk. rewrite <- app_assoc. rewrite <- retry_rounds_S. apply Hfail. lia.
    + exists e. split.
      * rewrite retry_rounds_S, app_assoc. exact He.
      * change (seq a (S (S m))) with (a :: seq (S a) (S m)). cbn [for_each].
        erewrite run_bind by (apply (fetch_attempt_retries _ _ _ _ e0); [lia | exact He0]).
        cbv beta iota. rewrite Hrun. rewrite retry_rounds_S. rewrite <- !app_assoc. reflexivity.
Qed.

(** The retry controller with a budget of [retries] attempts: when every
    attempt fails, exactly [retries] requests are sent, a pause of two
    seconds follows each but the last, and the error carries the detail of
    the last failure. *)
Lemma fetch_with_retries_exhausted (retries : nat) (u : string) (tr : trace) :
  1 <= retries ->
  (forall k, k < retries ->
     is_Some (attempt_failure rt (net (tr ++ retry_rounds (get_request ctl u None) k)
                                    (get_request ctl u None)))) ->
  exists e,
    attempt_failure rt (net (tr ++ retry_rounds (get_request ctl u None) (retries - 1))
                            (get_request ctl u None)) = Some e
    /\ fetch_with_retries rt net ctl retries (VStr u) tr
       = (Ret (error_dict ("API request failed after " +:+ str_of_nat retries
                           +:+ " attempts: " +:+ e)),
          tr ++ retry_rounds (get_request ctl u None) (retries - 1)
             ++ [Sent (get_request ctl u None)]).
Proof.
  intros Hpos Hfail. unfold fetch_with_retries.
  destruct retries as [|m]; [lia|]. replace (S m - 1) with m by lia.
  apply fetch_loop_all_fail; [lia|]. intros k Hk. apply Hfail. lia.
Qed.

End Fetch.

Section GetData.

Import NetBox.

Context (rt : runtime) (net : network) (NETBOX_URL NETBOX_TOKEN : string).

(** Validation of the one-key mapping [get_data_directly] builds is the
    identity, and the path comes back out of it. *)
Lemma get_data_directly_unfold (api_url : value) (tr : trace) :
  get_data_directly rt net NETBOX_URL NETBOX_TOKEN api_url tr
  = match api_url with
    | VStr u =>
        if negb (truthy api_url) then (Ret (error_dict "Invalid or missing `api_url`."), tr)
        else if negb (re_match api_url_pattern u) then
          (Ret (error_dict ("Invalid API URL format: " +:+ u)), tr)
        else fetch_with_retries rt net (NetBoxController_init NETBOX_URL NETBOX_TOKEN)
               5 api_url tr
    | _ => (Ret (error_dict "Invalid or missing `api_url`."), tr)
    end.
Proof.
  unfold get_data_directly.
  erewrite run_bind by (apply validate_loop_fits; reflexivity).
  unfold has_key. rewrite lookup_singleton_ne by discriminate.
  cbn [getitem_str]. rewrite lookup_singleton_eq.
  erewrite run_bind by apply run_ret.
  destruct api_url as [| | |u| |]; try reflexivity.
  destruct (negb (truthy (VStr u))); [reflexivity|].
  destruct (negb (re_match api_url_pattern u)); reflexivity.
Qed.

End GetData.

(** C4: when the path is well formed and each of the five attempts of
    [get_data_directly] fails, exactly five requests are sent, a pause of
    two seconds follows each but the last, and the result is the error "API
    request failed after 5 attempts: <detail>", where <detail> is the text
    of the fifth failure: "Request failed: <e>" when the REST client failed
    with <e> (no connection, a 4xx or 5xx status, a body that is not JSON). *)
Theorem get_data_directly_exhausts_attempts (rt : runtime) (net : network)
    (NETBOX_URL NETBOX_TOKEN : string) (u : string) (tr : trace) :
  let rq := NetBox.fetch_request NETBOX_URL NETBOX_TOKEN u in
  let last := net (tr ++ NetBox.retry_rounds rq 4) rq in
  re_match NetBox.api_url_pattern u = true ->
  (forall k, k < 5 ->
     is_Some (NetBox.attempt_failure rt (net (tr ++ NetBox.retry_rounds rq k) rq))) ->
  exists detail,
    NetBox.attempt_failure rt last = Some detail
    /\ (forall e, request_error rt last = Some e -> detail = "Request failed: " +:+ e)
    /\ NetBox.get_data_directly rt net NETBOX_URL NETBOX_TOKEN (VStr u) tr
       = (Ret (error_dict ("API request failed after 5 attempts: " +:+ detail)),
          tr ++ NetBox.retry_rounds rq 4 ++ [Sent rq])
    /\ requests_of (tr ++ NetBox.retry_rounds rq 4 ++ [Sent rq])
       = requests_of tr ++ replicate 5 rq.
Proof.
  intros rq last Hmatch Hfail.
  destruct (fetch_with_retries_exhausted rt net
              (NetBox.NetBoxController_init NETBOX_URL NETBOX_TOKEN) 5 u tr)
    as (detail & Hdetail & Hrun); [lia | exact Hfail |].
  exists detail. split; [exact Hdetail|]. split; [|split].
  - intros e He. change (NetBox.attempt_failure rt last = Some detail) in Hdetail.
    unfold NetBox.attempt_failure in Hdetail. rewrite He in Hdetail. by injection Hdetail.
  - rewrite get_data_directly_unfold. rewrite Hmatch.
    assert (Hu : u <> "") by (intros ->; discriminate).
    rewrite (truthy_str u Hu). exact Hrun.
  - rewrite requests_of_app. reflexivity.
Qed.

Lemma get_data_directly_exhausts_attempts_witness :
  let rq := NetBox.fetch_request "http://netbox.local/" "t0ken" "/api/dcim/sites/" in
  NetBox.get_data_directly Sample.sample_rt Sample.net_down "http://netbox.local/" "t0ken"
    (VStr "/api/dcim/sites/") []
  = (Ret (error_dict
            "API request failed after 5 attempts: Request failed: Connection refused"),
     [Sent rq; Slept 2; Sent rq; Slept 2; Sent rq; Slept 2; Sent rq; Slept 2; Sent rq])
  /\ requests_of
       [Sent rq; Slept 2; Sent rq; Slept 2; Sent rq; Slept 2; Sent rq; Slept 2; Sent rq]
     = [rq; rq; rq; rq; rq].
Proof.
  intros rq.
  destruct (get_data_directly_exhausts_attempts Sample.sample_rt Sample.net_down
              "http://netbox.local/" "t0ken" "/api/dcim/sites/" [])
    as (detail & Hdetail & _ & Hrun & Hcount).
  - reflexivity.
  - intros k _. exists "Request failed: Connection refused". reflexivity.
  - injection Hdetail as <-. split; [exact Hrun | exact Hcount].
Defined.

(** C5 fails as stated on the empty path: it does not match the pattern,
    yet the error is "Invalid or missing `api_url`." and not "Invalid API
    URL format: ". *)
Lemma get_data_directly_empty_path :
  re_match NetBox.api_url_pattern "" = false
  /\ NetBox.get_data_directly Sample.sample_rt Sample.net_down "http://netbox.local/" "t0ken"
       (VStr "") []
     = (Ret (error_dict "Invalid or missing `api_url`."), [])
  /\ error_dict "Invalid or missing `api_url`." !! "error"
     <> error_dict ("Invalid API URL format: " +:+ "") !! "error".
Proof.
  split; [reflexivity|]. split; [vm_compute; reflexivity|].
  vm_compute. discriminate.
Qed.

(** C5, amended: a path that does not match [^/api/[a-z]+/[a-z\-]+] is
    rejected before anything is sent or slept: with "Invalid API URL
    format: <path>" when it is not empty, with "Invalid or missing
    `api_url`." when it is empty. *)
Theorem get_data_directly_rejects_path (rt : runtime) (net : network)
    (NETBOX_URL NETBOX_TOKEN : string) (u : string) (tr : trace) :
  re_match NetBox.api_url_pattern u = false ->
  NetBox.get_data_directly rt net NETBOX_URL NETBOX_TOKEN (VStr u) tr
  = (Ret (error_dict (if String.eqb u ""
                      then "Invalid or missing `api_url`."
                      else "Invalid API URL format: " +:+ u)), tr).
Proof.
  intros Hno. rewrite get_data_directly_unfold. rewrite Hno.
  destruct u; reflexivity.
Qed.

Lemma get_data_directly_rejects_path_witness :
  re_match NetBox.api_url_pattern "/api/circuits/" = false
  /\ NetBox.get_data_directly Sample.sample_rt Sample.net_down "http://netbox.local/" "t0ken"
       (VStr "/api/circuits/") []
     = (Ret (error_dict "Invalid API URL format: /api/circuits/"), []).
Proof.
  split; [reflexivity|].
  apply (get_data_directly_rejects_path Sample.sample_rt Sample.net_down
           "http://netbox.local/" "t0ken" "/api/circuits/" []).
  reflexivity.
Defined.

(* ===================================================================== *)
(** ** Pure steps *)
(* ===================================================================== *)

Section Pure.

Context {A B : Type}.

Lemma pure_ret (a : A) : pure (mret a : M A).
Proof. intros tr. reflexivity. Qed.

Lemma pure_raise (e : exn) : pure (raise e : M A).
Proof. intros tr. reflexivity. Qed.

Lemma pure_bind (m : M A) (f : A -> M B) :
  pure m -> (forall a, pure (f a)) -> pure (m ≫= f).
Proof.
  intros Hm Hf tr. unfold mbind, M_bind. specialize (Hm tr).
  destruct (m tr) as [[a|e] tr']; simpl in Hm; subst tr'; [apply Hf | reflexivity].
Qed.

(** After a step that ends in [tr1], pure code leaves the trace at [tr1]. *)
Lemma bind_pure_trace (m : M A) (f : A -> M B) (tr tr1 : trace) (o : outcome A) :
  m tr = (o, tr1) -> (forall a, pure (f a)) -> ((m ≫= f) tr).2 = tr1.
Proof.
  intros Hm Hf. unfold mbind, M_bind. rewrite Hm.
  destruct o as [a|e]; [apply Hf | reflexivity].
Qed.

End Pure.

Lemma pure_get_method (v : value) (key : string) (dflt : value) : pure (get_method v key dflt).
Proof. destruct v; first [apply pure_ret | apply pure_raise]. Qed.

Lemma pure_getitem_str (v : value) (key : string) : pure (getitem_str v key).
Proof.
  destruct v as [| | | | |d]; try apply pure_raise.
  simpl. destruct (d !! key); [apply pure_ret | apply pure_raise].
Qed.

Lemma pure_map_M {A B : Type} (f : A -> M B) (xs : list A) :
  (forall x, pure (f x)) -> pure (map_M f xs).
Proof.
  intros Hf. induction xs as [|x xs IH]; [apply pure_ret|].
  cbn [map_M]. apply pure_bind; [apply Hf|]. intros y.
  apply pure_bind; [exact IH|]. intros ys. apply pure_ret.
Qed.

Lemma try_request_const_trace {A : Type} (m : M A) (a : A) (tr : trace) :
  (try_except_request m (fun _ => mret a) tr).2 = (m tr).2.
Proof.
  unfold try_except_request. destruct (m tr) as [[x|[msg| | | |]] tr']; reflexivity.
Qed.

(* ===================================================================== *)
(** ** The vulnerability query: normalisation, fallback, extraction *)
(* ===================================================================== *)

Lemma string_length_app (a b : string) :
  String.length (a +:+ b) = String.length a + String.length b.
Proof. induction a as [|c a IH]; simpl; [reflexivity | by rewrite IH]. Qed.

Lemma slice_to_length (n : nat) (s : string) :
  String.length (slice_to n s) = Nat.min n (String.length s).
Proof.
  revert s. induction n as [|n IH]; intros s; [reflexivity|].
  destruct s as [|c s]; [reflexivity|]. simpl. by rewrite IH.
Qed.

(** A text that is short enough is kept whole (and still marked). *)
Lemma slice_to_short (n : nat) (s : string) : String.length s <= n -> slice_to n s = s.
Proof.
  revert s. induction n as [|n IH]; intros s Hlen.
  - destruct s; [reflexivity | simpl in Hlen; lia].
  - destruct s as [|c s]; [reflexivity|]. simpl in *. rewrite IH; [reflexivity | lia].
Qed.

Section Extraction.

Import OpenCVE.

Lemma pure_first_ten (v : value) : pure (first_ten v).
Proof. destruct v; first [apply pure_ret | apply pure_raise]. Qed.

Lemma pure_format_cve (cve : value) : pure (format_cve cve).
Proof.
  unfold format_cve. apply pure_bind; [apply pure_getitem_str|]. intros cve_id.
  apply pure_bind; [apply pure_getitem_str|]. intros description.
  destruct description; first [apply pure_ret | apply pure_raise].
Qed.

Lemma pure_extract_cves (vendor version : string) (json_response : value) :
  pure (extract_cves vendor version json_response).
Proof.
  unfold extract_cves. apply pure_bind; [apply pure_get_method|]. intros cve_list.
  destruct (negb (truthy cve_list)); [apply pure_ret|].
  apply pure_bind; [apply pure_first_ten|]. intros cves.
  apply pure_bind; [apply pure_map_M, pure_format_cve|]. intros formatted.
  apply pure_bind; [apply pure_getitem_str|]. intros cve_count. apply pure_ret.
Qed.

Lemma format_cve_record (r cve_id : value) (description : string) (tr : trace) :
  is_record r cve_id description ->
  format_cve r tr
  = (Ret (VDict {[ "cve_id" := cve_id;
                   "description" := VStr (slice_to 200 description +:+ "...") ]}), tr).
Proof.
  intros (d & -> & Hid & Hdesc). unfold format_cve. cbn [getitem_str].
  rewrite Hid, Hdesc. reflexivity.
Qed.

(** How a record and its formatted copy are related. *)
Lemma map_format_cve_records (records : list value) (tr : trace) :
  Forall (fun r => exists cve_id description, is_record r cve_id description) records ->
  exists cves,
    map_M format_cve records tr = (Ret cves, tr)
    /\ Forall2 (fun r c => exists cve_id description,
                  is_record r cve_id description
                  /\ c = VDict {[ "cve_id" := cve_id;
                                  "description" := VStr (slice_to 200 description +:+ "...") ]})
               records cves.
Proof.
  induction 1 as [|r records (cve_id & description & Hr) _ (cves & Hrun & Hall)].
  - exists []. split; [reflexivity | constructor].
  - eexists (_ :: cves). split.
    + cbn [map_M]. erewrite run_bind by (by apply format_cve_record).
      erewrite run_bind by exact Hrun. reflexivity.
    + constructor; [|exact Hall]. eauto.
Qed.

End Extraction.

(** C7 fails as stated: the one record of the response has a description
    of 201 characters, and the description returned for it has 203. *)
Lemma fetch_cves_description_203 :
  let input : dict := {[ "vendor" := VStr "juniper"; "version" := VStr "21.4R5" ]} in
  let net := Sample.net_static 200 "OK" Sample.one_cve_text in
  let returned := Sample.repeat_char "a" 200 +:+ "..." in
  String.length Sample.long_description = 201
  /\ OpenCVE.fetch_cves_from_opencve Sample.sample_rt net (Some "user") (Some "secret")
       (VDict input) []
     = (Ret {[ "cve_count" := VInt 1;
               "cves" := VList [ VDict {[ "cve_id" := VStr "CVE-2024-0001";
                                          "description" := VStr returned ]} ] ]},
        [Sent (OpenCVE.cve_request "juniper" "21.4R5" "user" "secret")])
  /\ String.length returned = 203
  /\ ~ String.length returned <= 200.
Proof.
  split; [reflexivity|]. split; [vm_compute; reflexivity|].
  split; [reflexivity|]. vm_compute. lia.
Qed.

(** C7, amended: for a response whose "results" is a non-empty list of
    records, the extraction returns the first ten records at most, in
    order, and the description of each is the first 200 characters of the
    original followed by "...": 203 characters at most, and the marker is
    added to short descriptions too. *)
Theorem extract_cves_caps (vendor version : string) (json_response : dict) (count : value)
    (records : list value) (tr : trace) :
  json_response !! "results" = Some (VList records) ->
  records <> [] ->
  Forall (fun r => exists cve_id description, OpenCVE.is_record r cve_id description) records ->
  json_response !! "count" = Some count ->
  exists cves,
    OpenCVE.extract_cves vendor version (VDict json_response) tr
    = (Ret {[ "cve_count" := count; "cves" := VList cves ]}, tr)
    /\ length cves = Nat.min 10 (length records)
    /\ length cves <= 10
    /\ Forall2 (fun r c => exists cve_id description,
                  OpenCVE.is_record r cve_id description
                  /\ c = VDict {[ "cve_id" := cve_id;
                                  "description" := VStr (slice_to 200 description +:+ "...") ]}
                  /\ String.length (slice_to 200 description +:+ "...")
                     = Nat.min 200 (String.length description) + 3)
               (take 10 records) cves.
Proof.
  intros Hresults Hne Hrecords Hcount.
  destruct (map_format_cve_records (take 10 records) tr) as (cves & Hrun & Hall).
  { by apply Forall_take. }
  exists cves.
  assert (Hlen : length cves = Nat.min 10 (length records)).
  { rewrite <- (Forall2_length _ _ _ Hall). apply length_take. }
  split; [|split; [exact Hlen | split; [lia|]]].
  - unfold OpenCVE.extract_cves. cbn [get_method]. rewrite Hresults.
    erewrite run_bind by apply run_ret. cbn [default from_option id truthy].
    destruct records as [|r records']; [done|]. cbn [negb].
    erewrite run_bind by apply run_ret.
    erewrite run_bind by exact Hrun.
    cbn [getitem_str]. rewrite Hcount.
    erewrite run_bind by apply run_ret. reflexivity.
  - eapply Forall2_impl; [exact Hall|].
    intros r c (cve_id & description & Hr & ->). exists cve_id, description.
    split; [exact Hr|]. split; [reflexivity|].
    rewrite string_length_app, slice_to_length. reflexivity.
Qed.

Lemma extract_cves_caps_witness :
  let record := VDict {[ "cve_id" := VStr "CVE-2024-0001";
                         "description" := VStr Sample.long_description ]} in
  exists cves,
    OpenCVE.extract_cves "juniper" "21.4R5" Sample.one_cve []
    = (Ret {[ "cve_count" := VInt 1; "cves" := VList cves ]}, [])
    /\ length cves = 1
    /\ length cves <= 10
    /\ Forall2 (fun r c => exists cve_id description,
                  OpenCVE.is_record r cve_id description
                  /\ c = VDict {[ "cve_id" := cve_id;
                                  "description" := VStr (slice_to 200 description +:+ "...") ]}
                  /\ String.length (slice_to 200 description +:+ "...")
                     = Nat.min 200 (String.length description) + 3)
               [record] cves.
Proof.
  intros record.
  apply (extract_cves_caps "juniper" "21.4R5"
           {[ "count" := VInt 1; "results" := VList [record] ]} (VInt 1) [record] []).
  - reflexivity.
  - discriminate.
  - constructor; [|constructor].
    exists (VStr "CVE-2024-0001"), Sample.long_description.
    eexists. split; [reflexivity|]. split; reflexivity.
  - reflexivity.
Defined.

Section Query.

Import OpenCVE.

Context (rt : runtime) (net : network).

(** A well-formed input with credentials at hand reaches the query. *)
Lemma fetch_cves_enter (input_data : value) (d : dict) (raw_vendor raw_version : string)
    (user password : string) (tr : trace) :
  parsed_input rt input_data = Some d ->
  d !! "vendor" = Some (VStr raw_vendor) ->
  d !! "version" = Some (VStr raw_version) ->
  normalize_vendor raw_vendor <> "" -> strip raw_version <> "" ->
  user <> "" -> password <> "" ->
  fetch_cves_from_opencve rt net (Some user) (Some password) input_data tr
  = try_except_request
      (query_opencve rt net (normalize_vendor raw_vendor) (strip raw_version) user password)
      (fun _ => mret (error_dict "Failed to fetch CVEs from OpenCVE.")) tr.
Proof.
  intros Hparsed Hvendor Hversion Hv Hver Hu Hp. unfold fetch_cves_from_opencve.
  assert (Hm : match input_data with
               | VStr s => json_loads rt (replace_char "'" (ascii_of_nat 34) s)
               | v => inl v
               end = inl (VDict d)).
  { unfold parsed_input in Hparsed. destruct input_data as [| | |s| |d0]; try done.
    - destruct (json_loads rt _) as [[| | | | |d0]|]; try done. by injection Hparsed as ->.
    - by injection Hparsed as ->. }
  rewrite Hm, Hvendor, Hversion. cbn [default from_option id].
  rewrite !truthy_str by assumption. reflexivity.
Qed.

(** One query is one request, whatever comes back. *)
Lemma opencve_get_sends (vendor version user password : string) (tr : trace) :
  exists o, opencve_get rt net (query_url vendor version) user password tr
            = (o, tr ++ [Sent (cve_request vendor version user password)]).
Proof.
  unfold opencve_get. fold (cve_request vendor version user password).
  destruct (request_error rt (net tr (cve_request vendor version user password)))
    as [e|] eqn:He.
  - eexists. by apply exchange_error.
  - destruct (request_error_None rt _ He) as (r & v & Hnet & Hst & Hjs).
    eexists. by eapply exchange_ok.
Qed.

(** The query sends the exact request and, at most once, the broadened
    one; the latter only when the broadened version is another string. *)
Lemma query_opencve_trace (vendor version user password : string) (tr : trace) :
  let first := cve_request vendor version user password in
  let second := cve_request vendor (fallback_version_of version) user password in
  (query_opencve rt net vendor version user password tr).2 = tr ++ [Sent first]
  \/ (fallback_version_of version <> version
      /\ (query_opencve rt net vendor version user password tr).2
         = tr ++ [Sent first; Sent second]).
Proof.
  intros first second. unfold query_opencve. cbv zeta.
  destruct (opencve_get_sends vendor version user password tr) as [[v|e] H1].
  2:{ left. erewrite run_bind_raise by exact H1. reflexivity. }
  erewrite run_bind by exact H1.
  destruct v as [| | | | |j]; try (left; reflexivity).
  cbn [get_method]. erewrite run_bind by apply run_ret.
  destruct (eq_zero (default (VInt 0) (j !! "count")));
    [destruct (String.eqb (fallback_version_of version) version) eqn:Hfb|]; cbn [negb].
  - left. erewrite run_bind by apply run_ret. apply pure_extract_cves.
  - right. split; [by apply String.eqb_neq|].
    destruct (opencve_get_sends vendor (fallback_version_of version) user password
                (tr ++ [Sent first])) as [o2 H2].
    erewrite bind_pure_trace; [|exact H2|intros a; apply pure_extract_cves].
    rewrite <- app_assoc. reflexivity.
  - left. erewrite run_bind by apply run_ret. apply pure_extract_cves.
Qed.

(** With an exact query that counts no result, the trace is settled by the
    broadened version alone: no answer to the second request adds a third. *)
Lemma query_opencve_zero (vendor version user password : string) (tr : trace)
    (resp : response) (j : dict) :
  let first := cve_request vendor version user password in
  let second := cve_request vendor (fallback_version_of version) user password in
  net tr first = Answer resp -> http_error_msg resp = None ->
  json_loads rt (text resp) = inl (VDict j) ->
  eq_zero (default (VInt 0) (j !! "count")) = true ->
  (query_opencve rt net vendor version user password tr).2
  = tr ++ Sent first :: (if String.eqb (fallback_version_of version) version
                         then [] else [Sent second]).
Proof.
  intros first second Hnet Hst Hjs Hzero. unfold query_opencve. cbv zeta.
  erewrite run_bind by (unfold opencve_get; eapply exchange_ok; eauto).
  cbn [get_method]. erewrite run_bind by apply run_ret. rewrite Hzero.
  destruct (String.eqb (fallback_version_of version) version); cbn [negb].
  - erewrite run_bind by apply run_ret. apply pure_extract_cves.
  - destruct (opencve_get_sends vendor (fallback_version_of version) user password
                (tr ++ [Sent first])) as [o2 H2].
    erewrite bind_pure_trace; [|exact H2|intros a; apply pure_extract_cves].
    rewrite <- app_assoc. reflexivity.
Qed.

End Query.

(** C2 fails as stated: the exact query for version "21.4R5" counts no
    result, and no second request follows; in particular none for "21.4". *)
Lemma fetch_cves_21_4R5_not_broadened :
  let input : dict := {[ "vendor" := VStr "juniper"; "version" := VStr "21.4R5" ]} in
  let net := Sample.net_static 200 "OK" Sample.empty_page_text in
  json_loads Sample.sample_rt Sample.empty_page_text
  = inl (VDict {[ "count" := VInt 0; "results" := VList [] ]})
  /\ OpenCVE.fetch_cves_from_opencve Sample.sample_rt net (Some "user") (Some "secret")
       (VDict input) []
     = (Ret {[ "message" := VStr "No CVEs found for juniper 21.4R5." ]},
        [Sent (OpenCVE.cve_request "juniper" "21.4R5" "user" "secret")])
  /\ OpenCVE.cve_request "juniper" "21.4R5" "user" "secret"
     <> OpenCVE.cve_request "juniper" "21.4" "user" "secret".
Proof.
  split; [reflexivity|]. split; [vm_compute; reflexivity|].
  intros H. apply (f_equal req_url) in H. vm_compute in H. discriminate.
Qed.

(** C2, amended: when the exact query counts no result, the broadened
    version (the first two dot-separated components, joined by a dot) is
    queried once if it differs from the version asked for, and nothing is
    sent after it, whatever it returns.  Version "21.4R5" has two such
    components only, so it is its own broadened version and no retry is
    sent; version "21.4.5" is retried once, as "21.4". *)
Theorem fetch_cves_broadens_once (rt : runtime) (net : network) (input_data : value)
    (d : dict) (raw_vendor raw_version user password : string) (resp : response)
    (j : dict) (tr : trace) :
  OpenCVE.parsed_input rt input_data = Some d ->
  d !! "vendor" = Some (VStr raw_vendor) ->
  d !! "version" = Some (VStr raw_version) ->
  let vendor := OpenCVE.normalize_vendor raw_vendor in
  let version := strip raw_version in
  vendor <> "" -> version <> "" -> user <> "" -> password <> "" ->
  let first := OpenCVE.cve_request vendor version user password in
  let second :=
    OpenCVE.cve_request vendor (OpenCVE.fallback_version_of version) user password in
  let after :=
    (OpenCVE.fetch_cves_from_opencve rt net (Some user) (Some password) input_data tr).2 in
  net tr first = Answer resp ->
  (200 <= status_code resp < 300)%Z ->
  json_loads rt (text resp) = inl (VDict j) ->
  j !! "count" = Some (VInt 0) ->
  after = tr ++ Sent first :: (if String.eqb (OpenCVE.fallback_version_of version) version
                               then [] else [Sent second])
  /\ (version = "21.4R5" -> after = tr ++ [Sent first])
  /\ (version = "21.4.5" ->
      after = tr ++ [Sent first; Sent (OpenCVE.cve_request vendor "21.4" user password)]).
Proof.
  intros Hparsed Hvendor Hversion vendor version Hv Hver Hu Hp first second after
    Hnet Hst Hjs Hcount.
  assert (Hafter : after = tr ++ Sent first ::
                     (if String.eqb (OpenCVE.fallback_version_of version) version
                      then [] else [Sent second])).
  { unfold after. erewrite fetch_cves_enter by eassumption.
    rewrite try_request_const_trace.
    eapply query_opencve_zero; eauto using http_error_msg_None. by rewrite Hcount. }
  split; [exact Hafter|]. split; intros Heq; rewrite Hafter; unfold second; rewrite Heq;
    reflexivity.
Qed.

Lemma fetch_cves_broadens_once_witness :
  let input : dict := {[ "vendor" := VStr "Juniper Networks"; "version" := VStr "21.4.5" ]} in
  let net := Sample.net_static 200 "OK" Sample.empty_page_text in
  (OpenCVE.fetch_cves_from_opencve Sample.sample_rt net (Some "user") (Some "secret")
     (VDict input) []).2
  = [Sent (OpenCVE.cve_request "juniper" "21.4.5" "user" "secret");
     Sent (OpenCVE.cve_request "juniper" "21.4" "user" "secret")].
Proof.
  intros input net.
  destruct (fetch_cves_broadens_once Sample.sample_rt net (VDict input) input
              "Juniper Networks" "21.4.5" "user" "secret"
              (Response 200 "OK" (OpenCVE.query_url "juniper" "21.4.5") Sample.empty_page_text)
              {[ "count" := VInt 0; "results" := VList [] ]} [])
    as (_ & _ & Hretry);
    [ reflexivity | reflexivity | reflexivity | discriminate | discriminate | discriminate
    | discriminate | reflexivity | simpl; lia | reflexivity | reflexivity | ].
  apply Hretry. reflexivity.
Defined.

(** C8 fails as stated: the vendor " Acme" is not in the alias table, its
    lowercased form is " acme", and the query is for "acme". *)
Lemma fetch_cves_vendor_stripped :
  let input : dict := {[ "vendor" := VStr " Acme"; "version" := VStr "1.0" ]} in
  OpenCVE.vendor_mapping !! lower " Acme" = None
  /\ lower " Acme" = " acme"
  /\ OpenCVE.fetch_cves_from_opencve Sample.sample_rt Sample.net_down (Some "user")
       (Some "secret") (VDict input) []
     = (Ret (error_dict "Failed to fetch CVEs from OpenCVE."),
        [Sent (OpenCVE.cve_request "acme" "1.0" "user" "secret")])
  /\ OpenCVE.cve_request "acme" "1.0" "user" "secret"
     <> OpenCVE.cve_request (lower " Acme") "1.0" "user" "secret".
Proof.
  split; [reflexivity|]. split; [reflexivity|]. split; [vm_compute; reflexivity|].
  intros H. apply (f_equal req_url) in H. vm_compute in H. discriminate.
Qed.

(** C8, amended: the vendor is stripped of surrounding whitespace and
    lowercased, then looked up in the alias table; every request of the
    query, the exact one and the broadened one if there is one, names the
    vendor so normalised.  "Juniper Networks" in any letter case is queried
    as "juniper", and a vendor that is not in the table as its stripped,
    lowercased form. *)
Theorem fetch_cves_normalizes_vendor (rt : runtime) (net : network) (input_data : value)
    (d : dict) (raw_vendor raw_version user password : string) (tr : trace) :
  OpenCVE.parsed_input rt input_data = Some d ->
  d !! "vendor" = Some (VStr raw_vendor) ->
  d !! "version" = Some (VStr raw_version) ->
  let vendor := OpenCVE.normalize_vendor raw_vendor in
  let version := strip raw_version in
  vendor <> "" -> version <> "" -> user <> "" -> password <> "" ->
  let first := OpenCVE.cve_request vendor version user password in
  let second :=
    OpenCVE.cve_request vendor (OpenCVE.fallback_version_of version) user password in
  let after :=
    (OpenCVE.fetch_cves_from_opencve rt net (Some user) (Some password) input_data tr).2 in
  (after = tr ++ [Sent first] \/ after = tr ++ [Sent first; Sent second])
  /\ vendor = default (lower (strip raw_vendor))
                      (OpenCVE.vendor_mapping !! lower (strip raw_vendor))
  /\ (lower (strip raw_vendor) = "juniper networks" -> vendor = "juniper")
  /\ (OpenCVE.vendor_mapping !! lower (strip raw_vendor) = None ->
      vendor = lower (strip raw_vendor)).
Proof.
  intros Hparsed Hvendor Hversion vendor version Hv Hver Hu Hp first second after.
  split; [|split; [reflexivity|split]].
  - unfold after. erewrite fetch_cves_enter by eassumption.
    rewrite try_request_const_trace.
    destruct (query_opencve_trace rt net vendor version user password tr) as [H|[_ H]];
      [left | right]; exact H.
  - intros Heq. unfold vendor, OpenCVE.normalize_vendor. rewrite Heq. reflexivity.
  - intros Hnone. unfold vendor, OpenCVE.normalize_vendor. rewrite Hnone. reflexivity.
Qed.

Lemma fetch_cves_normalizes_vendor_witness :
  let input : dict :=
    {[ "vendor" := VStr "JUNIPER Networks"; "version" := VStr "21.4R5" ]} in
  let after :=
    (OpenCVE.fetch_cves_from_opencve Sample.sample_rt Sample.net_down (Some "user")
       (Some "secret") (VDict input) []).2 in
  (after = [Sent (OpenCVE.cve_request "juniper" "21.4R5" "user" "secret")]
   \/ after = [Sent (OpenCVE.cve_request "juniper" "21.4R5" "user" "secret");
               Sent (OpenCVE.cve_request "juniper" "21.4R5" "user" "secret")])
  /\ OpenCVE.normalize_vendor "JUNIPER Networks" = "juniper".
Proof.
  intros input after.
  destruct (fetch_cves_normalizes_vendor Sample.sample_rt Sample.net_down (VDict input) input
              "JUNIPER Networks" "21.4R5" "user" "secret" [])
    as (Htrace & _ & Hjuniper & _);
    [ reflexivity | reflexivity | reflexivity | discriminate | discriminate | discriminate
    | discriminate | ].
  split; [exact Htrace | apply Hjuniper; reflexivity].
Defined.

(* ===================================================================== *)
(** ** More on the input validator *)
(* ===================================================================== *)

Section ValidatorMore.

Import NetBox.

Context (rt : runtime).

Lemma too_many_keys_error_dict (ek : option (list string)) (msg : string) :
  too_many_keys ek (error_dict msg) = false.
Proof.
  unfold too_many_keys. destruct ek as [[|k ks]|]; reflexivity.
Qed.

(** Whatever the validator returns has no more keys than it tolerates. *)
Lemma validate_loop_result_fits (ek : option (list string)) (n : nat) (v : value)
    (tr tr' : trace) (d : dict) :
  validate_loop rt ek n v tr = (Ret d, tr') -> too_many_keys ek d = false.
Proof.
  destruct n as [|n]; [intros [= <- _]; apply too_many_keys_error_dict|].
  assert (Hdict : forall d0 : dict,
             validate_loop rt ek (S n) (VDict d0) tr = (Ret d, tr') ->
             too_many_keys ek d = false).
  { intros d0. destruct (too_many_keys ek d0) eqn:Htm.
    - destruct (too_many_keys_Some _ _ Htm) as (ks & -> & _). destruct n as [|n].
      + cbn [validate_loop]. rewrite Htm. erewrite run_bind by apply run_sleep.
        intros [= <- _]. apply too_many_keys_error_dict.
      + rewrite (validate_loop_strips rt ks n d0 tr Htm). intros [= <- _].
        apply too_many_keys_restrict.
    - rewrite (validate_loop_fits rt ek n d0 tr Htm). by intros [= <- _]. }
  destruct v as [| b | z | s | l | d0]; try apply Hdict;
    try (intros [= <- _]; apply too_many_keys_error_dict).
  simpl. destruct (json_loads rt s) as [[| b | z | s' | l | d0]|msg] eqn:Hs;
    try (intros [= <- _]; apply too_many_keys_error_dict).
  intros H. apply (Hdict d0). simpl. exact H.
Qed.

End ValidatorMore.

(** X1: with a budget of two passes or more, a payload with more keys than
    expected is stripped in one repair pass: one pause of a second, and the
    mapping returned has expected keys only, at most as many as there are
    expected keys, each with the value the payload gave it. *)
Theorem validate_tool_input_strips (rt : runtime) (d : dict) (ks : list string)
    (max_retries : Z) (tr : trace) :
  (2 <= max_retries)%Z ->
  ks <> [] ->
  length ks < size d ->
  exists d' : dict,
    NetBox.validate_tool_input rt (VDict d) (Some ks) max_retries tr
    = (Ret d', tr ++ [Slept 1])
    /\ dom d' ⊆ (list_to_set ks : gset string)
    /\ size d' <= length ks
    /\ (forall k, k ∈ ks -> d' !! k = d !! k).
Proof.
  intros Hbudget Hks Hsize.
  assert (Htm : NetBox.too_many_keys (Some ks) d = true).
  { unfold NetBox.too_many_keys. destruct ks; [done|]. by apply Nat.ltb_lt. }
  unfold NetBox.validate_tool_input.
  destruct (Z.to_nat max_retries) as [|[|n]] eqn:Hn; [lia | lia |].
  exists (NetBox.restrict_keys ks d). split; [by apply validate_loop_strips|].
  split; [apply restrict_keys_dom|]. split; [apply restrict_keys_size|].
  intros k Hk. rewrite restrict_keys_lookup. by rewrite decide_True.
Qed.

Lemma validate_tool_input_strips_witness :
  exists d' : dict,
    NetBox.validate_tool_input Sample.sample_rt
      (VDict {[ "api_url" := VStr "/api/dcim/interfaces/"; "extra" := VStr "x" ]})
      (Some ["api_url"]) 5 []
    = (Ret d', [Slept 1])
    /\ dom d' ⊆ (list_to_set ["api_url"] : gset string)
    /\ size d' <= 1
    /\ (forall k, k ∈ ["api_url"] ->
        d' !! k = ({[ "api_url" := VStr "/api/dcim/interfaces/"; "extra" := VStr "x" ]} : dict) !! k).
Proof.
  apply (validate_tool_input_strips Sample.sample_rt
           {[ "api_url" := VStr "/api/dcim/interfaces/"; "extra" := VStr "x" ]}
           ["api_url"] 5 []); [lia | discriminate | vm_compute; lia].
Defined.

(** X2: with a budget of one pass or less, a payload with more keys than
    expected is never returned, stripped or not: the only pass is spent on
    the repair and the result is the error "Too many arguments provided,
    and retries exceeded.". *)
Theorem validate_tool_input_budget_spent (rt : runtime) (d : dict) (ks : list string)
    (max_retries : Z) (tr : trace) :
  (max_retries <= 1)%Z ->
  ks <> [] ->
  length ks < size d ->
  NetBox.validate_tool_input rt (VDict d) (Some ks) max_retries tr
  = (Ret (error_dict "Too many arguments provided, and retries exceeded."),
     tr ++ replicate (Z.to_nat max_retries) (Slept 1)).
Proof.
  intros Hbudget Hks Hsize.
  assert (Htm : NetBox.too_many_keys (Some ks) d = true).
  { unfold NetBox.too_many_keys. destruct ks; [done|]. by apply Nat.ltb_lt. }
  unfold NetBox.validate_tool_input.
  destruct (Z.to_nat max_retries) as [|[|n]] eqn:Hn; [| |lia].
  - simpl. by rewrite app_nil_r.
  - cbn [NetBox.validate_loop]. rewrite Htm.
    erewrite run_bind by apply run_sleep. reflexivity.
Qed.

Lemma validate_tool_input_budget_spent_witness :
  NetBox.validate_tool_input Sample.sample_rt
    (VDict {[ "api_url" := VStr "/api/dcim/interfaces/"; "extra" := VStr "x" ]})
    (Some ["api_url"]) 1 []
  = (Ret (error_dict "Too many arguments provided, and retries exceeded."), [Slept 1]).
Proof.
  apply (validate_tool_input_budget_spent Sample.sample_rt
           {[ "api_url" := VStr "/api/dcim/interfaces/"; "extra" := VStr "x" ]}
           ["api_url"] 1 []); [lia | discriminate | vm_compute; lia].
Defined.

(** X3: validation is idempotent: a mapping the validator returned, be it
    the payload, the stripped payload or an error mapping, passes a second
    validation against the same keys unchanged and without a pause. *)
Theorem validate_tool_input_idempotent (rt : runtime) (input_data : value)
    (expected_keys : option (list string)) (max_retries : Z) (tr tr' tr2 : trace) (d : dict) :
  (0 < max_retries)%Z ->
  NetBox.validate_tool_input rt input_data expected_keys max_retries tr = (Ret d, tr') ->
  NetBox.validate_tool_input rt (VDict d) expected_keys max_retries tr2 = (Ret d, tr2).
Proof.
  intros Hpos Hrun. unfold NetBox.validate_tool_input in *.
  apply validate_loop_result_fits in Hrun.
  destruct (Z.to_nat max_retries) as [|n] eqn:Hn; [lia|].
  by apply validate_loop_fits.
Qed.

Lemma validate_tool_input_idempotent_witness :
  NetBox.validate_tool_input Sample.sample_rt
    (VDict {[ "api_url" := VStr "/api/dcim/interfaces/" ]}) (Some ["api_url"]) 5 []
  = (Ret {[ "api_url" := VStr "/api/dcim/interfaces/" ]}, []).
Proof.
  apply (validate_tool_input_idempotent Sample.sample_rt
           (VDict {[ "api_url" := VStr "/api/dcim/interfaces/"; "extra" := VStr "x" ]})
           (Some ["api_url"]) 5 [] [Slept 1] []); [lia | vm_compute; reflexivity].
Defined.

(** X4: a payload that arrives as text is validated exactly as the mapping
    the text parses to. *)
Theorem validate_tool_input_text (rt : runtime) (s : string) (d : dict)
    (expected_keys : option (list string)) (max_retries : Z) (tr : trace) :
  json_loads rt s = inl (VDict d) ->
  NetBox.validate_tool_input rt (VStr s) expected_keys max_retries tr
  = NetBox.validate_tool_input rt (VDict d) expected_keys max_retries tr.
Proof.
  intros Hs. unfold NetBox.validate_tool_input.
  destruct (Z.to_nat max_retries) as [|n]; [reflexivity|].
  apply validate_loop_parsed. unfold NetBox.parsed_payload. by rewrite Hs.
Qed.

Lemma validate_tool_input_text_witness :
  NetBox.validate_tool_input Sample.sample_rt (VStr Sample.empty_page_text)
    (Some ["api_url"; "payload"]) 5 []
  = NetBox.validate_tool_input Sample.sample_rt Sample.empty_page
      (Some ["api_url"; "payload"]) 5 [].
Proof.
  apply (validate_tool_input_text Sample.sample_rt Sample.empty_page_text
           {[ "count" := VInt 0; "results" := VList [] ]}
           (Some ["api_url"; "payload"]) 5 []).
  reflexivity.
Defined.

(** X5: an input that stands for no mapping is refused at once, with no
    pause: "Invalid JSON format." for a text that does not parse, "Invalid
    input format. Expected JSON object." for a text that parses to anything
    but an object and for a value that is neither text nor mapping. *)
Theorem validate_tool_input_refuses (rt : runtime) (input_data : value)
    (expected_keys : option (list string)) (max_retries : Z) (tr : trace) :
  (0 < max_retries)%Z ->
  NetBox.parsed_payload rt input_data = None ->
  NetBox.validate_tool_input rt input_data expected_keys max_retries tr
  = (Ret (error_dict
            (match input_data with
             | VStr s =>
                 match json_loads rt s with
                 | inr _ => "Invalid JSON format."
                 | inl _ => "Invalid input format. Expected JSON object."
                 end
             | _ => "Invalid input format. Expected JSON object."
             end)), tr).
Proof.
  intros Hpos Hnone. unfold NetBox.validate_tool_input.
  destruct (Z.to_nat max_retries) as [|n] eqn:Hn; [lia|].
  unfold NetBox.parsed_payload in Hnone.
  destruct input_data as [| b | z | s | l | d]; try reflexivity; [|done].
  simpl. destruct (json_loads rt s) as [[| b | z | s' | l | d]|msg]; try reflexivity. done.
Qed.

Lemma validate_tool_input_refuses_witness :
  NetBox.validate_tool_input Sample.sample_rt (VStr "{api_url: /api/dcim/sites/}")
    (Some ["api_url"]) 5 []
  = (Ret (error_dict "Invalid JSON format."), [])
  /\ NetBox.validate_tool_input Sample.sample_rt (VList [VStr "/api/dcim/sites/"])
       (Some ["api_url"]) 5 []
     = (Ret (error_dict "Invalid input format. Expected JSON object."), []).
Proof.
  split.
  - apply (validate_tool_input_refuses Sample.sample_rt (VStr "{api_url: /api/dcim/sites/}")
             (Some ["api_url"]) 5 []); [lia | reflexivity].
  - apply (validate_tool_input_refuses Sample.sample_rt (VList [VStr "/api/dcim/sites/"])
             (Some ["api_url"]) 5 []); [lia | reflexivity].
Defined.

(** X6: as long as the JSON parser returns or raises its decode error,
    the validator returns a mapping and pauses at most once, for one
    second, whatever the input, the expected keys and the retry budget: a
    larger budget buys no further repair.  (The runtime of the model has no
    other failure of the parser; see [Py.runtime].) *)
Theorem validate_tool_input_one_pause (rt : runtime) (input_data : value)
    (expected_keys : option (list string)) (max_retries : Z) (tr : trace) :
  exists (d : dict) (pauses : nat),
    NetBox.validate_tool_input rt input_data expected_keys max_retries tr
    = (Ret d, tr ++ replicate pauses (Slept 1))
    /\ pauses <= 1.
Proof.
  unfold NetBox.validate_tool_input.
  destruct (validate_loop_total rt expected_keys (Z.to_nat max_retries) input_data tr)
    as (d & k & Hrun & _ & Hk).
  exists d, k. auto.
Qed.

(* ===================================================================== *)
(** ** More on fetching *)
(* ===================================================================== *)

Section FetchMore.

Import NetBox.

Context (rt : runtime) (net : network) (ctl : NetBoxController).

(** An attempt that does not count as failed is an answer that parses. *)
Lemma attempt_failure_None (rp : reply) :
  attempt_failure rt rp = None ->
  exists r v,
    rp = Answer r /\ http_error_msg r = None /\ json_loads rt (text r) = inl v
    /\ (forall d : dict, v = VDict d -> truthy (default VNone (d !! "error")) = false).
Proof.
  unfold attempt_failure. destruct (request_error rt rp) as [e|] eqn:He; [done|].
  destruct (request_error_None rt _ He) as (r & v & -> & Hst & Hjs).
  rewrite Hjs. intros H. exists r, v. repeat split; try done.
  intros d ->. by destruct (truthy (default VNone (d !! "error"))).
Qed.

(** An attempt that succeeds ends the loop with the body under "data". *)
Lemma fetch_attempt_succeeds (retries attempt : nat) (u : string) (tr : trace)
    (r : response) (v : value) :
  net tr (get_request ctl u None) = Answer r ->
  json_loads rt (text r) = inl v ->
  attempt_failure rt (Answer r) = None ->
  fetch_attempt rt net ctl retries (VStr u) attempt tr
  = (Ret (Some {[ "status" := VStr "success";
                  "message" := VStr "Data fetched successfully.";
                  "data" := v ]}),
     tr ++ [Sent (get_request ctl u None)]).
Proof.
  intros Hnet Hjs Hok.
  destruct (attempt_failure_None _ Hok) as (r' & v' & [= <-] & Hst & Hjs' & Hbody).
  rewrite Hjs in Hjs'. injection Hjs' as <-.
  unfold fetch_attempt. erewrite run_try_ret; [reflexivity|].
  erewrite run_bind by (eapply get_api_ok; eauto).
  destruct v as [| | | | |d]; try reflexivity.
  rewrite (Hbody d eq_refl). reflexivity.
Qed.

(** Every attempt sends one request; it ends the loop, or pauses for two
    seconds when it is not the last. *)
Lemma fetch_attempt_cases (retries attempt : nat) (u : string) (tr : trace) :
  (exists d, fetch_attempt rt net ctl retries (VStr u) attempt tr
             = (Ret (Some d), tr ++ [Sent (get_request ctl u None)]))
  \/ (attempt <> retries
      /\ fetch_attempt rt net ctl retries (VStr u) attempt tr
         = (Ret None, tr ++ [Sent (get_request ctl u None); Slept 2])).
Proof.
  destruct (attempt_failure rt (net tr (get_request ctl u None))) as [detail|] eqn:Hf.
  - destruct (decide (attempt = retries)) as [->|Hne].
    + left. eexists. by apply fetch_attempt_gives_up.
    + right. split; [done|]. by eapply fetch_attempt_retries.
  - left. destruct (attempt_failure_None _ Hf) as (r & v & Hnet & _ & Hjs & _).
    eexists. eapply fetch_attempt_succeeds; eauto. by rewrite <- Hnet.
Qed.

(** The loop from attempt [a] on: some failed rounds, then a last request. *)
Lemma fetch_loop_bounded (retries : nat) (u : string) (orelse : M dict) :
  forall (m a : nat) (tr : trace),
    a + m = retries ->
    exists d k,
      k <= m
      /\ for_each (fetch_attempt rt net ctl retries (VStr u)) (seq a (S m)) orelse tr
         = (Ret d, tr ++ retry_rounds (get_request ctl u None) k
                      ++ [Sent (get_request ctl u None)]).
Proof.
  induction m as [|m IH]; intros a tr Ha.
  - destruct (fetch_attempt_cases retries a u tr) as [[d Hrun]|[Hne _]]; [|lia].
    exists d, 0. split; [lia|]. cbn [seq for_each].
    erewrite run_bind by exact Hrun. reflexivity.
  - change (seq a (S (S m))) with (a :: seq (S a) (S m)). cbn [for_each].
    destruct (fetch_attempt_cases retries a u tr) as [[d Hrun]|[_ Hrun]].
    + exists d, 0. split; [lia|]. erewrite run_bind by exact Hrun. reflexivity.
    + destruct (IH (S a) (tr ++ [Sent (get_request ctl u None); Slept 2])) as (d & k & Hk & Hloop);
        [lia|].
      exists d, (S k). split; [lia|]. erewrite run_bind by exact Hrun. cbv beta iota.
      rewrite Hloop, retry_rounds_S, <- !app_assoc. reflexivity.
Qed.

(** The loop when the first [k] attempts fail and the next one succeeds. *)
Lemma fetch_loop_recovers (retries : nat) (u : string) (orelse : M dict)
    (r : response) (v : value) :
  forall (k m a : nat) (tr : trace),
    a + m = retries -> k <= m ->
    (forall i, i < k ->
       is_Some (attempt_failure rt (net (tr ++ retry_rounds (get_request ctl u None) i)
                                        (get_request ctl u None)))) ->
    net (tr ++ retry_rounds (get_request ctl u None) k) (get_request ctl u None) = Answer r ->
    json_loads rt (text r) = inl v ->
    attempt_failure rt (Answer r) = None ->
    for_each (fetch_attempt rt net ctl retries (VStr u)) (seq a (S m)) orelse tr
    = (Ret {[ "status" := VStr "success";
              "message" := VStr "Data fetched successfully.";
              "data" := v ]},
       tr ++ retry_rounds (get_request ctl u None) k ++ [Sent (get_request ctl u None)]).
Proof.
  induction k as [|k IH]; intros m a tr Ha Hk Hfail Hnet Hjs Hok.
  - cbn [retry_rounds replicate concat] in *. rewrite app_nil_r in Hnet.
    cbn [seq for_each].
    erewrite run_bind by (eapply fetch_attempt_succeeds; eauto). reflexivity.
  - destruct m as [|m]; [lia|].
    change (seq a (S (S m))) with (a :: seq (S a) (S m)). cbn [for_each].
    destruct (Hfail 0) as [e0 He0]; [lia|].
    cbn [retry_rounds replicate concat] in He0. rewrite app_nil_r in He0.
    erewrite run_bind by (apply (fetch_attempt_retries _ _ _ _ _ _ _ e0); [lia | exact He0]).
    cbv beta iota.
    rewrite (IH m (S a) (tr ++ [Sent (get_request ctl u None); Slept 2])).
    + rewrite retry_rounds_S, <- !app_assoc. reflexivity.
    + lia.
    + lia.
    + intros i Hi. rewrite <- app_assoc, <- retry_rounds_S. apply Hfail. lia.
    + rewrite <- app_assoc, <- retry_rounds_S. exact Hnet.
    + exact Hjs.
    + exact Hok.
Qed.

End FetchMore.

(** X7: when the first [k] attempts of a fetch fail, with [k] below five,
    and the next one is answered with a body that parses and carries no
    true "error", the fetch succeeds with that body under "data", after
    [k + 1] requests and [k] pauses of two seconds; nothing of the failures
    shows in the result. *)
Theorem get_data_directly_recovers (rt : runtime) (net : network)
    (NETBOX_URL NETBOX_TOKEN : string) (u : string) (tr : trace) (k : nat)
    (resp : response) (body : value) :
  let rq := NetBox.fetch_request NETBOX_URL NETBOX_TOKEN u in
  re_match NetBox.api_url_pattern u = true ->
  k < 5 ->
  (forall i, i < k ->
     is_Some (NetBox.attempt_failure rt (net (tr ++ NetBox.retry_rounds rq i) rq))) ->
  net (tr ++ NetBox.retry_rounds rq k) rq = Answer resp ->
  json_loads rt (text resp) = inl body ->
  NetBox.attempt_failure rt (Answer resp) = None ->
  NetBox.get_data_directly rt net NETBOX_URL NETBOX_TOKEN (VStr u) tr
  = (Ret {[ "status" := VStr "success";
            "message" := VStr "Data fetched successfully.";
            "data" := body ]},
     tr ++ NetBox.retry_rounds rq k ++ [Sent rq])
  /\ requests_of (tr ++ NetBox.retry_rounds rq k ++ [Sent rq])
     = requests_of tr ++ replicate (S k) rq.
Proof.
  intros rq Hmatch Hk Hfail Hnet Hjs Hok. split.
  - rewrite get_data_directly_unfold, Hmatch.
    assert (Hu : u <> "") by (intros ->; discriminate).
    rewrite (truthy_str u Hu). cbn [negb]. unfold NetBox.fetch_with_retries.
    apply (fetch_loop_recovers rt net _ 5 u _ resp body k 4 1 tr); auto; lia.
  - rewrite !requests_of_app, requests_of_retry_rounds. cbn [requests_of omap].
    f_equal. clear. induction k as [|k IH]; [reflexivity|].
    cbn [replicate app] in *. f_equal. exact IH.
Qed.

Lemma get_data_directly_recovers_witness :
  let rq := NetBox.fetch_request "http://netbox.local/" "t0ken" "/api/dcim/sites/" in
  NetBox.get_data_directly Sample.sample_rt (Sample2.net_flaky 2 Sample.empty_page_text)
    "http://netbox.local/" "t0ken" (VStr "/api/dcim/sites/") []
  = (Ret {[ "status" := VStr "success";
            "message" := VStr "Data fetched successfully.";
            "data" := Sample.empty_page ]},
     [Sent rq; Slept 2; Sent rq; Slept 2; Sent rq])
  /\ requests_of [Sent rq; Slept 2; Sent rq; Slept 2; Sent rq] = [rq; rq; rq].
Proof.
  intros rq.
  apply (get_data_directly_recovers Sample.sample_rt
           (Sample2.net_flaky 2 Sample.empty_page_text)
           "http://netbox.local/" "t0ken" "/api/dcim/sites/" [] 2
           (Response 200 "OK" (req_url rq) Sample.empty_page_text) Sample.empty_page).
  - reflexivity.
  - lia.
  - intros i Hi. destruct i as [|[|i]]; [by eexists | by eexists | lia].
  - reflexivity.
  - reflexivity.
  - reflexivity.
Defined.

(** X8: whatever the argument and the network, a fetch returns a mapping
    and never raises; it either sends nothing at all, or sends between one
    and five times the same GET for the path it was given, with a pause of
    two seconds after each but the last. *)
Theorem get_data_directly_bounded (rt : runtime) (net : network)
    (NETBOX_URL NETBOX_TOKEN : string) (api_url : value) (tr : trace) :
  exists (d : dict) (k : nat),
    k <= 4
    /\ (NetBox.get_data_directly rt net NETBOX_URL NETBOX_TOKEN api_url tr = (Ret d, tr)
        \/ exists u,
             api_url = VStr u
             /\ re_match NetBox.api_url_pattern u = true
             /\ NetBox.get_data_directly rt net NETBOX_URL NETBOX_TOKEN api_url tr
                = (Ret d, tr ++ NetBox.retry_rounds (NetBox.fetch_request NETBOX_URL NETBOX_TOKEN u) k
                             ++ [Sent (NetBox.fetch_request NETBOX_URL NETBOX_TOKEN u)])).
Proof.
  rewrite get_data_directly_unfold.
  destruct api_url as [| | |u| |]; try (eexists _, 0; split; [lia | left; reflexivity]).
  destruct (negb (truthy (VStr u))); [eexists _, 0; split; [lia | left; reflexivity]|].
  destruct (re_match NetBox.api_url_pattern u) eqn:Hmatch; cbn [negb];
    [|eexists _, 0; split; [lia | left; reflexivity]].
  destruct (fetch_loop_bounded rt net (NetBox.NetBoxController_init NETBOX_URL NETBOX_TOKEN)
              5 u (mret (error_dict "Unexpected failure in API request.")) 4 1 tr)
    as (d & k & Hk & Hrun); [lia|].
  exists d, k. split; [exact Hk|]. right. exists u. auto.
Qed.



(* ===================================================================== *)
(** ** More on lookup, then delete *)
(* ===================================================================== *)

Lemma pure_run {A : Type} (m : M A) (tr : trace) : pure m -> exists o, m tr = (o, tr).
Proof.
  intros Hm. specialize (Hm tr). destruct (m tr) as [o tr'] eqn:E.
  simpl in Hm. subst tr'. by exists o.
Qed.

Lemma pure_getitem_first (v : value) : pure (getitem_first v).
Proof.
  destruct v as [| | |s|l|]; try apply pure_raise.
  - destruct s; [apply pure_raise | apply pure_ret].
  - destruct l; [apply pure_raise | apply pure_ret].
Qed.

Lemma try_except_const_trace {A : Type} (m : M A) (f : exn -> A) (tr : trace) :
  (try_except m (fun e => mret (f e)) tr).2 = (m tr).2.
Proof. unfold try_except. destruct (m tr) as [[x|e] tr']; reflexivity. Qed.

Section DeleteMore.

Import NetBox.

Context (rt : runtime) (net : network) (NETBOX_URL NETBOX_TOKEN : string).

(** A DELETE is one request and always comes back with a mapping. *)
Lemma delete_api_sends (ctl : NetBoxController) (path : string) (tr : trace) :
  exists d, delete_api net ctl path tr = (Ret d, tr ++ [Sent (delete_request ctl path)]).
Proof.
  destruct (net tr (delete_request ctl path)) as [msg|r] eqn:Hnet.
  - eexists. by apply delete_api_failure.
  - eexists. by apply delete_api_answer.
Qed.

(** Validation of a delete or create request that carries no "error" key:
    the two expected entries come through as they are. *)
Lemma validate_request_entries (input_data : value) (d : dict) (tr : trace) :
  parsed_payload rt input_data = Some d ->
  d !! "error" = None ->
  exists d' : dict,
    validate_tool_input rt input_data (Some ["api_url"; "payload"]) 5 tr
    = (Ret d', tr ++ validation_sleeps ["api_url"; "payload"] d)
    /\ d' !! "api_url" = d !! "api_url" /\ d' !! "payload" = d !! "payload"
    /\ has_key d' "error" = false.
Proof.
  intros Hparsed Herr. unfold validate_tool_input, validation_sleeps.
  change (Z.to_nat 5) with 5%nat. rewrite (validate_loop_parsed _ _ _ _ _ _ Hparsed).
  destruct (too_many_keys (Some ["api_url"; "payload"]) d) eqn:Htm.
  - exists (restrict_keys ["api_url"; "payload"] d). split; [by apply validate_loop_strips|].
    unfold has_key. rewrite !restrict_keys_lookup. auto.
  - exists d. rewrite app_nil_r. split; [by apply validate_loop_fits|].
    unfold has_key. by rewrite Herr.
Qed.

(** The branch of [delete_data_handler] that deletes: the first match of
    the lookup is the one deleted, and the outcome is read off what
    [delete_api] returns. *)
Lemma delete_data_handler_deletes (input_data : value) (d p r first response : dict)
    (u : string) (name entity_id : value) (others : list value) (tr tr1 tr2 : trace) :
  parsed_payload rt input_data = Some d ->
  d !! "api_url" = Some (VStr u) -> u <> "" ->
  d !! "payload" = Some (VDict p) -> p !! "name" = Some name -> truthy name = true ->
  get_api rt net (NetBoxController_init NETBOX_URL NETBOX_TOKEN) (VStr u)
    (Some {[ "name" := name ]}) (tr ++ validation_sleeps ["api_url"; "payload"] d)
  = (Ret (VDict r), tr1) ->
  eq_zero (default (VInt 0) (r !! "count")) = false ->
  r !! "results" = Some (VList (VDict first :: others)) ->
  first !! "id" = Some entity_id ->
  delete_api net (NetBoxController_init NETBOX_URL NETBOX_TOKEN)
    (rstrip_char "/" u +:+ "/" +:+ str rt entity_id +:+ "/") tr1
  = (Ret response, tr2) ->
  delete_data_handler rt net NETBOX_URL NETBOX_TOKEN input_data tr
  = (Ret (if eq_str (default VNone (response !! "status")) "success"
          then {[ "status" := VStr "success";
                  "message" := VStr ("Successfully deleted '" +:+ str rt name
                                     +:+ "' at " +:+ u +:+ ".") ]}
          else error_dict_of (default (VStr "Unknown error during deletion.")
                                      (response !! "error"))), tr2).
Proof.
  intros Hparsed Ha Hu Hp Hname Htruthy Hget Hcount Hresults Hid Hdel.
  destruct (validate_delete_request rt input_data d _ _ tr Hparsed Ha Hp)
    as (d' & Hval & Ha' & Hp' & Herr).
  unfold delete_data_handler. erewrite run_bind by exact Hval.
  rewrite Herr, Ha', Hp'. cbn [default from_option id get_method].
  erewrite run_bind by apply run_ret. rewrite Hname. cbn [default from_option id].
  rewrite (truthy_str u Hu), Htruthy. cbn [negb orb].
  erewrite run_try_ret; [reflexivity|].
  erewrite run_bind by exact Hget. cbn [get_method].
  erewrite run_bind by apply run_ret. rewrite Hcount.
  cbn [getitem_str]. rewrite Hresults.
  erewrite run_bind by apply run_ret. cbn [getitem_first].
  erewrite run_bind by apply run_ret. cbn [getitem_str]. rewrite Hid.
  erewrite run_bind by apply run_ret.
  erewrite run_bind by exact Hdel.
  destruct (eq_str (default VNone (response !! "status")) "success"); reflexivity.
Qed.

(** The branch that stumbles on the lookup response: any exception past
    the lookup becomes "Error deleting data: ..." and ends the handler. *)
Lemma delete_data_handler_stumbles (input_data : value) (d p r : dict)
    (u : string) (name : value) (tr tr1 : trace) :
  parsed_payload rt input_data = Some d ->
  d !! "api_url" = Some (VStr u) -> u <> "" ->
  d !! "payload" = Some (VDict p) -> p !! "name" = Some name -> truthy name = true ->
  get_api rt net (NetBoxController_init NETBOX_URL NETBOX_TOKEN) (VStr u)
    (Some {[ "name" := name ]}) (tr ++ validation_sleeps ["api_url"; "payload"] d)
  = (Ret (VDict r), tr1) ->
  eq_zero (default (VInt 0) (r !! "count")) = false ->
  r !! "results" = None \/ r !! "results" = Some (VList []) ->
  delete_data_handler rt net NETBOX_URL NETBOX_TOKEN input_data tr
  = (Ret (error_dict ("Error deleting data: "
                      +:+ str_builtin rt (match r !! "results" with
                                          | None => KeyError
                                          | Some _ => IndexError
                                          end))), tr1).
Proof.
  intros Hparsed Ha Hu Hp Hname Htruthy Hget Hcount Hresults.
  destruct (validate_delete_request rt input_data d _ _ tr Hparsed Ha Hp)
    as (d' & Hval & Ha' & Hp' & Herr).
  unfold delete_data_handler. erewrite run_bind by exact Hval.
  rewrite Herr, Ha', Hp'. cbn [default from_option id get_method].
  erewrite run_bind by apply run_ret. rewrite Hname. cbn [default from_option id].
  rewrite (truthy_str u Hu), Htruthy. cbn [negb orb].
  destruct Hresults as [Hr|Hr]; rewrite Hr.
  - erewrite (run_try_caught _ _ _ _ KeyError); [reflexivity|].
    erewrite run_bind by exact Hget. cbn [get_method].
    erewrite run_bind by apply run_ret. rewrite Hcount.
    cbn [getitem_str]. rewrite Hr. reflexivity.
  - erewrite (run_try_caught _ _ _ _ IndexError); [reflexivity|].
    erewrite run_bind by exact Hget. cbn [get_method].
    erewrite run_bind by apply run_ret. rewrite Hcount.
    cbn [getitem_str]. rewrite Hr. reflexivity.
Qed.

End DeleteMore.

(** X10: when the lookup finds matches, the handler deletes the first one
    and only that one: a single DELETE goes to the resource path, stripped
    of its trailing slashes, followed by the identifier of the first result
    and a slash; answered with status 204, the handler reports "Successfully
    deleted '<name>' at <api_url>.". *)
Theorem delete_data_handler_deletes_first (rt : runtime) (net : network)
    (NETBOX_URL NETBOX_TOKEN : string) (input_data : value) (d p r first : dict)
    (u : string) (name entity_id : value) (others : list value)
    (resp answer : response) (tr : trace) :
  NetBox.parsed_payload rt input_data = Some d ->
  d !! "api_url" = Some (VStr u) -> u <> "" ->
  d !! "payload" = Some (VDict p) -> p !! "name" = Some name -> truthy name = true ->
  let before := tr ++ NetBox.validation_sleeps ["api_url"; "payload"] d in
  let ctl := NetBox.NetBoxController_init NETBOX_URL NETBOX_TOKEN in
  let lookup := NetBox.lookup_request NETBOX_URL NETBOX_TOKEN u name in
  let delete :=
    NetBox.delete_request ctl (rstrip_char "/" u +:+ "/" +:+ str rt entity_id +:+ "/") in
  net before lookup = Answer resp ->
  (200 <= status_code resp < 300)%Z ->
  json_loads rt (text resp) = inl (VDict r) ->
  eq_zero (default (VInt 0) (r !! "count")) = false ->
  r !! "results" = Some (VList (VDict first :: others)) ->
  first !! "id" = Some entity_id ->
  net (before ++ [Sent lookup]) delete = Answer answer ->
  status_code answer = 204%Z ->
  NetBox.delete_data_handler rt net NETBOX_URL NETBOX_TOKEN input_data tr
  = (Ret {[ "status" := VStr "success";
            "message" := VStr ("Successfully deleted '" +:+ str rt name
                               +:+ "' at " +:+ u +:+ ".") ]},
     before ++ [Sent lookup; Sent delete])
  /\ deletes_of (before ++ [Sent lookup; Sent delete]) = deletes_of tr ++ [delete].
Proof.
  intros Hparsed Ha Hu Hp Hname Htruthy before ctl lookup delete
    Hnet Hst Hjs Hcount Hresults Hid Hdel H204.
  assert (Hget : NetBox.get_api rt net ctl (VStr u) (Some {[ "name" := name ]}) before
                 = (Ret (VDict r), before ++ [Sent lookup]))
    by (eapply get_api_ok; eauto using http_error_msg_None).
  assert (Hrun := delete_api_answer net ctl _ _ answer Hdel).
  rewrite H204 in Hrun. cbn [Z.eqb Pos.eqb] in Hrun.
  split.
  - rewrite (delete_data_handler_deletes rt net NETBOX_URL NETBOX_TOKEN input_data
               d p r first _ u name entity_id others tr _ _
               Hparsed Ha Hu Hp Hname Htruthy Hget Hcount Hresults Hid Hrun).
    rewrite <- app_assoc. reflexivity.
  - unfold before, NetBox.validation_sleeps. rewrite !deletes_of_app.
    destruct (NetBox.too_many_keys _ d); simpl; by rewrite ?app_nil_r.
Qed.

Lemma delete_data_handler_deletes_first_witness :
  let input : dict :=
    {[ "api_url" := VStr "/api/circuits/providers/";
       "payload" := VDict {[ "name" := VStr "Bell Canada"; "slug" := VStr "bell" ]} ]} in
  let ctl := NetBox.NetBoxController_init "http://netbox.local/" "t0ken" in
  let lookup := NetBox.lookup_request "http://netbox.local/" "t0ken"
                  "/api/circuits/providers/" (VStr "Bell Canada") in
  let delete := NetBox.delete_request ctl "/api/circuits/providers/7/" in
  NetBox.delete_data_handler Sample2.sample_rt
    (Sample2.net_backend Sample2.one_provider_text 204) "http://netbox.local/" "t0ken"
    (VDict input) []
  = (Ret {[ "status" := VStr "success";
            "message" := VStr "Successfully deleted 'Bell Canada' at /api/circuits/providers/." ]},
     [Sent lookup; Sent delete])
  /\ deletes_of [Sent lookup; Sent delete] = [delete].
Proof.
  intros input ctl lookup delete.
  apply (delete_data_handler_deletes_first Sample2.sample_rt
           (Sample2.net_backend Sample2.one_provider_text 204) "http://netbox.local/" "t0ken"
           (VDict input) input {[ "name" := VStr "Bell Canada"; "slug" := VStr "bell" ]}
           Sample2.one_provider {[ "id" := VInt 7; "name" := VStr "Bell Canada" ]}
           "/api/circuits/providers/" (VStr "Bell Canada") (VInt 7) []
           (Response 200 "OK" (req_url lookup) Sample2.one_provider_text)
           (Response 204 "" (req_url delete) "") []);
    [ reflexivity | reflexivity | discriminate | reflexivity | reflexivity | reflexivity
    | reflexivity | simpl; lia | reflexivity | reflexivity | reflexivity | reflexivity
    | reflexivity | reflexivity ].
Defined.

(** X11: when the DELETE does not come back with status 204, the handler
    returns the error of the REST client as it is, not wrapped a second
    time: "Failed to delete. Status code: <status>" for any other status,
    "Request failed: <detail>" for a transport failure. *)
Theorem delete_data_handler_delete_fails (rt : runtime) (net : network)
    (NETBOX_URL NETBOX_TOKEN : string) (input_data : value) (d p r first : dict)
    (u : string) (name entity_id : value) (others : list value)
    (resp : response) (outcome : reply) (tr : trace) :
  NetBox.parsed_payload rt input_data = Some d ->
  d !! "api_url" = Some (VStr u) -> u <> "" ->
  d !! "payload" = Some (VDict p) -> p !! "name" = Some name -> truthy name = true ->
  let before := tr ++ NetBox.validation_sleeps ["api_url"; "payload"] d in
  let ctl := NetBox.NetBoxController_init NETBOX_URL NETBOX_TOKEN in
  let lookup := NetBox.lookup_request NETBOX_URL NETBOX_TOKEN u name in
  let delete :=
    NetBox.delete_request ctl (rstrip_char "/" u +:+ "/" +:+ str rt entity_id +:+ "/") in
  net before lookup = Answer resp ->
  (200 <= status_code resp < 300)%Z ->
  json_loads rt (text resp) = inl (VDict r) ->
  eq_zero (default (VInt 0) (r !! "count")) = false ->
  r !! "results" = Some (VList (VDict first :: others)) ->
  first !! "id" = Some entity_id ->
  net (before ++ [Sent lookup]) delete = outcome ->
  (forall answer, outcome = Answer answer -> status_code answer <> 204%Z) ->
  NetBox.delete_data_handler rt net NETBOX_URL NETBOX_TOKEN input_data tr
  = (Ret (error_dict
            (match outcome with
             | Failure detail => "Request failed: " +:+ detail
             | Answer answer =>
                 "Failed to delete. Status code: " +:+ str_of_Z (status_code answer)
             end)),
     before ++ [Sent lookup; Sent delete]).
Proof.
  intros Hparsed Ha Hu Hp Hname Htruthy before ctl lookup delete
    Hnet Hst Hjs Hcount Hresults Hid Hdel Hnot.
  assert (Hget : NetBox.get_api rt net ctl (VStr u) (Some {[ "name" := name ]}) before
                 = (Ret (VDict r), before ++ [Sent lookup]))
    by (eapply get_api_ok; eauto using http_error_msg_None).
  destruct outcome as [detail|answer].
  - assert (Hrun := delete_api_failure net ctl _ _ detail Hdel).
    rewrite (delete_data_handler_deletes rt net NETBOX_URL NETBOX_TOKEN input_data
               d p r first _ u name entity_id others tr _ _
               Hparsed Ha Hu Hp Hname Htruthy Hget Hcount Hresults Hid Hrun).
    rewrite <- app_assoc. reflexivity.
  - assert (Hrun := delete_api_answer net ctl _ _ answer Hdel).
    destruct (status_code answer =? 204)%Z eqn:E;
      [apply Z.eqb_eq in E; by destruct (Hnot answer eq_refl)|].
    rewrite (delete_data_handler_deletes rt net NETBOX_URL NETBOX_TOKEN input_data
               d p r first _ u name entity_id others tr _ _
               Hparsed Ha Hu Hp Hname Htruthy Hget Hcount Hresults Hid Hrun).
    rewrite <- app_assoc. reflexivity.
Qed.

Lemma delete_data_handler_delete_fails_witness :
  let input : dict :=
    {[ "api_url" := VStr "/api/circuits/providers/";
       "payload" := VDict {[ "name" := VStr "Bell Canada" ]} ]} in
  let ctl := NetBox.NetBoxController_init "http://netbox.local/" "t0ken" in
  let lookup := NetBox.lookup_request "http://netbox.local/" "t0ken"
                  "/api/circuits/providers/" (VStr "Bell Canada") in
  let delete := NetBox.delete_request ctl "/api/circuits/providers/7/" in
  NetBox.delete_data_handler Sample2.sample_rt
    (Sample2.net_backend Sample2.one_provider_text 409) "http://netbox.local/" "t0ken"
    (VDict input) []
  = (Ret (error_dict "Failed to delete. Status code: 409"), [Sent lookup; Sent delete]).
Proof.
  intros input ctl lookup delete.
  apply (delete_data_handler_delete_fails Sample2.sample_rt
           (Sample2.net_backend Sample2.one_provider_text 409) "http://netbox.local/" "t0ken"
           (VDict input) input {[ "name" := VStr "Bell Canada" ]}
           Sample2.one_provider {[ "id" := VInt 7; "name" := VStr "Bell Canada" ]}
           "/api/circuits/providers/" (VStr "Bell Canada") (VInt 7) []
           (Response 200 "OK" (req_url lookup) Sample2.one_provider_text)
           (Answer (Response 409 "" (req_url delete) "")) []);
    [ reflexivity | reflexivity | discriminate | reflexivity | reflexivity | reflexivity
    | reflexivity | simpl; lia | reflexivity | reflexivity | reflexivity | reflexivity
    | reflexivity | intros answer [= <-]; discriminate ].
Defined.

(** X12: a delete request (one that carries no "error" key) is settled
    before anything is sent when it lacks what the lookup needs.  When its
    payload is absent or a mapping, and the "api_url" is missing or false
    or the payload has no true "name", it is refused with "Both 'api_url'
    and 'payload' with 'name' are required.".  When its payload is anything
    but a mapping (a text, a list, null), [payload.get] raises an
    [AttributeError], outside the handler's [try]: the handler raises it,
    whatever the "api_url". *)
Theorem delete_data_handler_requires_name (rt : runtime) (net : network)
    (NETBOX_URL NETBOX_TOKEN : string) (input_data : value) (d : dict) (tr : trace) :
  NetBox.parsed_payload rt input_data = Some d ->
  d !! "error" = None ->
  let payload := default (VDict ∅) (d !! "payload") in
  let after := tr ++ NetBox.validation_sleeps ["api_url"; "payload"] d in
  (forall p : dict,
      payload = VDict p ->
      truthy (default VNone (d !! "api_url")) && truthy (default VNone (p !! "name")) = false ->
      NetBox.delete_data_handler rt net NETBOX_URL NETBOX_TOKEN input_data tr
      = (Ret (error_dict "Both 'api_url' and 'payload' with 'name' are required."), after))
  /\ ((forall p : dict, payload <> VDict p) ->
      NetBox.delete_data_handler rt net NETBOX_URL NETBOX_TOKEN input_data tr
      = (Raise AttributeError, after))
  /\ requests_of after = requests_of tr.
Proof.
  intros Hparsed Herr payload after.
  destruct (validate_request_entries rt input_data d tr Hparsed Herr)
    as (d' & Hval & Ha' & Hp' & Herr').
  split; [|split].
  - intros p Hp Hmissing.
    unfold NetBox.delete_data_handler. erewrite run_bind by exact Hval.
    rewrite Herr', Ha', Hp'. fold payload. rewrite Hp. cbn [get_method].
    erewrite run_bind by apply run_ret.
    destruct (truthy (default VNone (d !! "api_url")));
      destruct (truthy (default VNone (p !! "name"))); try discriminate; reflexivity.
  - intros Hp.
    unfold NetBox.delete_data_handler. erewrite run_bind by exact Hval.
    rewrite Herr', Ha', Hp'. fold payload.
    destruct payload as [| | | | |p]; try reflexivity. by destruct (Hp p).
  - unfold after, NetBox.validation_sleeps. rewrite requests_of_app.
    destruct (NetBox.too_many_keys _ d); simpl; by rewrite app_nil_r.
Qed.

Lemma delete_data_handler_requires_name_witness :
  NetBox.delete_data_handler Sample.sample_rt Sample.net_down "http://netbox.local/" "t0ken"
    (VDict {[ "api_url" := VStr "/api/circuits/providers/";
              "payload" := VDict {[ "slug" := VStr "bell" ]} ]}) []
  = (Ret (error_dict "Both 'api_url' and 'payload' with 'name' are required."), [])
  /\ NetBox.delete_data_handler Sample.sample_rt Sample.net_down "http://netbox.local/" "t0ken"
       (VDict {[ "api_url" := VStr "/api/circuits/providers/";
                 "payload" := VStr "Bell Canada" ]}) []
     = (Raise AttributeError, []).
Proof.
  split.
  - destruct (delete_data_handler_requires_name Sample.sample_rt Sample.net_down
                "http://netbox.local/" "t0ken"
                (VDict {[ "api_url" := VStr "/api/circuits/providers/";
                          "payload" := VDict {[ "slug" := VStr "bell" ]} ]})
                {[ "api_url" := VStr "/api/circuits/providers/";
                   "payload" := VDict {[ "slug" := VStr "bell" ]} ]}
                []) as (Hrefused & _ & _); [reflexivity | reflexivity |].
    exact (Hrefused {[ "slug" := VStr "bell" ]} eq_refl eq_refl).
  - destruct (delete_data_handler_requires_name Sample.sample_rt Sample.net_down
                "http://netbox.local/" "t0ken"
                (VDict {[ "api_url" := VStr "/api/circuits/providers/";
                          "payload" := VStr "Bell Canada" ]})
                {[ "api_url" := VStr "/api/circuits/providers/";
                   "payload" := VStr "Bell Canada" ]}
                []) as (_ & Hraised & _); [reflexivity | reflexivity |].
    apply Hraised. intros p. discriminate.
Defined.

(** X13: a lookup response that counts matches but lists none, or has no
    "results" at all, makes the handler stop with "Error deleting data:
    <text of the exception>" after the lookup; no DELETE is sent. *)
Theorem delete_data_handler_no_results (rt : runtime) (net : network)
    (NETBOX_URL NETBOX_TOKEN : string) (input_data : value) (d p r : dict)
    (u : string) (name : value) (resp : response) (tr : trace) :
  NetBox.parsed_payload rt input_data = Some d ->
  d !! "api_url" = Some (VStr u) -> u <> "" ->
  d !! "payload" = Some (VDict p) -> p !! "name" = Some name -> truthy name = true ->
  let before := tr ++ NetBox.validation_sleeps ["api_url"; "payload"] d in
  let lookup := NetBox.lookup_request NETBOX_URL NETBOX_TOKEN u name in
  net before lookup = Answer resp ->
  (200 <= status_code resp < 300)%Z ->
  json_loads rt (text resp) = inl (VDict r) ->
  eq_zero (default (VInt 0) (r !! "count")) = false ->
  r !! "results" = None \/ r !! "results" = Some (VList []) ->
  NetBox.delete_data_handler rt net NETBOX_URL NETBOX_TOKEN input_data tr
  = (Ret (error_dict ("Error deleting data: "
                      +:+ str_builtin rt (match r !! "results" with
                                          | None => KeyError
                                          | Some _ => IndexError
                                          end))),
     before ++ [Sent lookup])
  /\ deletes_of (before ++ [Sent lookup]) = deletes_of tr.
Proof.
  intros Hparsed Ha Hu Hp Hname Htruthy before lookup Hnet Hst Hjs Hcount Hresults. split.
  - eapply delete_data_handler_stumbles; eauto.
    eapply get_api_ok; eauto using http_error_msg_None.
  - unfold before, NetBox.validation_sleeps. rewrite !deletes_of_app.
    destruct (NetBox.too_many_keys _ d); simpl; by rewrite !app_nil_r.
Qed.

Lemma delete_data_handler_no_results_witness :
  let input : dict :=
    {[ "api_url" := VStr "/api/circuits/providers/";
       "payload" := VDict {[ "name" := VStr "Bell Canada" ]} ]} in
  let lookup := NetBox.lookup_request "http://netbox.local/" "t0ken"
                  "/api/circuits/providers/" (VStr "Bell Canada") in
  NetBox.delete_data_handler Sample2.sample_rt
    (Sample2.net_backend Sample2.dangling_page_text 204) "http://netbox.local/" "t0ken"
    (VDict input) []
  = (Ret (error_dict "Error deleting data: list index out of range"), [Sent lookup])
  /\ deletes_of [Sent lookup] = [].
Proof.
  intros input lookup.
  apply (delete_data_handler_no_results Sample2.sample_rt
           (Sample2.net_backend Sample2.dangling_page_text 204) "http://netbox.local/" "t0ken"
           (VDict input) input {[ "name" := VStr "Bell Canada" ]} Sample2.dangling_page
           "/api/circuits/providers/" (VStr "Bell Canada")
           (Response 200 "OK" (req_url lookup) Sample2.dangling_page_text) []);
    [ reflexivity | reflexivity | discriminate | reflexivity | reflexivity | reflexivity
    | reflexivity | simpl; lia | reflexivity | reflexivity | right; reflexivity ].
Defined.

(** X14: whatever the input and the network, the delete handler pauses at
    most once and then sends nothing, or one GET, or one GET followed by
    one DELETE: never a DELETE without the lookup before it, never more
    than one DELETE. *)
Theorem delete_data_handler_at_most_one_delete (rt : runtime) (net : network)
    (NETBOX_URL NETBOX_TOKEN : string) (input_data : value) (tr : trace) :
  let after := (NetBox.delete_data_handler rt net NETBOX_URL NETBOX_TOKEN input_data tr).2 in
  exists pauses : nat,
    pauses <= 1
    /\ (after = tr ++ replicate pauses (Slept 1)
        \/ (exists g, req_method g = GET
                      /\ after = tr ++ replicate pauses (Slept 1) ++ [Sent g])
        \/ (exists g x, req_method g = GET /\ req_method x = DELETE
                        /\ after = tr ++ replicate pauses (Slept 1) ++ [Sent g; Sent x])).
Proof.
  intros after. unfold after, NetBox.delete_data_handler, NetBox.validate_tool_input.
  destruct (validate_loop_total rt (Some ["api_url"; "payload"]) (Z.to_nat 5) input_data tr)
    as (d & pauses & Hval & _ & Hpauses).
  exists pauses. split; [exact Hpauses|].
  erewrite run_bind by exact Hval.
  destruct (has_key d "error"); [left; reflexivity|].
  destruct (default (VDict ∅) (d !! "payload")) as [| | | | |p]; try (left; reflexivity).
  cbn [get_method]. erewrite run_bind by apply run_ret.
  destruct (negb (truthy (default VNone (d !! "api_url")))
            || negb (truthy (default VNone (p !! "name")))); [left; reflexivity|].
  rewrite try_except_const_trace.
  destruct (default VNone (d !! "api_url")) as [| | |u| |]; try (left; reflexivity).
  set (ctl := NetBox.NetBoxController_init NETBOX_URL NETBOX_TOKEN).
  set (name := default VNone (p !! "name")).
  set (tr0 := tr ++ replicate pauses (Slept 1)).
  set (g := NetBox.get_request ctl u (Some {[ "name" := name ]})).
  assert (Hone : forall o : outcome dict,
             (o, tr0 ++ [Sent g]).2 = tr ++ replicate pauses (Slept 1) ++ [Sent g])
    by (intros o; unfold tr0; by rewrite <- app_assoc).
  destruct (get_api_total rt net ctl u (Some {[ "name" := name ]}) tr0) as [v Hget].
  erewrite run_bind by exact Hget.
  destruct v as [| | | | |r]; try (right; left; exists g; split; [reflexivity | apply Hone]).
  cbn [get_method]. erewrite run_bind by apply run_ret.
  destruct (eq_zero (default (VInt 0) (r !! "count")));
    [right; left; exists g; split; [reflexivity | apply Hone]|].
  cbn [getitem_str].
  destruct (r !! "results") as [results|];
    [|right; left; exists g; split; [reflexivity | apply Hone]].
  erewrite run_bind by apply run_ret.
  destruct (pure_run (getitem_first results) (tr0 ++ [Sent g]) (pure_getitem_first results))
    as [[first|e] Hfirst];
    [|right; left; exists g; split; [reflexivity|];
      erewrite run_bind_raise by exact Hfirst; apply Hone].
  erewrite run_bind by exact Hfirst.
  destruct (pure_run (getitem_str first "id") (tr0 ++ [Sent g]) (pure_getitem_str first "id"))
    as [[entity_id|e] Hid];
    [|right; left; exists g; split; [reflexivity|];
      erewrite run_bind_raise by exact Hid; apply Hone].
  erewrite run_bind by exact Hid.
  destruct (delete_api_sends net ctl
              (rstrip_char "/" u +:+ "/" +:+ str rt entity_id +:+ "/") (tr0 ++ [Sent g]))
    as [response Hdel].
  erewrite run_bind by exact Hdel.
  right; right. exists g, (NetBox.delete_request ctl
                             (rstrip_char "/" u +:+ "/" +:+ str rt entity_id +:+ "/")).
  split; [reflexivity|]. split; [reflexivity|].
  destruct (eq_str (default VNone (response !! "status")) "success");
    unfold tr0; cbn [snd]; rewrite <- !app_assoc; reflexivity.
Qed.

(* ===================================================================== *)
(** ** Creating a resource *)
(* ===================================================================== *)

Section Create.

Import NetBox NetBoxCreate.

Context (rt : runtime) (net : network).

(** A POST is one request and always comes back with a value: the parsed
    body, or the error mapping of the client. *)
Lemma post_api_total (ctl : NetBoxController) (api_url : value) (payload : dict) (tr : trace) :
  exists v, post_api rt net ctl api_url payload tr
            = (Ret v, tr ++ [Sent (post_request rt ctl api_url payload)]).
Proof.
  destruct (request_error rt (net tr (post_request rt ctl api_url payload))) as [e|] eqn:He.
  - eexists. by apply post_api_error.
  - destruct (request_error_None rt _ He) as (r & v & Hnet & Hst & Hjs).
    exists v. by eapply post_api_ok.
Qed.

End Create.

(** X15: a create request with a true "api_url" and a mapping as payload
    sends exactly one POST and always reports "status": "success", with
    whatever the REST client returned under "response": also when the POST
    failed, in which case "response" is the client's error mapping "Request
    failed: <detail>". *)
Theorem create_data_handler_reports_success (rt : runtime) (net : network)
    (NETBOX_URL NETBOX_TOKEN : string) (input_data : value) (d payload : dict)
    (api_url : value) (tr : trace) :
  NetBox.parsed_payload rt input_data = Some d ->
  d !! "api_url" = Some api_url -> truthy api_url = true ->
  d !! "payload" = Some (VDict payload) ->
  let before := tr ++ NetBox.validation_sleeps ["api_url"; "payload"] d in
  let rq := NetBoxCreate.create_request rt NETBOX_URL NETBOX_TOKEN api_url payload in
  exists response : value,
    NetBoxCreate.create_data_handler rt net NETBOX_URL NETBOX_TOKEN input_data tr
    = (Ret {[ "status" := VStr "success";
              "message" := VStr ("Successfully created resource at "
                                 +:+ str rt api_url +:+ ".");
              "response" := response ]},
       before ++ [Sent rq])
    /\ (forall e, request_error rt (net before rq) = Some e ->
        response = VDict (error_dict ("Request failed: " +:+ e)))
    /\ (forall r v, net before rq = Answer r -> (200 <= status_code r < 300)%Z ->
        json_loads rt (text r) = inl v -> response = v).
Proof.
  intros Hparsed Ha Htruthy Hp before rq.
  destruct (validate_delete_request rt input_data d _ _ tr Hparsed Ha Hp)
    as (d' & Hval & Ha' & Hp' & Herr).
  set (ctl := NetBox.NetBoxController_init NETBOX_URL NETBOX_TOKEN).
  destruct (post_api_total rt net ctl api_url payload before) as [response Hpost].
  exists response. split; [|split].
  - unfold NetBoxCreate.create_data_handler. erewrite run_bind by exact Hval.
    rewrite Herr, Ha', Hp'. cbn [default from_option id]. rewrite Htruthy. cbn [negb].
    erewrite run_try_ret; [reflexivity|].
    erewrite run_bind by exact Hpost. reflexivity.
  - intros e He. rewrite (post_api_error rt net ctl api_url payload before e He) in Hpost.
    by injection Hpost.
  - intros r v Hnet Hst Hjs.
    rewrite (post_api_ok rt net ctl api_url payload before r v Hnet
               (http_error_msg_None r Hst) Hjs) in Hpost.
    by injection Hpost.
Qed.

Lemma create_data_handler_reports_success_witness :
  let payload : dict := {[ "name" := VStr "Bell Canada"; "slug" := VStr "bell" ]} in
  let input : dict :=
    {[ "api_url" := VStr "/api/circuits/providers/"; "payload" := VDict payload ]} in
  let rq := NetBoxCreate.create_request Sample.sample_rt "http://netbox.local/" "t0ken"
              (VStr "/api/circuits/providers/") payload in
  NetBoxCreate.create_data_handler Sample.sample_rt Sample.net_down
    "http://netbox.local/" "t0ken" (VDict input) []
  = (Ret {[ "status" := VStr "success";
            "message" := VStr "Successfully created resource at /api/circuits/providers/.";
            "response" := VDict (error_dict "Request failed: Connection refused") ]},
     [Sent rq]).
Proof.
  intros payload input rq.
  destruct (create_data_handler_reports_success Sample.sample_rt Sample.net_down
              "http://netbox.local/" "t0ken" (VDict input) input payload
              (VStr "/api/circuits/providers/") [])
    as (response & Hrun & Hfail & _);
    [ reflexivity | reflexivity | reflexivity | reflexivity | ].
  rewrite (Hfail "Connection refused" eq_refl) in Hrun. exact Hrun.
Defined.

(** X16: a create request without a true "api_url", or whose "payload" is
    absent or not a mapping, is refused with "Both 'api_url' and a valid
    'payload' dictionary are required." before anything is sent. *)
Theorem create_data_handler_requires_payload (rt : runtime) (net : network)
    (NETBOX_URL NETBOX_TOKEN : string) (input_data : value) (d : dict) (tr : trace) :
  NetBox.parsed_payload rt input_data = Some d ->
  d !! "error" = None ->
  truthy (default VNone (d !! "api_url")) = false
  \/ (forall payload : dict, d !! "payload" <> Some (VDict payload)) ->
  NetBoxCreate.create_data_handler rt net NETBOX_URL NETBOX_TOKEN input_data tr
  = (Ret (error_dict "Both 'api_url' and a valid 'payload' dictionary are required."),
     tr ++ NetBox.validation_sleeps ["api_url"; "payload"] d)
  /\ requests_of (tr ++ NetBox.validation_sleeps ["api_url"; "payload"] d) = requests_of tr.
Proof.
  intros Hparsed Herr Hmissing. split.
  - destruct (validate_request_entries rt input_data d tr Hparsed Herr)
      as (d' & Hval & Ha' & Hp' & Herr').
    unfold NetBoxCreate.create_data_handler. erewrite run_bind by exact Hval.
    rewrite Herr', Ha', Hp'.
    destruct (d !! "payload") as [[| | | | |payload]|] eqn:Hp; try reflexivity.
    cbn [default from_option id]. destruct Hmissing as [Hno|Hno].
    + cbn [default from_option id] in Hno. rewrite Hno. reflexivity.
    + by destruct (Hno payload).
  - unfold NetBox.validation_sleeps. rewrite requests_of_app.
    destruct (NetBox.too_many_keys _ d); simpl; by rewrite app_nil_r.
Qed.

Lemma create_data_handler_requires_payload_witness :
  NetBoxCreate.create_data_handler Sample.sample_rt Sample.net_down
    "http://netbox.local/" "t0ken"
    (VDict {[ "api_url" := VStr "/api/circuits/providers/";
              "payload" := VStr "Bell Canada" ]}) []
  = (Ret (error_dict "Both 'api_url' and a valid 'payload' dictionary are required."), [])
  /\ requests_of [] = [].
Proof.
  refine (create_data_handler_requires_payload Sample.sample_rt Sample.net_down
            "http://netbox.local/" "t0ken"
            (VDict {[ "api_url" := VStr "/api/circuits/providers/";
                      "payload" := VStr "Bell Canada" ]})
            {[ "api_url" := VStr "/api/circuits/providers/";
               "payload" := VStr "Bell Canada" ]} [] _ _ _);
    [ reflexivity | reflexivity | right; intros payload H; vm_compute in H; discriminate H ].
Defined.

(* ===================================================================== *)
(** ** Splitting and joining versions *)
(* ===================================================================== *)

Section SplitJoin.

Context (c : ascii).

Lemma split_not_nil (s : string) : split c s <> [].
Proof.
  destruct s as [|a s]; [discriminate|]. cbn [split].
  destruct (Ascii.eqb a c); [discriminate|]. destruct (split c s); discriminate.
Qed.

Lemma join_cons (sep w w' : string) (ws : list string) :
  join sep (w :: w' :: ws) = w +:+ sep +:+ join sep (w' :: ws).
Proof. reflexivity. Qed.

Lemma append_String (a : ascii) (s t : string) : String a s +:+ t = String a (s +:+ t).
Proof. reflexivity. Qed.

(** Joining what [split] gives returns the text. *)
Lemma join_split (s : string) : join (String c EmptyString) (split c s) = s.
Proof.
  induction s as [|a s IH]; [reflexivity|]. cbn [split].
  destruct (Ascii.eqb a c) eqn:E.
  - apply Ascii.eqb_eq in E. subst a.
    destruct (split c s) as [|w ws] eqn:Hs; [by destruct (split_not_nil s)|].
    rewrite join_cons, IH. reflexivity.
  - destruct (split c s) as [|w ws] eqn:Hs; [by destruct (split_not_nil s)|].
    destruct ws as [|w' ws].
    + cbn [join String.concat] in *. by rewrite IH.
    + rewrite join_cons, append_String. rewrite join_cons in IH. by rewrite IH.
Qed.

(** A part is atomic when splitting leaves it whole: it has no separator. *)
Lemma split_atomic_inv (a : ascii) (p : string) :
  split c (String a p) = [String a p] -> Ascii.eqb a c = false /\ split c p = [p].
Proof.
  cbn [split]. destruct (Ascii.eqb a c).
  - intros H. injection H as _ H. by destruct (split_not_nil p).
  - destruct (split c p) as [|w ws] eqn:Hs; [by destruct (split_not_nil p)|].
    intros [= -> ->]. done.
Qed.

Lemma split_parts_atomic (s : string) : Forall (fun p => split c p = [p]) (split c s).
Proof.
  induction s as [|a s IH]; [by constructor|]. cbn [split].
  destruct (Ascii.eqb a c) eqn:E; [by constructor|].
  destruct (split c s) as [|w ws]; [by constructor; [cbn [split]; rewrite E|]|].
  inversion IH as [|? ? Hw Hws]; subst. constructor; [|exact Hws].
  cbn [split]. by rewrite E, Hw.
Qed.

Lemma split_atomic_app (p rest : string) :
  split c p = [p] -> split c (p +:+ String c rest) = p :: split c rest.
Proof.
  induction p as [|a p IH]; intros Hp.
  - change (EmptyString +:+ String c rest) with (String c rest).
    change (split c (String c rest))
      with (if Ascii.eqb c c then EmptyString :: split c rest
            else match split c rest with
                 | w :: ws => String c w :: ws
                 | [] => [String c EmptyString]
                 end).
    by rewrite Ascii.eqb_refl.
  - destruct (split_atomic_inv a p Hp) as [E Hp'].
    rewrite append_String. cbn [split]. rewrite E, (IH Hp'). reflexivity.
Qed.

(** Splitting a join of atomic parts returns the parts. *)
Lemma split_join (parts : list string) :
  parts <> [] -> Forall (fun p => split c p = [p]) parts ->
  split c (join (String c EmptyString) parts) = parts.
Proof.
  induction parts as [|p parts IH]; [done|]. intros _ Hall.
  inversion Hall as [|? ? Hp Hparts]; subst.
  destruct parts as [|p' parts]; [exact Hp|].
  rewrite join_cons.
  change (String c EmptyString +:+ join (String c EmptyString) (p' :: parts))
    with (String c (join (String c EmptyString) (p' :: parts))).
  rewrite (split_atomic_app p _ Hp), IH; [reflexivity | discriminate | exact Hparts].
Qed.

End SplitJoin.

(** The parts of the broadened version are the first two parts of the
    version. *)
Lemma split_fallback_version (version : string) :
  split "." (OpenCVE.fallback_version_of version) = take 2 (split "." version).
Proof.
  unfold OpenCVE.fallback_version_of. apply (split_join ".").
  - destruct (split "." version) as [|w ws] eqn:Hs; [by destruct (split_not_nil "." version)|].
    discriminate.
  - apply Forall_take, split_parts_atomic.
Qed.

Lemma fallback_version_short (version : string) :
  length (split "." version) <= 2 -> OpenCVE.fallback_version_of version = version.
Proof.
  intros Hshort. unfold OpenCVE.fallback_version_of.
  rewrite take_ge by exact Hshort. apply join_split.
Qed.

(** X17: the broadened version equals the version asked for exactly when
    the version has at most two dot-separated components, that is, at most
    one dot: only versions with two dots or more can be retried. *)
Theorem fallback_version_same_iff (version : string) :
  OpenCVE.fallback_version_of version = version <-> length (split "." version) <= 2.
Proof.
  split; [|apply fallback_version_short].
  intros Heq. apply (f_equal (fun s => length (split "." s))) in Heq.
  rewrite split_fallback_version, length_take in Heq. lia.
Qed.

(** X18: broadening is idempotent: the broadened version is its own
    broadened version, so a second fallback could only repeat the query. *)
Theorem fallback_version_idempotent (version : string) :
  OpenCVE.fallback_version_of (OpenCVE.fallback_version_of version)
  = OpenCVE.fallback_version_of version.
Proof.
  apply fallback_version_short. rewrite split_fallback_version, length_take. lia.
Qed.

(* ===================================================================== *)
(** ** More on the vulnerability query *)
(* ===================================================================== *)





(** X21: when the exact query fails (no connection, a 4xx or 5xx status, a
    body that is not JSON), the result is the fixed error "Failed to fetch
    CVEs from OpenCVE.": the detail of the failure is dropped, and no
    broadened query is tried. *)
Theorem fetch_cves_failure_is_opaque (rt : runtime) (net : network) (input_data : value)
    (d : dict) (raw_vendor raw_version user password detail : string) (tr : trace) :
  OpenCVE.parsed_input rt input_data = Some d ->
  d !! "vendor" = Some (VStr raw_vendor) ->
  d !! "version" = Some (VStr raw_version) ->
  let vendor := OpenCVE.normalize_vendor raw_vendor in
  let version := strip raw_version in
  vendor <> "" -> version <> "" -> user <> "" -> password <> "" ->
  let first := OpenCVE.cve_request vendor version user password in
  request_error rt (net tr first) = Some detail ->
  OpenCVE.fetch_cves_from_opencve rt net (Some user) (Some password) input_data tr
  = (Ret (error_dict "Failed to fetch CVEs from OpenCVE."), tr ++ [Sent first]).
Proof.
  intros Hparsed Hvendor Hversion vendor version Hv Hver Hu Hp first Hfail.
  erewrite fetch_cves_enter by eassumption.
  erewrite run_try_request_caught; [reflexivity|].
  unfold OpenCVE.query_opencve. cbv zeta.
  erewrite run_bind_raise; [reflexivity|].
  unfold OpenCVE.opencve_get. by apply exchange_error.
Qed.

Lemma fetch_cves_failure_is_opaque_witness :
  OpenCVE.fetch_cves_from_opencve Sample.sample_rt (Sample.net_static 503 "Service Unavailable" "")
    (Some "user") (Some "secret")
    (VDict {[ "vendor" := VStr "juniper"; "version" := VStr "21.4.5" ]}) []
  = (Ret (error_dict "Failed to fetch CVEs from OpenCVE."),
     [Sent (OpenCVE.cve_request "juniper" "21.4.5" "user" "secret")]).
Proof.
  apply (fetch_cves_failure_is_opaque Sample.sample_rt
           (Sample.net_static 503 "Service Unavailable" "")
           (VDict {[ "vendor" := VStr "juniper"; "version" := VStr "21.4.5" ]})
           {[ "vendor" := VStr "juniper"; "version" := VStr "21.4.5" ]}
           "juniper" "21.4.5" "user" "secret"
           "503 Server Error: Service Unavailable for url: https://app.opencve.io/api/cve?vendor=juniper&version=21.4.5"
           []);
    [ reflexivity | reflexivity | reflexivity | discriminate | discriminate | discriminate
    | discriminate | reflexivity ].
Defined.

(** X22: when the exact query counts no result and the broadened query is
    answered, the result is the extraction of the broadened answer, made
    under the version that was asked for: records found for the broadened
    version are returned as they are, and "No CVEs found for ..." names the
    version asked for, not the broadened one. *)
Theorem fetch_cves_returns_broadened (rt : runtime) (net : network) (input_data : value)
    (d : dict) (raw_vendor raw_version user password : string) (resp resp2 : response)
    (j : dict) (broadened : value) (out : dict) (tr : trace) :
  OpenCVE.parsed_input rt input_data = Some d ->
  d !! "vendor" = Some (VStr raw_vendor) ->
  d !! "version" = Some (VStr raw_version) ->
  let vendor := OpenCVE.normalize_vendor raw_vendor in
  let version := strip raw_version in
  vendor <> "" -> version <> "" -> user <> "" -> password <> "" ->
  let first := OpenCVE.cve_request vendor version user password in
  let second :=
    OpenCVE.cve_request vendor (OpenCVE.fallback_version_of version) user password in
  net tr first = Answer resp ->
  (200 <= status_code resp < 300)%Z ->
  json_loads rt (text resp) = inl (VDict j) ->
  eq_zero (default (VInt 0) (j !! "count")) = true ->
  OpenCVE.fallback_version_of version <> version ->
  net (tr ++ [Sent first]) second = Answer resp2 ->
  (200 <= status_code resp2 < 300)%Z ->
  json_loads rt (text resp2) = inl broadened ->
  OpenCVE.extract_cves vendor version broadened (tr ++ [Sent first; Sent second])
  = (Ret out, tr ++ [Sent first; Sent second]) ->
  OpenCVE.fetch_cves_from_opencve rt net (Some user) (Some password) input_data tr
  = (Ret out, tr ++ [Sent first; Sent second]).
Proof.
  intros Hparsed Hvendor Hversion vendor version Hv Hver Hu Hp first second
    Hnet Hst Hjs Hzero Hdiff Hnet2 Hst2 Hjs2 Hextract.
  erewrite fetch_cves_enter by eassumption.
  erewrite run_try_request_ret; [reflexivity|].
  unfold OpenCVE.query_opencve. cbv zeta.
  erewrite run_bind by (unfold OpenCVE.opencve_get; eapply exchange_ok;
                       eauto using http_error_msg_None).
  cbn [get_method]. erewrite run_bind by apply run_ret. rewrite Hzero.
  apply String.eqb_neq in Hdiff. fold version. rewrite Hdiff. cbn [negb].
  erewrite run_bind by (unfold OpenCVE.opencve_get; eapply exchange_ok;
                       eauto using http_error_msg_None).
  rewrite <- app_assoc. exact Hextract.
Qed.

Lemma fetch_cves_returns_broadened_witness :
  OpenCVE.fetch_cves_from_opencve Sample.sample_rt
    (Sample.net_static 200 "OK" Sample.empty_page_text) (Some "user") (Some "secret")
    (VDict {[ "vendor" := VStr "Juniper Networks"; "version" := VStr "21.4.5" ]}) []
  = (Ret {[ "message" := VStr "No CVEs found for juniper 21.4.5." ]},
     [Sent (OpenCVE.cve_request "juniper" "21.4.5" "user" "secret");
      Sent (OpenCVE.cve_request "juniper" "21.4" "user" "secret")]).
Proof.
  apply (fetch_cves_returns_broadened Sample.sample_rt
           (Sample.net_static 200 "OK" Sample.empty_page_text)
           (VDict {[ "vendor" := VStr "Juniper Networks"; "version" := VStr "21.4.5" ]})
           {[ "vendor" := VStr "Juniper Networks"; "version" := VStr "21.4.5" ]}
           "Juniper Networks" "21.4.5" "user" "secret"
           (Response 200 "OK" (OpenCVE.query_url "juniper" "21.4.5") Sample.empty_page_text)
           (Response 200 "OK" (OpenCVE.query_url "juniper" "21.4") Sample.empty_page_text)
           {[ "count" := VInt 0; "results" := VList [] ]} Sample.empty_page
           {[ "message" := VStr "No CVEs found for juniper 21.4.5." ]} []);
    [ reflexivity | reflexivity | reflexivity | discriminate | discriminate | discriminate
    | discriminate | reflexivity | simpl; lia | reflexivity | reflexivity | discriminate
    | reflexivity | simpl; lia | reflexivity | reflexivity ].
Defined.

(* ===================================================================== *)
(** ** The class [OpenCVEAPI] *)
(* ===================================================================== *)

Section GetCves.

Import OpenCVEAPI.

Lemma rename_cve_record (r : dict) (cve_id description : value) (tr : trace) :
  r !! "cve_id" = Some cve_id -> r !! "description" = Some description ->
  rename_cve (VDict r) tr
  = (Ret (VDict {[ "id" := cve_id; "description" := description ]}), tr).
Proof.
  intros Hid Hdesc. unfold rename_cve. cbn [getitem_str]. rewrite Hid, Hdesc. reflexivity.
Qed.

Lemma map_rename_cve_records (records : list value) (tr : trace) :
  Forall (fun r => exists (d : dict) cve_id description,
            r = VDict d /\ d !! "cve_id" = Some cve_id
            /\ d !! "description" = Some description) records ->
  exists cves,
    map_M rename_cve records tr = (Ret cves, tr)
    /\ Forall2 (fun r c => exists (d : dict) cve_id description,
                  r = VDict d /\ d !! "cve_id" = Some cve_id
                  /\ d !! "description" = Some description
                  /\ c = VDict {[ "id" := cve_id; "description" := description ]})
               records cves.
Proof.
  induction 1 as [|r records (d & cve_id & description & -> & Hid & Hdesc) _
                    (cves & Hrun & Hall)].
  - exists []. split; [reflexivity | constructor].
  - eexists (_ :: cves). split.
    + cbn [map_M]. erewrite run_bind by (by apply rename_cve_record).
      erewrite run_bind by exact Hrun. reflexivity.
    + constructor; [|exact Hall]. exists d, cve_id, description. auto.
Qed.

Context (rt : runtime) (net : network).

(** Sending, checking and parsing, followed by more work on the body. *)
Lemma exchange_ok_then {A : Type} (rq : request) (tr : trace) (r : response) (v : value)
    (k : value -> M A) :
  net tr rq = Answer r -> http_error_msg r = None -> json_loads rt (text r) = inl v ->
  (response ← send net rq; raise_for_status response;;
   data ← response_json rt response; k data) tr
  = k v (tr ++ [Sent rq]).
Proof.
  intros Hnet Hst Hjs. unfold mbind, M_bind, send, raise_for_status, response_json.
  rewrite Hnet, Hst. simpl. rewrite Hjs. reflexivity.
Qed.

Lemma exchange_error_then {A : Type} (rq : request) (tr : trace) (e : string)
    (k : value -> M A) :
  request_error rt (net tr rq) = Some e ->
  (response ← send net rq; raise_for_status response;;
   data ← response_json rt response; k data) tr
  = (Raise (RequestException e), tr ++ [Sent rq]).
Proof.
  unfold request_error, mbind, M_bind, send, raise_for_status, response_json.
  destruct (net tr rq) as [msg|r]; [by intros [= ->]|].
  destruct (http_error_msg r) as [msg|]; [by intros [= ->]|]. simpl.
  destruct (json_loads rt (text r)) as [v|msg]; [done | by intros [= ->]].
Qed.

End GetCves.

(** X23: [OpenCVEAPI.get_cves] returns every record of the answer, in
    order, neither capped at ten nor cut: each one as a mapping of "id",
    the record's "cve_id", and "description", the record's description as
    it came. *)
Theorem get_cves_returns_all (rt : runtime) (net : network) (user password : string)
    (vendor version : value) (resp : response) (j : dict) (records : list value)
    (tr : trace) :
  let rq := OpenCVE.cve_request (str rt vendor) (str rt version) user password in
  net tr rq = Answer resp ->
  (200 <= status_code resp < 300)%Z ->
  json_loads rt (text resp) = inl (VDict j) ->
  j !! "results" = Some (VList records) ->
  Forall (fun r => exists (d : dict) cve_id description,
            r = VDict d /\ d !! "cve_id" = Some cve_id
            /\ d !! "description" = Some description) records ->
  exists cves,
    OpenCVEAPI.get_cves rt net user password vendor version tr
    = (Ret (VList cves), tr ++ [Sent rq])
    /\ length cves = length records
    /\ Forall2 (fun r c => exists (d : dict) cve_id description,
                  r = VDict d /\ d !! "cve_id" = Some cve_id
                  /\ d !! "description" = Some description
                  /\ c = VDict {[ "id" := cve_id; "description" := description ]})
               records cves.
Proof.
  intros rq Hnet Hst Hjs Hresults Hrecords.
  destruct (map_rename_cve_records records (tr ++ [Sent rq]) Hrecords) as (cves & Hrun & Hall).
  exists cves. split; [|split; [symmetry; by eapply Forall2_length | exact Hall]].
  unfold OpenCVEAPI.get_cves. cbv zeta.
  erewrite run_try_request_ret; [reflexivity|].
  change (Request GET _ ∅ None None (Some (user, password))) with rq.
  rewrite (exchange_ok_then rt net rq tr resp (VDict j) _ Hnet (http_error_msg_None resp Hst) Hjs).
  cbn [OpenCVEAPI.contains_results]. erewrite run_bind by apply run_ret.
  unfold has_key. rewrite Hresults. cbn [getitem_str]. rewrite Hresults.
  erewrite run_bind by apply run_ret. cbn [OpenCVEAPI.iterate].
  erewrite run_bind by apply run_ret.
  erewrite run_bind by exact Hrun. reflexivity.
Qed.

Lemma get_cves_returns_all_witness :
  exists cves,
    OpenCVEAPI.get_cves Sample.sample_rt (Sample.net_static 200 "OK" Sample.one_cve_text)
      "user" "secret" (VStr "juniper") (VStr "21.4R5") []
    = (Ret (VList cves), [Sent (OpenCVE.cve_request "juniper" "21.4R5" "user" "secret")])
    /\ cves = [ VDict {[ "id" := VStr "CVE-2024-0001";
                         "description" := VStr Sample.long_description ]} ].
Proof.
  destruct (get_cves_returns_all Sample.sample_rt
              (Sample.net_static 200 "OK" Sample.one_cve_text) "user" "secret"
              (VStr "juniper") (VStr "21.4R5")
              (Response 200 "OK" (OpenCVE.query_url "juniper" "21.4R5") Sample.one_cve_text)
              {[ "count" := VInt 1;
                 "results" := VList [ VDict {[ "cve_id" := VStr "CVE-2024-0001";
                                               "description" := VStr Sample.long_description ]} ] ]}
              [ VDict {[ "cve_id" := VStr "CVE-2024-0001";
                         "description" := VStr Sample.long_description ]} ] [])
    as (cves & Hrun & _ & Hall).
  - reflexivity.
  - simpl; lia.
  - reflexivity.
  - reflexivity.
  - constructor; [|constructor].
    eexists _, (VStr "CVE-2024-0001"), (VStr Sample.long_description).
    split; [reflexivity|]. split; reflexivity.
  - exists cves. split; [exact Hrun|].
    inversion Hall as [|r c rs cs (d & cve_id & description & Hr & Hid & Hdesc & Hc) Hrest];
      subst.
    inversion Hrest; subst. injection Hr as <-.
    vm_compute in Hid. vm_compute in Hdesc. injection Hid as <-. injection Hdesc as <-.
    reflexivity.
Defined.

(** X24: when the request of [OpenCVEAPI.get_cves] fails, the method
    returns the mapping {"error": <detail>} with the text of the failure
    itself, after the one request. *)
Theorem get_cves_keeps_detail (rt : runtime) (net : network) (user password : string)
    (vendor version : value) (detail : string) (tr : trace) :
  let rq := OpenCVE.cve_request (str rt vendor) (str rt version) user password in
  request_error rt (net tr rq) = Some detail ->
  OpenCVEAPI.get_cves rt net user password vendor version tr
  = (Ret (VDict (error_dict detail)), tr ++ [Sent rq]).
Proof.
  intros rq Hfail. unfold OpenCVEAPI.get_cves. cbv zeta.
  erewrite (run_try_request_caught _ _ tr (tr ++ [Sent rq]) detail); [reflexivity|].
  change (Request GET _ ∅ None None (Some (user, password))) with rq.
  by apply exchange_error_then.
Qed.

Lemma get_cves_keeps_detail_witness :
  OpenCVEAPI.get_cves Sample.sample_rt Sample.net_down "user" "secret"
    (VStr "juniper") (VStr "21.4R5") []
  = (Ret (VDict (error_dict "Connection refused")),
     [Sent (OpenCVE.cve_request "juniper" "21.4R5" "user" "secret")]).
Proof.
  apply (get_cves_keeps_detail Sample.sample_rt Sample.net_down "user" "secret"
           (VStr "juniper") (VStr "21.4R5") "Connection refused" []).
  reflexivity.
Defined.

(* ===================================================================== *)
(** ** The Selector agents *)
(* ===================================================================== *)

Section SelectorLoop.

Import Selector.

Context (rt : runtime) (net : network) (key : option string).

Lemma failed_rounds_S (rq : request) (k : nat) :
  failed_rounds rq (S k) = [Sent rq; Slept 2] ++ failed_rounds rq k.
Proof. reflexivity. Qed.

Lemma requests_of_failed_rounds (rq : request) (k : nat) :
  requests_of (failed_rounds rq k) = replicate k rq.
Proof.
  induction k as [|k IH]; [reflexivity|].
  rewrite failed_rounds_S, requests_of_app, IH. reflexivity.
Qed.

Lemma replicate_snoc {A : Type} (k : nat) (x : A) : replicate k x ++ [x] = replicate (S k) x.
Proof. induction k as [|k IH]; [reflexivity|]. cbn [replicate app] in *. by rewrite IH. Qed.

(** A round that fails: the request, then the pause, also on the last
    round. *)
Lemma ask_attempt_fails (url : string) (payload : dict) (attempt : nat) (tr : trace)
    (e : string) :
  request_error rt (net tr (ask_request url key payload)) = Some e ->
  ask_attempt rt net (Some url) key payload attempt tr
  = (Ret None, tr ++ [Sent (ask_request url key payload); Slept 2]).
Proof.
  intros Hfail. unfold ask_attempt, post_selector.
  erewrite run_bind
    by (erewrite run_try_request_caught by (apply (exchange_error_then rt net), Hfail);
        apply run_ret).
  cbv beta iota. erewrite run_bind by apply run_sleep.
  rewrite <- app_assoc. reflexivity.
Qed.

(** A round that is answered ends the loop with the parsed body. *)
Lemma ask_attempt_answered (url : string) (payload : dict) (attempt : nat) (tr : trace)
    (r : response) (v : value) :
  net tr (ask_request url key payload) = Answer r ->
  http_error_msg r = None -> json_loads rt (text r) = inl v ->
  ask_attempt rt net (Some url) key payload attempt tr
  = (Ret (Some v), tr ++ [Sent (ask_request url key payload)]).
Proof.
  intros Hnet Hst Hjs. unfold ask_attempt, post_selector.
  erewrite run_bind; cycle 1.
  { erewrite run_try_request_ret; [reflexivity|].
    exact (exchange_ok_then rt net (ask_request url key payload) tr r v
             (fun json_response => mret (Some json_response)) Hnet Hst Hjs). }
  reflexivity.
Qed.

(** Without a URL a round sends nothing and still pauses. *)
Lemma ask_attempt_no_url (payload : dict) (attempt : nat) (tr : trace) :
  ask_attempt rt net None key payload attempt tr = (Ret None, tr ++ [Slept 2]).
Proof. reflexivity. Qed.

(** The loop after [k] failed rounds. *)
Lemma ask_rounds_fail (url : string) (payload : dict) (orelse : M value) :
  forall (k m a : nat) (tr : trace),
    (forall i, i < k ->
       is_Some (request_error rt (net (tr ++ failed_rounds (ask_request url key payload) i)
                                      (ask_request url key payload)))) ->
    for_each (ask_attempt rt net (Some url) key payload) (seq a (k + m)) orelse tr
    = for_each (ask_attempt rt net (Some url) key payload) (seq (k + a) m) orelse
        (tr ++ failed_rounds (ask_request url key payload) k).
Proof.
  induction k as [|k IH]; intros m a tr Hfail.
  - cbn [failed_rounds replicate concat Nat.add]. by rewrite app_nil_r.
  - destruct (Hfail 0) as [e He]; [lia|].
    cbn [failed_rounds replicate concat] in He. rewrite app_nil_r in He.
    change (seq a (S k + m)) with (a :: seq (S a) (k + m)). cbn [for_each].
    erewrite run_bind by (apply (ask_attempt_fails _ _ _ _ e He)). cbv beta iota.
    rewrite IH.
    + rewrite failed_rounds_S, <- app_assoc. by replace (k + S a) with (S k + a) by lia.
    + intros i Hi. rewrite <- app_assoc, <- failed_rounds_S. apply Hfail. lia.
Qed.

Lemma ask_rounds_no_url (payload : dict) (orelse : M value) :
  forall (k a : nat) (tr : trace),
    for_each (ask_attempt rt net None key payload) (seq a k) orelse tr
    = orelse (tr ++ replicate k (Slept 2)).
Proof.
  induction k as [|k IH]; intros a tr; [by rewrite app_nil_r|].
  cbn [seq for_each]. erewrite run_bind by apply ask_attempt_no_url. cbv beta iota.
  rewrite IH, <- app_assoc. reflexivity.
Qed.

(** Either [ask] when all three rounds fail. *)
Lemma ask_loop_gives_up (url : string) (payload : dict) (tr : trace) :
  (forall i, i < 3 ->
     is_Some (request_error rt (net (tr ++ failed_rounds (ask_request url key payload) i)
                                    (ask_request url key payload)))) ->
  ask_loop rt net (Some url) key payload 3 tr
  = (Ret (VDict (error_dict "Failed to fetch response after 3 attempts.")),
     tr ++ failed_rounds (ask_request url key payload) 3).
Proof.
  intros Hfail. unfold ask_loop.
  rewrite (ask_rounds_fail url payload _ 3 0 0 tr Hfail). reflexivity.
Qed.

(** Either [ask] when round [k] is the first to be answered. *)
Lemma ask_loop_answered (url : string) (payload : dict) (tr : trace) (k : nat)
    (r : response) (v : value) :
  k < 3 ->
  (forall i, i < k ->
     is_Some (request_error rt (net (tr ++ failed_rounds (ask_request url key payload) i)
                                    (ask_request url key payload)))) ->
  net (tr ++ failed_rounds (ask_request url key payload) k) (ask_request url key payload)
  = Answer r ->
  http_error_msg r = None -> json_loads rt (text r) = inl v ->
  ask_loop rt net (Some url) key payload 3 tr
  = (Ret v, tr ++ failed_rounds (ask_request url key payload) k
               ++ [Sent (ask_request url key payload)]).
Proof.
  intros Hk Hfail Hnet Hst Hjs. unfold ask_loop.
  replace 3 with (k + S (2 - k)) at 1 by lia.
  rewrite (ask_rounds_fail url payload _ k (S (2 - k)) 0 tr Hfail).
  cbn [seq for_each].
  erewrite run_bind by (eapply ask_attempt_answered; eauto).
  rewrite <- app_assoc. reflexivity.
Qed.

End SelectorLoop.

(** X25: when all three attempts of the natural-language query fail, the
    tool returns the mapping "Failed to fetch response after 3 attempts."
    with no detail of any failure, after exactly three POSTs of the same
    payload {"content": <input>}, each followed by a pause of two seconds,
    the last one included. *)
Theorem ask_selector_gives_up (rt : runtime) (net : network) (url : string)
    (key : option string) (d : dict) (question : value) (tr : trace) :
  d !! "input" = Some question ->
  let rq := Selector.ask_request url key {[ "content" := question ]} in
  (forall i, i < 3 ->
     is_Some (request_error rt (net (tr ++ Selector.failed_rounds rq i) rq))) ->
  Selector.ask_selector rt net (Some url) key (VDict d) tr
  = (Ret (VDict (error_dict "Failed to fetch response after 3 attempts.")),
     tr ++ [Sent rq; Slept 2; Sent rq; Slept 2; Sent rq; Slept 2]).
Proof.
  intros Hinput rq Hfail. unfold Selector.ask_selector, has_key. rewrite Hinput. cbn [negb].
  cbn [getitem_str]. rewrite Hinput. erewrite run_bind by apply run_ret.
  unfold Selector.SelectorAPI_ask. cbn [getitem_str]. rewrite lookup_singleton_eq.
  erewrite run_bind by (erewrite run_bind by apply run_ret;
                       apply ask_loop_gives_up, Hfail).
  reflexivity.
Qed.

Lemma ask_selector_gives_up_witness :
  let rq := Selector.ask_request "https://selector.local/api" (Some "k3y")
              {[ "content" := VStr "How are my devices?" ]} in
  Selector.ask_selector Sample.sample_rt Sample.net_down (Some "https://selector.local/api")
    (Some "k3y") (VDict {[ "input" := VStr "How are my devices?" ]}) []
  = (Ret (VDict (error_dict "Failed to fetch response after 3 attempts.")),
     [Sent rq; Slept 2; Sent rq; Slept 2; Sent rq; Slept 2]).
Proof.
  intros rq.
  apply (ask_selector_gives_up Sample.sample_rt Sample.net_down "https://selector.local/api"
           (Some "k3y") {[ "input" := VStr "How are my devices?" ]}
           (VStr "How are my devices?") []).
  - reflexivity.
  - intros i _. by eexists.
Defined.

(** X26: through the router's [selector_agent_func], when the first [k]
    attempts fail, with [k] below three, and the next one is answered with
    a JSON object, the caller gets {"output": ...} holding the "content" of
    the answer, the sentence "No valid response received." when the answer
    has none, or the whole answer when it carries an "error" key; [k + 1]
    requests are sent. *)
Theorem selector_agent_func_answers (rt : runtime) (net : network) (url : string)
    (key : option string) (input_text : value) (k : nat) (resp : response) (body : dict)
    (tr : trace) :
  let rq := Selector.ask_request url key {[ "content" := input_text ]} in
  k < 3 ->
  (forall i, i < k ->
     is_Some (request_error rt (net (tr ++ Selector.failed_rounds rq i) rq))) ->
  net (tr ++ Selector.failed_rounds rq k) rq = Answer resp ->
  (200 <= status_code resp < 300)%Z ->
  json_loads rt (text resp) = inl (VDict body) ->
  Selector.selector_agent_func rt net (Some url) key input_text tr
  = (Ret {[ "output" := if has_key body "error" then VDict body
                        else default (VStr "No valid response received.")
                                     (body !! "content") ]},
     tr ++ Selector.failed_rounds rq k ++ [Sent rq])
  /\ requests_of (tr ++ Selector.failed_rounds rq k ++ [Sent rq])
     = requests_of tr ++ replicate (S k) rq.
Proof.
  intros rq Hk Hfail Hnet Hst Hjs. split.
  - unfold Selector.selector_agent_func, Selector.ask_selector, has_key.
    rewrite lookup_singleton_eq. cbn [negb getitem_str]. rewrite lookup_singleton_eq.
    erewrite run_bind; [reflexivity|].
    erewrite run_bind by apply run_ret.
    unfold Selector.SelectorAPI_ask. cbn [getitem_str]. rewrite lookup_singleton_eq.
    erewrite run_bind
      by (erewrite run_bind by apply run_ret;
          eapply ask_loop_answered; eauto using http_error_msg_None).
    unfold Selector.extract_field. fold (has_key body "error").
    destruct (has_key body "error"); reflexivity.
  - rewrite !requests_of_app, requests_of_failed_rounds.
    change (requests_of [Sent rq]) with [rq]. by rewrite replicate_snoc.
Qed.

Lemma selector_agent_func_answers_witness :
  let rq := Selector.ask_request "https://selector.local/api" (Some "k3y")
              {[ "content" := VStr "How are my devices?" ]} in
  Selector.selector_agent_func Sample2.sample_rt (Sample2.net_flaky 1 Sample2.answer_text)
    (Some "https://selector.local/api") (Some "k3y") (VStr "How are my devices?") []
  = (Ret {[ "output" := VStr "All devices are healthy." ]}, [Sent rq; Slept 2; Sent rq])
  /\ requests_of [Sent rq; Slept 2; Sent rq] = [rq; rq].
Proof.
  intros rq.
  apply (selector_agent_func_answers Sample2.sample_rt
           (Sample2.net_flaky 1 Sample2.answer_text) "https://selector.local/api"
           (Some "k3y") (VStr "How are my devices?") 1
           (Response 200 "OK" (req_url rq) Sample2.answer_text) Sample2.answer []).
  - lia.
  - intros i Hi. destruct i; [by eexists | lia].
  - reflexivity.
  - simpl; lia.
  - reflexivity.
Defined.

(** X27: when the URL of the Selector API is not set (the module
    [selector_natural_language_agent.py] reads it from the environment
    variable SELECTOR_DATA_URL), the natural-language tool sends nothing,
    yet goes through its three rounds and their three pauses of two seconds
    before it returns "Failed to fetch response after 3 attempts.". *)
Theorem ask_selector_without_url (rt : runtime) (net : network) (key : option string)
    (d : dict) (question : value) (tr : trace) :
  d !! "input" = Some question ->
  Selector.ask_selector rt net None key (VDict d) tr
  = (Ret (VDict (error_dict "Failed to fetch response after 3 attempts.")),
     tr ++ [Slept 2; Slept 2; Slept 2])
  /\ requests_of (tr ++ [Slept 2; Slept 2; Slept 2]) = requests_of tr.
Proof.
  intros Hinput. split.
  - unfold Selector.ask_selector, has_key. rewrite Hinput. cbn [negb].
    cbn [getitem_str]. rewrite Hinput. erewrite run_bind by apply run_ret.
    unfold Selector.SelectorAPI_ask. cbn [getitem_str]. rewrite lookup_singleton_eq.
    erewrite run_bind
      by (erewrite run_bind by apply run_ret; unfold Selector.ask_loop;
          apply ask_rounds_no_url).
    reflexivity.
  - rewrite requests_of_app. simpl. by rewrite app_nil_r.
Qed.

Lemma ask_selector_without_url_witness :
  Selector.ask_selector Sample.sample_rt Sample.net_down None (Some "k3y")
    (VDict {[ "input" := VStr "How are my devices?" ]}) []
  = (Ret (VDict (error_dict "Failed to fetch response after 3 attempts.")),
     [Slept 2; Slept 2; Slept 2])
  /\ requests_of [Slept 2; Slept 2; Slept 2] = [].
Proof.
  apply (ask_selector_without_url Sample.sample_rt Sample.net_down (Some "k3y")
           {[ "input" := VStr "How are my devices?" ]} (VStr "How are my devices?") []).
  reflexivity.
Defined.

(** X28: an answer that is valid JSON but not an object (a list, a text, a
    number) makes the natural-language tool raise an [AttributeError]
    after the request: it has no "content" to look up, and the tool has no
    handler for that. *)
Theorem ask_selector_raises_on_non_object (rt : runtime) (net : network) (url : string)
    (key : option string) (d : dict) (question : value) (resp : response) (body : value)
    (tr : trace) :
  d !! "input" = Some question ->
  let rq := Selector.ask_request url key {[ "content" := question ]} in
  net tr rq = Answer resp ->
  (200 <= status_code resp < 300)%Z ->
  json_loads rt (text resp) = inl body ->
  (forall b : dict, body <> VDict b) ->
  Selector.ask_selector rt net (Some url) key (VDict d) tr
  = (Raise AttributeError, tr ++ [Sent rq]).
Proof.
  intros Hinput rq Hnet Hst Hjs Hbody.
  unfold Selector.ask_selector, has_key. rewrite Hinput. cbn [negb].
  cbn [getitem_str]. rewrite Hinput. erewrite run_bind by apply run_ret.
  unfold Selector.SelectorAPI_ask. cbn [getitem_str]. rewrite lookup_singleton_eq.
  erewrite run_bind
    by (erewrite run_bind by apply run_ret;
        apply (ask_loop_answered rt net key url _ tr 0 resp body);
        [lia | intros i Hi; lia | cbn; by rewrite app_nil_r
        | by apply http_error_msg_None | exact Hjs]).
  cbn [Selector.failed_rounds replicate concat app].
  destruct body as [| | | | |b]; try reflexivity. by destruct (Hbody b).
Qed.

Lemma ask_selector_raises_on_non_object_witness :
  let rq := Selector.ask_request "https://selector.local/api" (Some "k3y")
              {[ "content" := VStr "How are my devices?" ]} in
  Selector.ask_selector
    {| json_loads := fun _ => inl (VList []); repr := fun _ => "[]";
       str_builtin := fun _ => "" |}
    (Sample.net_static 200 "OK" "[]") (Some "https://selector.local/api") (Some "k3y")
    (VDict {[ "input" := VStr "How are my devices?" ]}) []
  = (Raise AttributeError, [Sent rq]).
Proof.
  intros rq.
  apply (ask_selector_raises_on_non_object
           {| json_loads := fun _ => inl (VList []); repr := fun _ => "[]";
              str_builtin := fun _ => "" |}
           (Sample.net_static 200 "OK" "[]") "https://selector.local/api" (Some "k3y")
           {[ "input" := VStr "How are my devices?" ]} (VStr "How are my devices?")
           (Response 200 "OK" (req_url rq) "[]") (VList []) []).
  - reflexivity.
  - reflexivity.
  - simpl; lia.
  - reflexivity.
  - intros b H. discriminate H.
Defined.

(** X29: the raw-data tool posts {"command": <command>} and, once an
    attempt is answered with a JSON object, returns its "data" field, the
    sentence "No valid response received." when there is none, or the
    whole answer when it carries an "error" key. *)
Theorem ask_selector_raw_answers (rt : runtime) (net : network) (url : string)
    (key : option string) (d : dict) (command : value) (k : nat) (resp : response)
    (body : dict) (tr : trace) :
  d !! "command" = Some command ->
  let rq := Selector.ask_request url key {[ "command" := command ]} in
  k < 3 ->
  (forall i, i < k ->
     is_Some (request_error rt (net (tr ++ Selector.failed_rounds rq i) rq))) ->
  net (tr ++ Selector.failed_rounds rq k) rq = Answer resp ->
  (200 <= status_code resp < 300)%Z ->
  json_loads rt (text resp) = inl (VDict body) ->
  Selector.ask_selector_raw rt net (Some url) key (VDict d) tr
  = (Ret (if has_key body "error" then VDict body
          else default (VStr "No valid response received.") (body !! "data")),
     tr ++ Selector.failed_rounds rq k ++ [Sent rq]).
Proof.
  intros Hcommand rq Hk Hfail Hnet Hst Hjs.
  unfold Selector.ask_selector_raw, has_key. rewrite Hcommand. cbn [negb].
  cbn [getitem_str]. rewrite Hcommand. erewrite run_bind by apply run_ret.
  unfold Selector.SelectorRawDataAPI_ask. cbn [getitem_str]. rewrite lookup_singleton_eq.
  erewrite run_bind
    by (erewrite run_bind by apply run_ret;
        eapply ask_loop_answered; eauto using http_error_msg_None).
  unfold Selector.extract_field. fold (has_key body "error").
  destruct (has_key body "error"); reflexivity.
Qed.

Lemma ask_selector_raw_answers_witness :
  let rq := Selector.ask_request "https://selector.local/api" None
              {[ "command" := VStr "show devices" ]} in
  Selector.ask_selector_raw Sample2.sample_rt (Sample.net_static 200 "OK" Sample2.answer_text)
    (Some "https://selector.local/api") None
    (VDict {[ "command" := VStr "show devices" ]}) []
  = (Ret (VStr "No valid response received."), [Sent rq]).
Proof.
  intros rq.
  apply (ask_selector_raw_answers Sample2.sample_rt
           (Sample.net_static 200 "OK" Sample2.answer_text) "https://selector.local/api" None
           {[ "command" := VStr "show devices" ]} (VStr "show devices") 0
           (Response 200 "OK" (req_url rq) Sample2.answer_text) Sample2.answer []).
  - reflexivity.
  - lia.
  - intros i Hi. lia.
  - reflexivity.
  - simpl; lia.
  - reflexivity.
Defined.

(* ===================================================================== *)
(** ** Normalising a vendor twice *)
(* ===================================================================== *)

Lemma lower_char_idempotent (a : ascii) : lower_char (lower_char a) = lower_char a.
Proof. destruct a as [[] [] [] [] [] [] [] []]; reflexivity. Qed.

Lemma is_space_lower_char (a : ascii) : is_space (lower_char a) = is_space a.
Proof. destruct a as [[] [] [] [] [] [] [] []]; reflexivity. Qed.

Lemma lower_idempotent (s : string) : lower (lower s) = lower s.
Proof.
  induction s as [|a s IH]; [reflexivity|].
  cbn [lower]. by rewrite lower_char_idempotent, IH.
Qed.

Lemma lower_empty (s : string) : String.eqb (lower s) "" = String.eqb s "".
Proof. destruct s; reflexivity. Qed.

Lemma lstrip_lower (s : string) : lstrip (lower s) = lower (lstrip s).
Proof.
  induction s as [|a s IH]; [reflexivity|].
  cbn [lower lstrip]. rewrite is_space_lower_char. destruct (is_space a); [exact IH | reflexivity].
Qed.

Lemma rstrip_lower (s : string) : rstrip (lower s) = lower (rstrip s).
Proof.
  induction s as [|a s IH]; [reflexivity|].
  cbn [lower rstrip]. rewrite is_space_lower_char, IH, lower_empty.
  destruct (is_space a && String.eqb (rstrip s) ""); reflexivity.
Qed.

Lemma strip_lower (s : string) : strip (lower s) = lower (strip s).
Proof. unfold strip. by rewrite lstrip_lower, rstrip_lower. Qed.

Lemma rstrip_idempotent (s : string) : rstrip (rstrip s) = rstrip s.
Proof.
  induction s as [|a s IH]; [reflexivity|]. cbn [rstrip].
  destruct (is_space a && String.eqb (rstrip s) "") eqn:E; [reflexivity|].
  cbn [rstrip]. by rewrite IH, E.
Qed.

(** What [lstrip] returns does not start with a space, and [rstrip] keeps
    that. *)
Lemma lstrip_rstrip_lstrip (s : string) : lstrip (rstrip (lstrip s)) = rstrip (lstrip s).
Proof.
  induction s as [|a s IH]; [reflexivity|]. cbn [lstrip].
  destruct (is_space a) eqn:E; [exact IH|].
  cbn [rstrip]. rewrite E. cbn [andb lstrip]. by rewrite E.
Qed.

Lemma strip_idempotent (s : string) : strip (strip s) = strip s.
Proof. unfold strip. by rewrite lstrip_rstrip_lstrip, rstrip_idempotent. Qed.

Lemma vendor_mapping_values (key name : string) :
  OpenCVE.vendor_mapping !! key = Some name ->
  name = "juniper" \/ name = "cisco" \/ name = "arista".
Proof.
  unfold OpenCVE.vendor_mapping.
  repeat (rewrite lookup_insert; case_decide; [intros [= <-]; auto|]).
  rewrite lookup_singleton. case_decide; [intros [= <-]; auto | done].
Qed.

(** X30: normalising a vendor is idempotent on every string of the
    model (characters below U+0100): the name that is queried, given again
    as a vendor, is queried as itself. *)
Theorem normalize_vendor_idempotent (raw : string) :
  OpenCVE.normalize_vendor (OpenCVE.normalize_vendor raw) = OpenCVE.normalize_vendor raw.
Proof.
  assert (Hn : OpenCVE.normalize_vendor raw
               = default (lower (strip raw)) (OpenCVE.vendor_mapping !! lower (strip raw)))
    by reflexivity.
  destruct (OpenCVE.vendor_mapping !! lower (strip raw)) as [name|] eqn:Hlookup;
    cbn [default from_option id] in Hn; rewrite Hn.
  - destruct (vendor_mapping_values _ _ Hlookup) as [-> | [-> | ->]]; reflexivity.
  - unfold OpenCVE.normalize_vendor.
    rewrite strip_lower, strip_idempotent, lower_idempotent, Hlookup. reflexivity.
Qed.
